(** * A verification development for the OpenRouter coding CLI

  Shallow embedding of the agent loop's collaborators:
  - [Json], [JS]: parsed JSON values and the JavaScript operations the
    sources apply to them (property read, truthiness, [||]);
  - [McpSchema]: [hasValidTypes] of [tools/mcp-client.ts];
  - [FileDiscovery]: [FileDiscoveryService] (filterFiles, shouldIgnoreFile);
  - [OpenRouter]: [OpenRouterClient] (convertFromOpenRouterFormat and the
    streaming generator);
  - [Core], [TurnEngine]: the stream events and [Turn.run];
  - [Mcp]: server statuses and [connectAndDiscover];
  - [Orchestrator]: the stream hook (submitQuery, handleCompletedTools,
    saveRestorableToolCalls);
  - [FileDiscoveryInit]: the constructor of [FileDiscoveryService];
  - [McpCommand]: [populateMcpServerCommand];
  - [OpenRouterRequest]: the request the OpenRouter client sends, and
    [generateContent];
  - [ContentGenerator]: [createContentGeneratorConfig] and
    [createContentGenerator].
  Each module [M] of definitions has its lemmas in [MFacts].

  Conventions.  A JavaScript [string] is a Rocq [string] (a sequence of
  8-bit characters); a JSON number is an integer ([Z]); [undefined] is
  [None].  A function that may throw returns an [Outcome]. *)

From Stdlib Require Import String Ascii List ZArith Bool Arith Lia DecimalString.
From stdpp Require Import base gmap strings list.
Import ListNotations.

Local Open Scope string_scope.
Local Open Scope list_scope.

(* ===================================================================== *)
(** * Parsed JSON values *)
(* ===================================================================== *)

(** The value [JSON.parse] returns.  An object is the list of its members;
  its keys are pairwise distinct, as [JSON.parse] leaves them. *)
#[warnings="-register-all"]
Inductive Json : Type :=
| JNull
| JBool (b : bool)
| JNum (n : Z)
| JStr (s : string)
| JArr (items : list Json)
| JObj (members : list (string * Json)).

Module JS.

(** Number of constructors of a value: the measure of every recursion
    that follows property reads. *)
Fixpoint size (j : Json) : nat :=
  match j with
  | JArr l => S ((fix sizes (l : list Json) : nat :=
                    match l with
                    | [] => 0
                    | x :: r => size x + sizes r
                    end) l)
  | JObj ms => S ((fix sizes (ms : list (string * Json)) : nat :=
                     match ms with
                     | [] => 0
                     | (_, x) :: r => size x + sizes r
                     end) ms)
  | _ => 1
  end.

(** [typeof v === 'object' && v !== null] *)
Definition isObject (v : Json) : bool :=
  match v with
  | JArr _ | JObj _ => true
  | _ => false
  end.

(** ToBoolean. *)
Definition truthy (v : Json) : bool :=
  match v with
  | JNull => false
  | JBool b => b
  | JNum n => negb (n =? 0)%Z
  | JStr s => negb (s =? "")
  | JArr _ | JObj _ => true
  end.

(** ToBoolean of a value that may be [undefined]. *)
Definition truthy' (v : option Json) : bool :=
  match v with
  | Some x => truthy x
  | None => false
  end.

Fixpoint lookupMember (k : string) (ms : list (string * Json)) : option Json :=
  match ms with
  | [] => None
  | (k', v) :: r => if k' =? k then Some v else lookupMember k r
  end.

(** [v.k] for a receiver [v] that is neither [null] nor [undefined], and
    a key [k] that the prototypes of Object, Array, String, Number and
    Boolean do not define (all keys read by the sources are such, apart
    from [length]). *)
Definition prop (v : Json) (k : string) : option Json :=
  match v with
  | JObj ms => lookupMember k ms
  | JArr l => if k =? "length" then Some (JNum (Z.of_nat (List.length l))) else None
  | JStr s => if k =? "length" then Some (JNum (Z.of_nat (String.length s))) else None
  | _ => None
  end.

(** [Object.values(v)] of an object or an array. *)
Definition values (v : Json) : list Json :=
  match v with
  | JObj ms => map snd ms
  | JArr l => l
  | _ => []
  end.

(** ** Strings *)

Definition newline : ascii := ascii_of_nat 10.

(** [s.split('\n')] *)
Fixpoint splitLines (s : string) : list string :=
  match s with
  | EmptyString => [""]
  | String c r =>
      if Ascii.eqb c newline then "" :: splitLines r
      else match splitLines r with
           | x :: xs => String c x :: xs
           | [] => [String c ""]
           end
  end.

(** [s.startsWith(p)] *)
Definition startsWith (p s : string) : bool := String.prefix p s.

(** [s.slice(n)] for [n >= 0] *)
Fixpoint slice (n : nat) (s : string) : string :=
  match n, s with
  | O, _ => s
  | S m, String _ r => slice m r
  | S _, EmptyString => ""
  end.

(** White space and line terminators among the characters below 256. *)
Definition isWhiteSpace (c : ascii) : bool :=
  let n := nat_of_ascii c in
  ((9 <=? n) && (n <=? 13) || (n =? 32) || (n =? 160))%nat.

Fixpoint trimStart (s : string) : string :=
  match s with
  | String c r => if isWhiteSpace c then trimStart r else s
  | EmptyString => ""
  end.

Fixpoint trimEnd (s : string) : string :=
  match s with
  | EmptyString => ""
  | String c r =>
      match trimEnd r with
      | EmptyString => if isWhiteSpace c then "" else String c ""
      | t => String c t
      end
  end.

(** [s.trim()] *)
Definition trim (s : string) : string := trimEnd (trimStart s).

End JS.

(* ===================================================================== *)
(** * Exceptions *)
(* ===================================================================== *)

(** The values the modelled code throws. *)
Inductive Exn : Type :=
| TypeError
| SyntaxError
| HttpError (status : Z) (statusText : string) (errorData : option Json)
| PlainError (message : string).

(** The result of code that may throw. *)
Inductive Outcome (A : Type) : Type :=
| Return (a : A)
| Throw (e : Exn).

Arguments Return {A} a.
Arguments Throw {A} e.

Definition bindOutcome {A B : Type} (m : Outcome A) (k : A -> Outcome B) : Outcome B :=
  match m with
  | Return a => k a
  | Throw e => Throw e
  end.

Notation "'let!' x ':=' m 'in' k" := (bindOutcome m (fun x => k))
  (at level 10, x name, m at level 100, k at level 200).

(** [xs.map(f)] for a callback that may throw: the first exception ends
    the traversal. *)
Fixpoint mapOutcome {A B : Type} (f : A -> Outcome B) (xs : list A) : Outcome (list B) :=
  match xs with
  | [] => Return []
  | x :: r => let! y := f x in let! ys := mapOutcome f r in Return (y :: ys)
  end.
(* ===================================================================== *)
(** * MCP tool schemas: [hasValidTypes] (tools/mcp-client.ts) *)
(* ===================================================================== *)

Module McpSchema.
Import JS.

Definition schemaArrayKeywords : list string := ["anyOf"; "allOf"; "oneOf"].

(** [s.type === t] for a string literal [t]. *)
Definition typeIs (s : Json) (t : string) : bool :=
  match prop s "type" with
  | Some (JStr u) => u =? t
  | _ => false
  end.

Section Body.
(** The function called at the recursive call sites. *)
Variable self : Json -> bool.

(** The [for (const keyword of schemaArrayKeywords)] loop, with the
    local [hasSubSchema] as accumulator: [None] when the loop body
    executes [return false], [Some hasSubSchema] when the loop ends. *)
Fixpoint keywordLoop (s : Json) (keywords : list string) (hasSubSchema : bool)
  : option bool :=
  match keywords with
  | [] => Some hasSubSchema
  | keyword :: rest =>
      match prop s keyword with
      | Some (JArr subSchemas) =>
          if forallb self subSchemas then keywordLoop s rest true else None
      | _ => keywordLoop s rest hasSubSchema
      end
  end.

Definition hasValidTypesBody (schema : Json) : bool :=
  if negb (isObject schema) then true
  else
    let s := schema in
    let typed :=
      if negb (truthy' (prop s "type")) then
        match keywordLoop s schemaArrayKeywords false with
        | None => false
        | Some hasSubSchema => hasSubSchema
        end
      else true in
    if negb typed then false
    else if typeIs s "object" && truthy' (prop s "properties")
            && match prop s "properties" with
               | Some ps => isObject ps && negb (forallb self (values ps))
               | None => false
               end
    then false
    else if typeIs s "array" && truthy' (prop s "items")
            && match prop s "items" with
               | Some i => negb (self i)
               | None => false
               end
    then false
    else true.
End Body.

(** The recursion follows property reads, so it is run on a fuel: the
    size of the schema is enough ([hasValidTypes_unfold] below is the
    source's recursive equation). *)
Fixpoint hasValidTypesFuel (fuel : nat) : Json -> bool :=
  match fuel with
  | O => fun _ => true
  | S n => hasValidTypesBody (hasValidTypesFuel n)
  end.

Definition hasValidTypes (schema : Json) : bool :=
  hasValidTypesFuel (size schema) schema.

(** ** The claimed characterisation, as the specification words it *)

Definition hasType (n : Json) : bool := truthy' (prop n "type").

(** The members of the array under keyword [kw] ([[]] when there is no
    such array). *)
Definition subSchemas (n : Json) (kw : string) : list Json :=
  match prop n kw with
  | Some (JArr l) => l
  | _ => []
  end.

Definition nonEmpty (l : list Json) : bool :=
  match l with [] => false | _ => true end.

(** A node "either has a type or has a non-empty anyOf, allOf or oneOf
    array"; "non-object values are treated as valid". *)
Definition nodeOk (n : Json) : bool :=
  negb (isObject n) || hasType n
  || existsb (fun kw => nonEmpty (subSchemas n kw)) schemaArrayKeywords.

(** The nodes of a schema as the specification lists them: the root, each
    schema in the properties of an object-typed node, the items schema of
    an array-typed node, each member of an anyOf/allOf/oneOf array. *)
Inductive schemaNode (root : Json) : Json -> Prop :=
| node_root : schemaNode root root
| node_property n ps p :
    schemaNode root n -> typeIs n "object" = true ->
    prop n "properties" = Some ps -> In p (values ps) -> schemaNode root p
| node_items n i :
    schemaNode root n -> typeIs n "array" = true ->
    prop n "items" = Some i -> schemaNode root i
| node_member n kw m :
    schemaNode root n -> In kw schemaArrayKeywords ->
    In m (subSchemas n kw) -> schemaNode root m.

Definition specValid (s : Json) : Prop :=
  forall n, schemaNode s n -> nodeOk n = true.

(** ** The nodes the code visits *)

(** As [schemaNode], except that the anyOf/allOf/oneOf members are nodes
    only below a node that has no type. *)
Inductive visitedNode (root : Json) : Json -> Prop :=
| visit_root : visitedNode root root
| visit_property n ps p :
    visitedNode root n -> typeIs n "object" = true ->
    prop n "properties" = Some ps -> In p (values ps) -> visitedNode root p
| visit_items n i :
    visitedNode root n -> typeIs n "array" = true ->
    prop n "items" = Some i -> visitedNode root i
| visit_member n kw m :
    visitedNode root n -> hasType n = false -> In kw schemaArrayKeywords ->
    In m (subSchemas n kw) -> visitedNode root m.

(** No anyOf, allOf or oneOf member of any object inside [j] is an empty
    array. *)
Fixpoint noEmptySubSchemas (j : Json) : bool :=
  match j with
  | JArr l => forallb noEmptySubSchemas l
  | JObj ms =>
      forallb (fun kw => match lookupMember kw ms with
                         | Some (JArr []) => false
                         | _ => true
                         end) schemaArrayKeywords
      && forallb (fun '(_, v) => noEmptySubSchemas v) ms
  | _ => true
  end.

Definition exTypedWithUntypedMember : Json :=
  JObj [("type", JStr "object"); ("anyOf", JArr [JObj []])].

Definition exEmptyAnyOf : Json := JObj [("anyOf", JArr [])].

Definition exNested : Json :=
  JObj [("type", JStr "object");
        ("properties",
          JObj [("path", JObj [("type", JStr "string")]);
                ("mode", JObj [("anyOf", JArr [JObj [("type", JStr "string")];
                                               JObj [("type", JStr "null")]])]);
                ("tags", JObj [("type", JStr "array");
                               ("items", JObj [("type", JStr "string")])])])].

End McpSchema.

(* ===================================================================== *)
(** * File discovery: [FileDiscoveryService] *)
(* ===================================================================== *)

Module FileDiscovery.

(** [FilterFilesOptions]: both members are optional. *)
Record FilterFilesOptions : Type := {
  respectGitIgnore : option bool;
  respectcasualresearchIgnore : option bool
}.

(** [GitIgnoreFilter]: the service uses a loaded parser through
    [isIgnored] only. *)
Record GitIgnoreFilter : Type := {
  isIgnored : string -> bool
}.

Record FileDiscoveryService : Type := {
  gitIgnoreFilter : option GitIgnoreFilter;
  casualresearchIgnoreFilter : option GitIgnoreFilter;
  projectRoot : string
}.

Definition shouldGitIgnoreFile (this : FileDiscoveryService) (filePath : string) : bool :=
  match gitIgnoreFilter this with
  | Some f => isIgnored f filePath
  | None => false
  end.

Definition shouldcasualresearchIgnoreFile (this : FileDiscoveryService) (filePath : string)
  : bool :=
  match casualresearchIgnoreFilter this with
  | Some f => isIgnored f filePath
  | None => false
  end.

(** ToBoolean of an optional flag: [undefined] is falsy. *)
Definition flagSet (flag : option bool) : bool :=
  match flag with
  | Some b => b
  | None => false
  end.

(** The default value of the [options] parameter of [filterFiles]; it
    replaces an omitted argument, not an omitted member. *)
Definition filterFilesDefaults : FilterFilesOptions :=
  {| respectGitIgnore := Some true; respectcasualresearchIgnore := Some true |}.

Definition filterFiles (this : FileDiscoveryService) (filePaths : list string)
  (options : option FilterFilesOptions) : list string :=
  let options := match options with Some o => o | None => filterFilesDefaults end in
  List.filter
    (fun filePath =>
       if flagSet (respectGitIgnore options) && shouldGitIgnoreFile this filePath
       then false
       else if flagSet (respectcasualresearchIgnore options)
               && shouldcasualresearchIgnoreFile this filePath
       then false
       else true)
    filePaths.

(** The default value of the [options] parameter of [shouldIgnoreFile]. *)
Definition shouldIgnoreDefaults : FilterFilesOptions :=
  {| respectGitIgnore := None; respectcasualresearchIgnore := None |}.

Definition shouldIgnoreFile (this : FileDiscoveryService) (filePath : string)
  (options : option FilterFilesOptions) : bool :=
  let options := match options with Some o => o | None => shouldIgnoreDefaults end in
  (* const { respectGitIgnore = true, respectcasualresearchIgnore = true } = options *)
  let respectGitIgnore' :=
    match respectGitIgnore options with Some b => b | None => true end in
  let respectcasualresearchIgnore' :=
    match respectcasualresearchIgnore options with Some b => b | None => true end in
  if respectGitIgnore' && shouldGitIgnoreFile this filePath then true
  else if respectcasualresearchIgnore' && shouldcasualresearchIgnoreFile this filePath then true
  else false.

(** A service outside a git repository whose project ignore file lists
    [secret.txt]. *)
Definition exService : FileDiscoveryService :=
  {| gitIgnoreFilter := None;
     casualresearchIgnoreFilter := Some {| isIgnored := fun p => p =? "secret.txt" |};
     projectRoot := "/work" |}.

Definition exGitOnlyOff : FilterFilesOptions :=
  {| respectGitIgnore := Some false; respectcasualresearchIgnore := None |}.

(** Both members given. *)
Definition fullySpecified (o : FilterFilesOptions) : bool :=
  match respectGitIgnore o, respectcasualresearchIgnore o with
  | Some _, Some _ => true
  | _, _ => false
  end.

End FileDiscovery.

(* ===================================================================== *)
(** * The OpenRouter client (core/openRouterClient.ts) *)
(* ===================================================================== *)

Module OpenRouter.
Import JS.

(** ** JavaScript operations on parsed values *)

(** [v.k] where [v] may be [null]: reading a property of [null] throws. *)
Definition getProp (v : Json) (k : string) : Outcome (option Json) :=
  match v with
  | JNull => Throw TypeError
  | _ => Return (prop v k)
  end.

(** [v?.k] *)
Definition optProp (v : option Json) (k : string) : option Json :=
  match v with
  | None | Some JNull => None
  | Some x => prop x k
  end.

(** [v?.[0]]: the first element of an array, the first character of a
    string, the member ["0"] of an object. *)
Definition optIndex0 (v : option Json) : option Json :=
  match v with
  | Some (JArr (x :: _)) => Some x
  | Some (JStr (String c _)) => Some (JStr (String c ""))
  | Some (JObj ms) => lookupMember "0" ms
  | _ => None
  end.

(** [a || b] *)
Definition orElse (a : option Json) (b : Json) : Json :=
  match a with
  | Some x => if truthy x then x else b
  | None => b
  end.

(** [a || undefined] *)
Definition orUndefined (a : option Json) : option Json :=
  match a with
  | Some x => if truthy x then Some x else None
  | None => None
  end.

(** ** The converted response *)

Record FunctionCall : Type := {
  name : Json;
  args : Json
}.

Inductive Part : Type :=
| FunctionCallPart (functionCall : FunctionCall)
| TextPart (text : Json).

Record Candidate : Type := {
  parts : list Part;
  role : string;
  finishReason : option Json
}.

Record UsageMetadata : Type := {
  promptTokenCount : Json;
  candidatesTokenCount : Json;
  totalTokenCount : Json
}.

(** The object literal cast to [GenerateContentResponse]; its constant
    members ([data: ''], [executableCode: []], [codeExecutionResult: []])
    are left out. *)
Record GenerateContentResponse : Type := {
  candidates : list Candidate;
  usageMetadata : option UsageMetadata;
  responseText : Json;
  functionCalls : list FunctionCall
}.

Section Client.

(** [JSON.parse(text)]: the platform applies ToString to its argument and
    parses the result; [None] when it throws a SyntaxError. *)
Variable JSON_parse : Json -> option Json.

(** [v > 0] for a value [v] that is not a number (ToNumber is applied). *)
Variable toNumberPositive : Json -> bool.

(** The object built from one entry of [tool_calls]:
    [{ name: toolCall.function?.name || '',
       args: JSON.parse(toolCall.function?.arguments || '{}') }]. *)
Definition convertToolCall (toolCall : Json) : Outcome FunctionCall :=
  let! function := getProp toolCall "function" in
  let name := orElse (optProp function "name") (JStr "") in
  match JSON_parse (orElse (optProp function "arguments") (JStr "{}")) with
  | Some args => Return {| name := name; args := args |}
  | None => Throw SyntaxError
  end.

(** [x.length > 0] *)
Definition lengthPositive (x : Json) : bool :=
  match prop x "length" with
  | Some (JNum n) => (0 <? n)%Z
  | Some v => toNumberPositive v
  | None => false
  end.

(** [for (const toolCall of x) { ... }] collecting the function calls: an
    array yields its elements, a string its characters, nothing else that
    [JSON.parse] returns is iterable. *)
Definition forOfToolCalls (x : Json) : Outcome (list FunctionCall) :=
  match x with
  | JArr l => mapOutcome convertToolCall l
  | JStr s =>
      mapOutcome convertToolCall
        (map (fun c => JStr (String c "")) (list_ascii_of_string s))
  | _ => Throw TypeError
  end.

Definition convertFromOpenRouterFormat (data : Json) (isStreaming : bool)
  : Outcome (option GenerateContentResponse) :=
  if isStreaming then
    let! choices := getProp data "choices" in
    let choice0 := optIndex0 choices in
    let delta := optProp choice0 "delta" in
    if truthy' (optProp delta "tool_calls") then
      match optProp delta "tool_calls" with
      | Some (JArr tool_calls) =>
          let! calls := mapOutcome convertToolCall tool_calls in
          Return (Some
            {| candidates :=
                 [{| parts := map FunctionCallPart calls;
                     role := "model";
                     finishReason := orUndefined (optProp choice0 "finish_reason") |}];
               usageMetadata := None;
               responseText := JStr "";
               functionCalls := calls |})
      | _ => Throw TypeError  (* [.map] is not a function *)
      end
    else if truthy' (optProp delta "content") then
      let content := orElse (optProp delta "content") JNull in
      Return (Some
        {| candidates :=
             [{| parts := [TextPart content];
                 role := "model";
                 finishReason := orUndefined (optProp choice0 "finish_reason") |}];
           usageMetadata := None;
           responseText := content;
           functionCalls := [] |})
    else Return None
  else
    let! choices := getProp data "choices" in
    let choice := optIndex0 choices in
    let message := optProp choice "message" in
    let content := orElse (optProp message "content") (JStr "") in
    let! calls :=
      match optProp message "tool_calls" with
      | Some tool_calls =>
          if truthy tool_calls && lengthPositive tool_calls
          then forOfToolCalls tool_calls
          else Return []
      | None => Return []
      end in
    let parts := map FunctionCallPart calls in
    let parts := if truthy content then parts ++ [TextPart content] else parts in
    let parts := match parts with [] => [TextPart content] | _ => parts end in
    let usage := prop data "usage" in
    Return (Some
      {| candidates :=
           [{| parts := parts;
               role := "model";
               finishReason := Some (orElse (optProp choice "finish_reason") (JStr "STOP")) |}];
         usageMetadata :=
           Some {| promptTokenCount := orElse (optProp usage "prompt_tokens") (JNum 0);
                   candidatesTokenCount := orElse (optProp usage "completion_tokens") (JNum 0);
                   totalTokenCount := orElse (optProp usage "total_tokens") (JNum 0) |};
         responseText := content;
         functionCalls := calls |}).

(** ** The streaming generator *)

(** The response of [fetch], as the generator reads it.  [body] holds the
    chunks of the body as the [TextDecoder] returns them, one per
    [reader.read()]; [None] when there is no body.  [errorData] is the
    result of [response.json()] ([None] when it throws). *)
Record FetchResponse : Type := {
  ok : bool;
  status : Z;
  statusText : string;
  errorData : option Json;
  body : option (list string)
}.

(** The [for (const line of lines)] loop of one read: the responses
    yielded, and whether the loop executed [return] (the [DONE] line). *)
Fixpoint processLines (lines : list string) : list GenerateContentResponse * bool :=
  match lines with
  | [] => ([], false)
  | line :: rest =>
      if startsWith "data: " line then
        let jsonStr := trim (slice 6 line) in
        if jsonStr =? "[DONE]" then ([], true)
        else
          let yielded :=
            match JSON_parse (JStr jsonStr) with
            | Some data =>
                match convertFromOpenRouterFormat data true with
                | Return (Some converted) => [converted]
                | Return None => []
                | Throw _ => []   (* catch: skip malformed JSON *)
                end
            | None => []          (* catch: skip malformed JSON *)
            end in
          let '(more, returned) := processLines rest in
          (yielded ++ more, returned)
      else processLines rest
  end.

(** [lines.pop() || ''] and what [pop] leaves in [lines]. *)
Definition popLine (lines : list string) : list string * string :=
  (List.removelast lines, List.last lines "").

(** The [while (true)] loop over [reader.read()], [buffer] being the text
    read and not yet split off as a line. *)
Fixpoint readLoop (chunks : list string) (buffer : string)
  : list GenerateContentResponse :=
  match chunks with
  | [] => []                       (* done: break *)
  | value :: rest =>
      let buffer := (buffer ++ value)%string in
      let '(lines, buffer) := popLine (splitLines buffer) in
      let '(yielded, returned) := processLines lines in
      if returned then yielded else yielded ++ readLoop rest buffer
  end.

(** [createStreamGenerator], from the response of [fetch] on: the
    responses it yields and how it ends. *)
Definition createStreamGenerator (response : FetchResponse)
  : list GenerateContentResponse * Outcome unit :=
  if negb (ok response) then
    ([], Throw (HttpError (status response) (statusText response) (errorData response)))
  else
    match body response with
    | None => ([], Throw (PlainError "No response body available"))
    | Some chunks => (readLoop chunks "", Return tt)
    end.

End Client.

(** ** Example data *)

(** The double quote character. *)
Definition q : string := String (ascii_of_nat 34) "".

Definition exToolCallText : string :=
  ("{" ++ q ++ "function" ++ q ++ ":{" ++ q ++ "name" ++ q ++ ":" ++ q ++ "read_file" ++ q
  ++ "," ++ q ++ "arguments" ++ q ++ ":" ++ q ++ "{}" ++ q ++ "}}")%string.

Definition exToolCall : Json :=
  JObj [("function", JObj [("name", JStr "read_file"); ("arguments", JStr "{}")])].

(** A streaming chunk whose delta carries text and a tool call. *)
Definition exDeltaBothText : string :=
  ("{" ++ q ++ "choices" ++ q ++ ":[{" ++ q ++ "delta" ++ q ++ ":{"
  ++ q ++ "content" ++ q ++ ":" ++ q ++ "Reading the file." ++ q ++ ","
  ++ q ++ "tool_calls" ++ q ++ ":[" ++ exToolCallText ++ "]}}]}")%string.

Definition exDeltaBoth : Json :=
  JObj [("choices",
         JArr [JObj [("delta",
                      JObj [("content", JStr "Reading the file.");
                            ("tool_calls", JArr [exToolCall])])]])].

(** The same content as a non-streaming message. *)
Definition exMessageBoth : Json :=
  JObj [("choices",
         JArr [JObj [("message",
                      JObj [("content", JStr "Reading the file.");
                            ("tool_calls", JArr [exToolCall])])]])].

Definition exDeltaHelloText : string :=
  ("{" ++ q ++ "choices" ++ q ++ ":[{" ++ q ++ "delta" ++ q ++ ":{"
  ++ q ++ "content" ++ q ++ ":" ++ q ++ "Hello" ++ q ++ "}}]}")%string.

Definition exDeltaHello : Json :=
  JObj [("choices", JArr [JObj [("delta", JObj [("content", JStr "Hello")])]])].

(** [JSON.parse] on the texts the examples use; on any other text the
    examples do not depend on its answer (it is given as a failure). *)
Definition exParse (text : Json) : option Json :=
  match text with
  | JStr s =>
      if s =? "{}" then Some (JObj [])
      else if s =? "null" then Some JNull
      else if s =? exDeltaHelloText then Some exDeltaHello
      else if s =? exDeltaBothText then Some exDeltaBoth
      else None
  | _ => None
  end.

(** [v > 0] on non-numbers; the examples never reach it. *)
Definition exToNumberPositive (v : Json) : bool := false.

End OpenRouter.

(* ===================================================================== *)
(** * Shared types of the core package (core/turn.ts, @google/genai) *)
(* ===================================================================== *)

Module Core.

(** [FinishReason] of the generative API. *)
Inductive FinishReason : Type :=
| FINISH_REASON_UNSPECIFIED | STOP | MAX_TOKENS | SAFETY | RECITATION | LANGUAGE
| BLOCKLIST | PROHIBITED_CONTENT | SPII | OTHER | MALFORMED_FUNCTION_CALL
| IMAGE_SAFETY | UNEXPECTED_TOOL_CALL.

Record FunctionCall : Type := {
  id : option string;
  name : option string;
  args : option (gmap string Json)
}.

Record FunctionResponse : Type := {
  fr_id : option string;
  fr_name : option string;
  response : option Json
}.

(** [Part]: the members the modelled code reads or writes. *)
Record Part : Type := {
  text : option string;
  thought : option bool;
  functionCall : option FunctionCall;
  functionResponse : option FunctionResponse
}.

(** [{ text: s }] *)
Definition textPart (s : string) : Part :=
  {| text := Some s; thought := None; functionCall := None; functionResponse := None |}.

(** [{ functionResponse: { id, name, response } }] *)
Definition functionResponsePart (id name : string) (r : Json) : Part :=
  {| text := None; thought := None; functionCall := None;
     functionResponse :=
       Some {| fr_id := Some id; fr_name := Some name; response := Some r |} |}.

(** [PartUnion = Part | string] *)
Inductive PartUnion : Type :=
| PUString (s : string)
| PUPart (p : Part).

(** [PartListUnion = PartUnion[] | PartUnion] *)
Inductive PartListUnion : Type :=
| PLOne (u : PartUnion)
| PLMany (l : list PartUnion).

Record Content : Type := {
  role : string;
  parts : list Part
}.

Record StructuredError : Type := {
  message : string;
  status : option Z
}.

Record ToolCallRequestInfo : Type := {
  callId : string;
  tool_name : string;
  tool_args : gmap string Json;
  isClientInitiated : bool;
  prompt_id : string
}.

(** [ToolCallResponseInfo]; its display and error members are not read by
    the modelled code. *)
Record ToolCallResponseInfo : Type := {
  response_callId : string;
  responseParts : PartListUnion
}.

Record ThoughtSummary : Type := {
  subject : string;
  description : string
}.

Record ChatCompressionInfo : Type := {
  originalTokenCount : Z;
  newTokenCount : Z
}.

(** [ServercasualresearchStreamEvent] *)
Inductive StreamEvent : Type :=
| Content_ (value : string)
| ToolCallRequest (value : ToolCallRequestInfo)
| ToolCallResponse (value : ToolCallResponseInfo)
| ToolCallConfirmation (value : ToolCallRequestInfo)
| UserCancelled
| Error_ (value : StructuredError)
| ChatCompressed (value : option ChatCompressionInfo)
| Thought (value : ThoughtSummary)
| MaxSessionTurns
| Finished (value : FinishReason)
| LoopDetected.

Definition isErrorEvent (e : StreamEvent) : bool :=
  match e with Error_ _ => true | _ => false end.

Definition isUserCancelled (e : StreamEvent) : bool :=
  match e with UserCancelled => true | _ => false end.

End Core.

(* ===================================================================== *)
(** * The turn engine: [Turn.run] (core/turn.ts) *)
(* ===================================================================== *)

Module TurnEngine.
Import JS Core.

Record Candidate : Type := {
  content_parts : option (list Part);
  finishReason : option FinishReason
}.

(** [GenerateContentResponse], as the turn reads it. *)
Record GenerateContentResponse : Type := {
  candidates : option (list Candidate);
  functionCalls : option (list FunctionCall)
}.

(** A value thrown by the chat, as the catch block observes it:
    [instanceof UnauthorizedError], and the [status] property when the
    value is an object that has one.  [detail] is the rest of the value. *)
Record Thrown : Type := {
  isUnauthorizedError : bool;
  thrownStatus : option Json;
  detail : string
}.

(** One response of the backend stream, with the state of the
    cancellation signal when the loop receives it. *)
Record StreamItem : Type := {
  abortedAtArrival : bool;
  resp : GenerateContentResponse
}.

(** How the backend stream ends: exhausted, or an exception (with the
    state of the cancellation signal when it is caught). *)
Inductive StreamEnd : Type :=
| StreamDone
| StreamThrows (e : Thrown) (abortedAtCatch : bool).

Record ResponseStream : Type := {
  items : list StreamItem;
  ending : StreamEnd
}.

Record Turn : Type := {
  pendingToolCalls : list ToolCallRequestInfo;
  debugResponses : list GenerateContentResponse;
  turnFinishReason : option FinishReason;
  turn_prompt_id : string
}.

(** How a call of [run] ends, once its events have been consumed. *)
Inductive Completion : Type :=
| Returned
| Rethrown (error : Thrown).

Record RunResult : Type := {
  finalTurn : Turn;
  events : list StreamEvent;
  completion : Completion;
  (** the calls of [reportError]: the error and the context reported *)
  reports : list (Thrown * (list Content * PartListUnion))
}.

(** ** The bold subject of a thought *)

Definition star : ascii := ascii_of_nat 42.

(** The text before the leftmost [**] and the text after it. *)
Fixpoint splitAtStars (s : string) : option (string * string) :=
  match s with
  | EmptyString => None
  | String c r =>
      match r with
      | String d r' =>
          if Ascii.eqb c star && Ascii.eqb d star then Some ("", r')
          else match splitAtStars r with
               | Some (before, after) => Some (String c before, after)
               | None => None
               end
      | EmptyString => None
      end
  end.

(** [rawText.match(/\*\*(.*?)\*\*/s)]: the text before the match, group 1,
    and the text after the match. *)
Definition matchBold (rawText : string) : option (string * string * string) :=
  match splitAtStars rawText with
  | Some (before, rest) =>
      match splitAtStars rest with
      | Some (group1, after) => Some (before, group1, after)
      | None => None
      end
  | None => None
  end.

Section Run.

(** [toFriendlyError] and [getErrorMessage] (utils/errors.js). *)
Variable toFriendlyError : Thrown -> Thrown.
Variable getErrorMessage : Thrown -> string.

(** [getResponseText] (utils/generateContentResponseUtilities.js). *)
Variable getResponseText : GenerateContentResponse -> option string.

(** [this.chat.getHistory(true)] and
    [this.chat.maybeIncludeSchemaDepthContext], which may extend the
    message of the error it is given. *)
Variable curatedHistory : list Content.
Variable maybeIncludeSchemaDepthContext : StructuredError -> StructuredError.

(** The identifier built from the tool name, the clock and the random
    source for a call that has none; the number of calls already pending
    stands for the last two. *)
Variable synthesizeCallId : option string -> nat -> string.

Definition handlePendingFunctionCall (this : Turn) (fnCall : FunctionCall)
  : Turn * StreamEvent :=
  let callId :=
    match id fnCall with
    | Some i => i
    | None => synthesizeCallId (name fnCall) (List.length (pendingToolCalls this))
    end in
  let name :=
    match name fnCall with
    | Some n => if n =? "" then "undefined_tool_name" else n
    | None => "undefined_tool_name"
    end in
  let args := match args fnCall with Some a => a | None => ∅ end in
  let toolCallRequest :=
    {| callId := callId; tool_name := name; tool_args := args;
       isClientInitiated := false; prompt_id := turn_prompt_id this |} in
  ({| pendingToolCalls := pendingToolCalls this ++ [toolCallRequest];
      debugResponses := debugResponses this;
      turnFinishReason := turnFinishReason this;
      turn_prompt_id := turn_prompt_id this |},
   ToolCallRequest toolCallRequest).

(** [for (const fnCall of functionCalls)] *)
Fixpoint handleFunctionCalls (this : Turn) (calls : list FunctionCall)
  : Turn * list StreamEvent :=
  match calls with
  | [] => (this, [])
  | fnCall :: rest =>
      let '(this, event) := handlePendingFunctionCall this fnCall in
      let '(this, more) := handleFunctionCalls this rest in
      (this, event :: more)
  end.

(** [resp.candidates?.[0]] *)
Definition firstCandidate (resp : GenerateContentResponse) : option Candidate :=
  match candidates resp with
  | Some (c :: _) => Some c
  | _ => None
  end.

(** [resp.candidates?.[0]?.content?.parts?.[0]] *)
Definition firstPart (resp : GenerateContentResponse) : option Part :=
  match firstCandidate resp with
  | Some c => match content_parts c with
              | Some (p :: _) => Some p
              | _ => None
              end
  | None => None
  end.

(** The body of the [for await] loop for one response that is not
    cut short by the cancellation signal. *)
Definition processResponse (this : Turn) (resp : GenerateContentResponse)
  : Turn * list StreamEvent :=
  let this :=
    {| pendingToolCalls := pendingToolCalls this;
       debugResponses := debugResponses this ++ [resp];
       turnFinishReason := turnFinishReason this;
       turn_prompt_id := turn_prompt_id this |} in
  let isThought :=
    match firstPart resp with
    | Some thoughtPart => match thought thoughtPart with Some b => b | None => false end
    | None => false
    end in
  if isThought then
    let rawText :=
      match firstPart resp with
      | Some thoughtPart => match text thoughtPart with Some t => t | None => "" end
      | None => ""
      end in
    let subject :=
      match matchBold rawText with
      | Some (_, group1, _) => trim group1
      | None => ""
      end in
    let description :=
      match matchBold rawText with
      | Some (before, _, after) => trim (before ++ after)%string
      | None => trim rawText
      end in
    (this, [Thought {| subject := subject; description := description |}])
  else
    let contentEvents :=
      match getResponseText resp with
      | Some text => if text =? "" then [] else [Content_ text]
      | None => []
      end in
    let functionCalls := match functionCalls resp with Some l => l | None => [] end in
    let '(this, callEvents) := handleFunctionCalls this functionCalls in
    match firstCandidate resp with
    | Some {| finishReason := Some finishReason |} =>
        ({| pendingToolCalls := pendingToolCalls this;
            debugResponses := debugResponses this;
            turnFinishReason := Some finishReason;
            turn_prompt_id := turn_prompt_id this |},
         contentEvents ++ callEvents ++ [Finished finishReason])
    | _ => (this, contentEvents ++ callEvents)
    end.

(** The [catch] block. *)
Definition catchBlock (this : Turn) (req : PartListUnion) (e : Thrown) (aborted : bool)
  : RunResult :=
  let error := toFriendlyError e in
  if isUnauthorizedError error then
    {| finalTurn := this; events := []; completion := Rethrown error; reports := [] |}
  else if aborted then
    {| finalTurn := this; events := [UserCancelled]; completion := Returned;
       reports := [] |}
  else
    let contextForReport := (curatedHistory, req) in
    let status :=
      match thrownStatus error with
      | Some (JNum n) => Some n
      | _ => None
      end in
    let structuredError := {| message := getErrorMessage error; status := status |} in
    {| finalTurn := this;
       events := [Error_ (maybeIncludeSchemaDepthContext structuredError)];
       completion := Returned;
       reports := [(error, contextForReport)] |}.

(** The [for await] loop, then the end of the stream. *)
Fixpoint runLoop (this : Turn) (req : PartListUnion) (items : list StreamItem)
  (ending : StreamEnd) : RunResult :=
  match items with
  | [] =>
      match ending with
      | StreamDone =>
          {| finalTurn := this; events := []; completion := Returned; reports := [] |}
      | StreamThrows e abortedAtCatch => catchBlock this req e abortedAtCatch
      end
  | item :: rest =>
      if abortedAtArrival item then
        {| finalTurn := this; events := [UserCancelled]; completion := Returned;
           reports := [] |}
      else
        let '(this, emitted) := processResponse this (resp item) in
        let r := runLoop this req rest ending in
        {| finalTurn := finalTurn r; events := emitted ++ events r;
           completion := completion r; reports := reports r |}
  end.

Definition run (this : Turn) (req : PartListUnion) (stream : ResponseStream) : RunResult :=
  runLoop this req (items stream) (ending stream).

End Run.

(** ** Example data *)

Definition exTurn : Turn :=
  {| pendingToolCalls := []; debugResponses := []; turnFinishReason := None;
     turn_prompt_id := "session########0" |}.

Definition exUnauthorized : Thrown :=
  {| isUnauthorizedError := true; thrownStatus := Some (JNum 401); detail := "unauthorized" |}.

Definition exQuota : Thrown :=
  {| isUnauthorizedError := false; thrownStatus := Some (JNum 429); detail := "quota" |}.

Definition exHello : GenerateContentResponse :=
  {| candidates := Some [{| content_parts := Some [textPart "Hello"];
                            finishReason := None |}];
     functionCalls := None |}.

(** The text of the first candidate's text parts. *)
Definition exResponseText (resp : GenerateContentResponse) : option string :=
  match candidates resp with
  | Some (c :: _) =>
      match content_parts c with
      | Some ps =>
          Some (fold_right String.append ""
                  (map (fun p => match text p with Some t => t | None => "" end) ps))
      | None => None
      end
  | _ => None
  end.

Definition exCallId (name : option string) (n : nat) : string :=
  match name with Some s => s | None => "undefined" end.

End TurnEngine.

(* ===================================================================== *)
(** * The MCP client: connection and discovery (tools/mcp-client.ts) *)
(* ===================================================================== *)

Module Mcp.
Import JS McpSchema.

Definition MCP_DEFAULT_TIMEOUT_MSEC : Z := 10 * 60 * 1000.

Inductive MCPServerStatus : Type :=
| DISCONNECTED
| CONNECTING
| CONNECTED.

Inductive MCPDiscoveryState : Type :=
| NOT_STARTED
| IN_PROGRESS
| COMPLETED.

(** [MCPServerConfig]: the members the transport and the tools read. *)
Record MCPServerConfig : Type := {
  command : option string;
  args : option (list string);
  httpUrl : option string;
  url : option string;
  timeout : option Z;
  trust : option bool
}.

Inductive Transport : Type :=
| StdioClientTransport (command : string) (args : list string)
| StreamableHTTPClientTransport (url : string)
| SSEClientTransport (url : string).

(** A prompt as [prompts/list] returns it. *)
Record Prompt : Type := {
  prompt_name : string;
  prompt_description : option string
}.

Record DiscoveredMCPPrompt : Type := {
  originalPromptData : Prompt;
  serverName : string
}.

Record FunctionDeclaration : Type := {
  fd_name : option string;
  fd_description : option string;
  parametersJsonSchema : option Json
}.

Record DiscoveredMCPTool : Type := {
  tool_serverName : string;
  tool_name : option string;
  tool_description : string;
  tool_parameterSchema : Json;
  tool_timeout : Z;
  tool_trust : option bool
}.

(** What [mcpCallableTool.tool()] gives. *)
Inductive ToolListing : Type :=
| ToolListingThrows
| NoFunctionDeclarations
| FunctionDeclarations (declarations : list FunctionDeclaration).

(** The behaviour of one server during [connectAndDiscover]. *)
Record ServerBehaviour : Type := {
  (** [client.connect(transport)] rejects *)
  connectThrows : bool;
  (** [getServerCapabilities()?.prompts != null] *)
  promptsCapability : bool;
  (** the prompts of the [prompts/list] response; [None] when the request
      rejects *)
  listedPrompts : option (list Prompt);
  toolListing : ToolListing;
  (** calls of [mcpClient.onerror] while the discovery of prompts, then of
      tools, is awaited *)
  errorsDuringPrompts : nat;
  errorsDuringTools : nat
}.

(** A registered status-change listener, named by a number. *)
Definition StatusChangeListener : Type := nat.

(** The module state, with the registries the discovery writes to.
    [statusUpdates] and [notifications] record, oldest first, the calls of
    [serverStatuses.set] and the calls made to the listeners;
    [registeredTools] records the calls of [toolRegistry.registerTool]. *)
Record McpState (PromptRegistry : Type) : Type := {
  serverStatuses : gmap string MCPServerStatus;
  mcpDiscoveryState : MCPDiscoveryState;
  statusChangeListeners : list StatusChangeListener;
  statusUpdates : list (string * MCPServerStatus);
  notifications : list (StatusChangeListener * string * MCPServerStatus);
  promptRegistry : PromptRegistry;
  registeredTools : list DiscoveredMCPTool;
  closedClients : list string
}.

Arguments serverStatuses {PromptRegistry} _.
Arguments mcpDiscoveryState {PromptRegistry} _.
Arguments statusChangeListeners {PromptRegistry} _.
Arguments statusUpdates {PromptRegistry} _.
Arguments notifications {PromptRegistry} _.
Arguments promptRegistry {PromptRegistry} _.
Arguments registeredTools {PromptRegistry} _.
Arguments closedClients {PromptRegistry} _.

Section Client.

(** The prompt registry (prompts/prompt-registry.ts), used through
    [registerPrompt] and [getAllPrompts]. *)
Variable PromptRegistry : Type.
Variable registerPrompt : PromptRegistry -> DiscoveredMCPPrompt -> PromptRegistry.
Variable getAllPrompts : PromptRegistry -> list DiscoveredMCPPrompt.

(** [new URL(s)] does not throw. *)
Variable validURL : string -> bool.

Local Abbreviation State := (McpState PromptRegistry).

Definition addMCPStatusChangeListener (listener : StatusChangeListener) (st : State)
  : State :=
  {| serverStatuses := serverStatuses st;
     mcpDiscoveryState := mcpDiscoveryState st;
     statusChangeListeners := statusChangeListeners st ++ [listener];
     statusUpdates := statusUpdates st;
     notifications := notifications st;
     promptRegistry := promptRegistry st;
     registeredTools := registeredTools st;
     closedClients := closedClients st |}.

(** [indexOf] then [splice(index, 1)]: the first occurrence is removed. *)
Fixpoint removeFirst (listener : StatusChangeListener) (l : list StatusChangeListener)
  : list StatusChangeListener :=
  match l with
  | [] => []
  | x :: r => if Nat.eqb x listener then r else x :: removeFirst listener r
  end.

Definition removeMCPStatusChangeListener (listener : StatusChangeListener) (st : State)
  : State :=
  {| serverStatuses := serverStatuses st;
     mcpDiscoveryState := mcpDiscoveryState st;
     statusChangeListeners := removeFirst listener (statusChangeListeners st);
     statusUpdates := statusUpdates st;
     notifications := notifications st;
     promptRegistry := promptRegistry st;
     registeredTools := registeredTools st;
     closedClients := closedClients st |}.

Definition updateMCPServerStatus (serverName : string) (status : MCPServerStatus)
  (st : State) : State :=
  {| serverStatuses := <[serverName := status]> (serverStatuses st);
     mcpDiscoveryState := mcpDiscoveryState st;
     statusChangeListeners := statusChangeListeners st;
     statusUpdates := statusUpdates st ++ [(serverName, status)];
     notifications :=
       notifications st
       ++ map (fun listener => (listener, serverName, status)) (statusChangeListeners st);
     promptRegistry := promptRegistry st;
     registeredTools := registeredTools st;
     closedClients := closedClients st |}.

Definition getMCPServerStatus (serverName : string) (st : State) : MCPServerStatus :=
  match serverStatuses st !! serverName with
  | Some status => status
  | None => DISCONNECTED
  end.

(** A configuration member that is a non-empty string. *)
Definition present (member : option string) : option string :=
  match member with
  | Some s => if s =? "" then None else Some s
  | None => None
  end.

(** [createTransport]: [None] is [null]. *)
Definition createTransport (mcpServerName : string) (mcpServerConfig : MCPServerConfig)
  : option Transport :=
  match present (command mcpServerConfig) with
  | Some command =>
      Some (StdioClientTransport command
              (match args mcpServerConfig with Some a => a | None => [] end))
  | None =>
      match present (httpUrl mcpServerConfig) with
      | Some httpUrl =>
          if validURL httpUrl then Some (StreamableHTTPClientTransport httpUrl)
          else None        (* catch: return null *)
      | None =>
          match present (url mcpServerConfig) with
          | Some url =>
              if validURL url then Some (SSEClientTransport url)
              else None    (* catch: return null *)
          | None => None
          end
      end
  end.

(** [connectToMcpServer]: [None] is [undefined]; [Some] stands for the
    connected client. *)
Definition connectToMcpServer (mcpServerName : string)
  (mcpServerConfig : MCPServerConfig) (server : ServerBehaviour) : option Transport :=
  match createTransport mcpServerName mcpServerConfig with
  | None => None
  | Some transport => if connectThrows server then None else Some transport
  end.

(** [discoverPrompts]: the prompts returned and the registry it leaves. *)
Definition discoverPrompts (mcpServerName : string) (server : ServerBehaviour)
  (registry : PromptRegistry) : list DiscoveredMCPPrompt * PromptRegistry :=
  if negb (promptsCapability server) then ([], registry)
  else
    match listedPrompts server with
    | None => ([], registry)                   (* catch: return [] *)
    | Some prompts =>
        let registry :=
          fold_left
            (fun registry prompt =>
               registerPrompt registry
                 {| originalPromptData := prompt; serverName := mcpServerName |})
            prompts registry in
        (getAllPrompts registry, registry)
    end.

(** [isEnabled] *)
Definition isEnabled (funcDecl : FunctionDeclaration) (mcpServerName : string)
  (mcpServerConfig : MCPServerConfig) : bool := true.

(** [hasValidTypes(funcDecl.parametersJsonSchema)]; [undefined] is not an
    object. *)
Definition declarationHasValidTypes (funcDecl : FunctionDeclaration) : bool :=
  match parametersJsonSchema funcDecl with
  | Some schema => hasValidTypes schema
  | None => true
  end.

Definition discoverTools (mcpServerName : string) (mcpServerConfig : MCPServerConfig)
  (server : ServerBehaviour) : list DiscoveredMCPTool :=
  match toolListing server with
  | ToolListingThrows => []                    (* catch: return [] *)
  | NoFunctionDeclarations => []
  | FunctionDeclarations declarations =>
      flat_map
        (fun funcDecl =>
           if negb (isEnabled funcDecl mcpServerName mcpServerConfig) then []
           else if negb (declarationHasValidTypes funcDecl) then []
           else
             [{| tool_serverName := mcpServerName;
                 tool_name := fd_name funcDecl;
                 tool_description :=
                   match fd_description funcDecl with Some d => d | None => "" end;
                 tool_parameterSchema :=
                   match parametersJsonSchema funcDecl with
                   | Some schema => schema
                   | None => JObj [("type", JStr "object"); ("properties", JObj [])]
                   end;
                 tool_timeout :=
                   match timeout mcpServerConfig with
                   | Some t => t
                   | None => MCP_DEFAULT_TIMEOUT_MSEC
                   end;
                 tool_trust := trust mcpServerConfig |}])
        declarations
  end.

(** [n] calls of the [mcpClient.onerror] handler. *)
Fixpoint clientErrors (mcpServerName : string) (n : nat) (st : State) : State :=
  match n with
  | O => st
  | S m => clientErrors mcpServerName m (updateMCPServerStatus mcpServerName DISCONNECTED st)
  end.

Definition setPromptRegistry (registry : PromptRegistry) (st : State) : State :=
  {| serverStatuses := serverStatuses st;
     mcpDiscoveryState := mcpDiscoveryState st;
     statusChangeListeners := statusChangeListeners st;
     statusUpdates := statusUpdates st;
     notifications := notifications st;
     promptRegistry := registry;
     registeredTools := registeredTools st;
     closedClients := closedClients st |}.

Definition registerTools (tools : list DiscoveredMCPTool) (st : State) : State :=
  {| serverStatuses := serverStatuses st;
     mcpDiscoveryState := mcpDiscoveryState st;
     statusChangeListeners := statusChangeListeners st;
     statusUpdates := statusUpdates st;
     notifications := notifications st;
     promptRegistry := promptRegistry st;
     registeredTools := registeredTools st ++ tools;
     closedClients := closedClients st |}.

Definition closeClient (mcpServerName : string) (st : State) : State :=
  {| serverStatuses := serverStatuses st;
     mcpDiscoveryState := mcpDiscoveryState st;
     statusChangeListeners := statusChangeListeners st;
     statusUpdates := statusUpdates st;
     notifications := notifications st;
     promptRegistry := promptRegistry st;
     registeredTools := registeredTools st;
     closedClients := closedClients st ++ [mcpServerName] |}.

Definition connectAndDiscover (mcpServerName : string) (mcpServerConfig : MCPServerConfig)
  (server : ServerBehaviour) (st : State) : State :=
  let st := updateMCPServerStatus mcpServerName CONNECTING st in
  match connectToMcpServer mcpServerName mcpServerConfig server with
  | None => updateMCPServerStatus mcpServerName DISCONNECTED st
  | Some mcpClient =>
      let st := clientErrors mcpServerName (errorsDuringPrompts server) st in
      let '(prompts, registry) :=
        discoverPrompts mcpServerName server (promptRegistry st) in
      let st := setPromptRegistry registry st in
      let st := clientErrors mcpServerName (errorsDuringTools server) st in
      let tools := discoverTools mcpServerName mcpServerConfig server in
      if (List.length prompts =? 0)%nat && (List.length tools =? 0)%nat then
        (* throw new Error('No prompts or tools found on the server.'), caught *)
        updateMCPServerStatus mcpServerName DISCONNECTED (closeClient mcpServerName st)
      else
        registerTools tools (updateMCPServerStatus mcpServerName CONNECTED st)
  end.

End Client.

(** ** Example data *)

(** The registry is shared by the servers of a session.  For the examples:
    a registry that keeps the registered prompts in a list and whose
    [getAllPrompts] returns all of them, whichever server they were
    registered for. *)
Definition ListRegistry : Type := list DiscoveredMCPPrompt.

Definition listRegisterPrompt (registry : ListRegistry) (prompt : DiscoveredMCPPrompt)
  : ListRegistry := registry ++ [prompt].

Definition listGetAllPrompts (registry : ListRegistry) : list DiscoveredMCPPrompt :=
  registry.

Definition exConfig : MCPServerConfig :=
  {| command := Some "node"; args := Some ["server.js"]; httpUrl := None; url := None;
     timeout := None; trust := None |}.

(** A server that declares prompts, lists none, and declares no tool. *)
Definition exEmptyServer : ServerBehaviour :=
  {| connectThrows := false; promptsCapability := true; listedPrompts := Some [];
     toolListing := NoFunctionDeclarations;
     errorsDuringPrompts := 0; errorsDuringTools := 0 |}.

Definition exOtherPrompt : DiscoveredMCPPrompt :=
  {| originalPromptData := {| prompt_name := "review"; prompt_description := None |};
     serverName := "first" |}.

Definition exInitial (registry : ListRegistry) : McpState ListRegistry :=
  {| serverStatuses := ∅; mcpDiscoveryState := NOT_STARTED;
     statusChangeListeners := [1; 2]; statusUpdates := []; notifications := [];
     promptRegistry := registry; registeredTools := []; closedClients := [] |}.

End Mcp.

(* ===================================================================== *)
(** * The stream orchestrator: the [usecasualresearchStream] hook *)
(* ===================================================================== *)

(** Every handler of the hook (a submission, the scheduler's completion
    callback, the cancel key, the checkpoint effect) is a function from
    state to state: what the collaborators answer during the handler is
    given to it as an argument.  A handler reads the refs and the
    collaborators' state as they are when it runs.  [submitQuery] is a
    callback that React makes anew at each render in which
    [streamingState] has changed, and its guard reads the value of that
    render, not the current one: that value is an argument of
    [submitQuery].  A submission is given in two parts, [beginSubmission]
    up to the end of its first [await] and [completeSubmission] after it,
    so that what another call does in between can be stated;
    [submitQuery] is a submission that nothing interrupts.  The
    other [await]s (inside [prepareQueryForcasualresearch], between two
    events of the stream) are not split, and the other handlers are taken
    to be called through the callbacks of the latest render.  Logging and
    telemetry calls ([console.log], [logUserPrompt], [logger.logMessage])
    are left out. *)

Module Orchestrator.
Import JS Core.

Inductive StreamingState : Type :=
| Idle
| Responding
| WaitingForConfirmation.

(** The status of a tracked tool call. *)
Inductive Status : Type :=
| validating | scheduled | awaiting_approval | executing
| success | error | cancelled.

Record TrackedToolCall : Type := {
  request : ToolCallRequestInfo;
  status : Status;
  (** [tc.response], present with its [responseParts] *)
  response : option ToolCallResponseInfo;
  responseSubmittedTocasualresearch : bool
}.

(** ** Items of the UI history *)

Inductive ToolCallStatus : Type :=
| Pending | Canceled | Confirming | Executing | Success | Error.

Record IndividualToolCallDisplay : Type := {
  display_callId : string;
  display_name : string;
  display_status : ToolCallStatus
}.

(** The texts of the info items, by the place that writes them. *)
Inductive InfoText : Type :=
| RequestCancelled                         (* 'Request cancelled.' *)
| UserCancelledTheRequest                  (* 'User cancelled the request.' *)
| FinishWarning (message : string)
| ChatCompressedInfo (value : option ChatCompressionInfo)
| MaxSessionTurnsInfo
| LoopDetectedInfo.

(** The result of [parseAndFormatApiError], by its first argument. *)
Inductive ErrorText : Type :=
| ApiErrorOfEvent (error : StructuredError)
| ApiErrorOfException (message : string).

Inductive HistoryItemWithoutId : Type :=
| UserItem (text : string)
| ModelItem (text : string)                (* type 'casualresearch' *)
| ModelContentItem (text : string)         (* type 'casualresearch_content' *)
| ToolGroupItem (tools : list IndividualToolCallDisplay)
| InfoItem (text : InfoText)
| ErrorItem (text : ErrorText)
| SystemPromptItem (text : string).

Record AbortController : Type := {
  aborted : bool
}.

(** ** Calls to the collaborators *)

(** The object written to a checkpoint file ([JSON.stringify] of it). *)
Record Checkpoint : Type := {
  cp_history : list (HistoryItemWithoutId * Z);
  cp_clientHistory : list Content;
  cp_toolCall : string * gmap string Json;       (* name, args *)
  cp_commitHash : string;
  cp_filePath : string
}.

Inductive DebugText : Type :=
| UserQuery (trimmedQuery : string)
| QueryProcessingNull
| FailedToCreateCheckpointDirectory
| SkippingMissingFilePath (toolName : string)
| FailedToCreateSnapshot (filePath : string)
| FailedToWriteFile.

Inductive Effect : Type :=
| SendMessageStream (query : PartListUnion) (prompt_id : string)
| OnAuthError
| OnCancelSubmit
| PerformMemoryRefresh
| OnDebugMessage (message : DebugText)
| Mkdir (dir : string)
| WriteFile (path : string) (content : Checkpoint).

(** The state the hook works on.  First the hook's own React state and
    refs; then the collaborators' state it reads and writes: the tool
    scheduler's calls, the UI history ([addItem] appends to it), the chat's
    history, the session's prompt counter, the quota flags, and the calls
    made to the other collaborators, oldest first. *)
Record State : Type := {
  turnCancelledRef : bool;
  abortControllerRef : option AbortController;
  isResponding : bool;
  thought : option ThoughtSummary;
  pendingHistoryItemRef : option HistoryItemWithoutId;
  processedMemoryToolsRef : gset string;
  loopDetectedRef : bool;
  toolCalls : list TrackedToolCall;
  history : list (HistoryItemWithoutId * Z);
  clientHistory : list Content;
  promptCount : nat;
  modelSwitchedFromQuotaError : bool;
  quotaErrorOccurred : bool;
  effects : list Effect
}.

Definition set_turnCancelledRef (v : bool) (st : State) : State :=
  {|
     turnCancelledRef := v;
     abortControllerRef := abortControllerRef st;
     isResponding := isResponding st;
     thought := thought st;
     pendingHistoryItemRef := pendingHistoryItemRef st;
     processedMemoryToolsRef := processedMemoryToolsRef st;
     loopDetectedRef := loopDetectedRef st;
     toolCalls := toolCalls st;
     history := history st;
     clientHistory := clientHistory st;
     promptCount := promptCount st;
     modelSwitchedFromQuotaError := modelSwitchedFromQuotaError st;
     quotaErrorOccurred := quotaErrorOccurred st;
     effects := effects st |}.

Definition set_abortControllerRef (v : option AbortController) (st : State) : State :=
  {|
     turnCancelledRef := turnCancelledRef st;
     abortControllerRef := v;
     isResponding := isResponding st;
     thought := thought st;
     pendingHistoryItemRef := pendingHistoryItemRef st;
     processedMemoryToolsRef := processedMemoryToolsRef st;
     loopDetectedRef := loopDetectedRef st;
     toolCalls := toolCalls st;
     history := history st;
     clientHistory := clientHistory st;
     promptCount := promptCount st;
     modelSwitchedFromQuotaError := modelSwitchedFromQuotaError st;
     quotaErrorOccurred := quotaErrorOccurred st;
     effects := effects st |}.

Definition set_isResponding (v : bool) (st : State) : State :=
  {|
     turnCancelledRef := turnCancelledRef st;
     abortControllerRef := abortControllerRef st;
     isResponding := v;
     thought := thought st;
     pendingHistoryItemRef := pendingHistoryItemRef st;
     processedMemoryToolsRef := processedMemoryToolsRef st;
     loopDetectedRef := loopDetectedRef st;
     toolCalls := toolCalls st;
     history := history st;
     clientHistory := clientHistory st;
     promptCount := promptCount st;
     modelSwitchedFromQuotaError := modelSwitchedFromQuotaError st;
     quotaErrorOccurred := quotaErrorOccurred st;
     effects := effects st |}.

Definition set_thought (v : option ThoughtSummary) (st : State) : State :=
  {|
     turnCancelledRef := turnCancelledRef st;
     abortControllerRef := abortControllerRef st;
     isResponding := isResponding st;
     thought := v;
     pendingHistoryItemRef := pendingHistoryItemRef st;
     processedMemoryToolsRef := processedMemoryToolsRef st;
     loopDetectedRef := loopDetectedRef st;
     toolCalls := toolCalls st;
     history := history st;
     clientHistory := clientHistory st;
     promptCount := promptCount st;
     modelSwitchedFromQuotaError := modelSwitchedFromQuotaError st;
     quotaErrorOccurred := quotaErrorOccurred st;
     effects := effects st |}.

Definition set_pendingHistoryItemRef (v : option HistoryItemWithoutId) (st : State) : State :=
  {|
     turnCancelledRef := turnCancelledRef st;
     abortControllerRef := abortControllerRef st;
     isResponding := isResponding st;
     thought := thought st;
     pendingHistoryItemRef := v;
     processedMemoryToolsRef := processedMemoryToolsRef st;
     loopDetectedRef := loopDetectedRef st;
     toolCalls := toolCalls st;
     history := history st;
     clientHistory := clientHistory st;
     promptCount := promptCount st;
     modelSwitchedFromQuotaError := modelSwitchedFromQuotaError st;
     quotaErrorOccurred := quotaErrorOccurred st;
     effects := effects st |}.

Definition set_processedMemoryToolsRef (v : gset string) (st : State) : State :=
  {|
     turnCancelledRef := turnCancelledRef st;
     abortControllerRef := abortControllerRef st;
     isResponding := isResponding st;
     thought := thought st;
     pendingHistoryItemRef := pendingHistoryItemRef st;
     processedMemoryToolsRef := v;
     loopDetectedRef := loopDetectedRef st;
     toolCalls := toolCalls st;
     history := history st;
     clientHistory := clientHistory st;
     promptCount := promptCount st;
     modelSwitchedFromQuotaError := modelSwitchedFromQuotaError st;
     quotaErrorOccurred := quotaErrorOccurred st;
     effects := effects st |}.

Definition set_loopDetectedRef (v : bool) (st : State) : State :=
  {|
     turnCancelledRef := turnCancelledRef st;
     abortControllerRef := abortControllerRef st;
     isResponding := isResponding st;
     thought := thought st;
     pendingHistoryItemRef := pendingHistoryItemRef st;
     processedMemoryToolsRef := processedMemoryToolsRef st;
     loopDetectedRef := v;
     toolCalls := toolCalls st;
     history := history st;
     clientHistory := clientHistory st;
     promptCount := promptCount st;
     modelSwitchedFromQuotaError := modelSwitchedFromQuotaError st;
     quotaErrorOccurred := quotaErrorOccurred st;
     effects := effects st |}.

Definition set_toolCalls (v : list TrackedToolCall) (st : State) : State :=
  {|
     turnCancelledRef := turnCancelledRef st;
     abortControllerRef := abortControllerRef st;
     isResponding := isResponding st;
     thought := thought st;
     pendingHistoryItemRef := pendingHistoryItemRef st;
     processedMemoryToolsRef := processedMemoryToolsRef st;
     loopDetectedRef := loopDetectedRef st;
     toolCalls := v;
     history := history st;
     clientHistory := clientHistory st;
     promptCount := promptCount st;
     modelSwitchedFromQuotaError := modelSwitchedFromQuotaError st;
     quotaErrorOccurred := quotaErrorOccurred st;
     effects := effects st |}.

Definition set_history (v : list (HistoryItemWithoutId * Z)) (st : State) : State :=
  {|
     turnCancelledRef := turnCancelledRef st;
     abortControllerRef := abortControllerRef st;
     isResponding := isResponding st;
     thought := thought st;
     pendingHistoryItemRef := pendingHistoryItemRef st;
     processedMemoryToolsRef := processedMemoryToolsRef st;
     loopDetectedRef := loopDetectedRef st;
     toolCalls := toolCalls st;
     history := v;
     clientHistory := clientHistory st;
     promptCount := promptCount st;
     modelSwitchedFromQuotaError := modelSwitchedFromQuotaError st;
     quotaErrorOccurred := quotaErrorOccurred st;
     effects := effects st |}.

Definition set_clientHistory (v : list Content) (st : State) : State :=
  {|
     turnCancelledRef := turnCancelledRef st;
     abortControllerRef := abortControllerRef st;
     isResponding := isResponding st;
     thought := thought st;
     pendingHistoryItemRef := pendingHistoryItemRef st;
     processedMemoryToolsRef := processedMemoryToolsRef st;
     loopDetectedRef := loopDetectedRef st;
     toolCalls := toolCalls st;
     history := history st;
     clientHistory := v;
     promptCount := promptCount st;
     modelSwitchedFromQuotaError := modelSwitchedFromQuotaError st;
     quotaErrorOccurred := quotaErrorOccurred st;
     effects := effects st |}.

Definition set_promptCount (v : nat) (st : State) : State :=
  {|
     turnCancelledRef := turnCancelledRef st;
     abortControllerRef := abortControllerRef st;
     isResponding := isResponding st;
     thought := thought st;
     pendingHistoryItemRef := pendingHistoryItemRef st;
     processedMemoryToolsRef := processedMemoryToolsRef st;
     loopDetectedRef := loopDetectedRef st;
     toolCalls := toolCalls st;
     history := history st;
     clientHistory := clientHistory st;
     promptCount := v;
     modelSwitchedFromQuotaError := modelSwitchedFromQuotaError st;
     quotaErrorOccurred := quotaErrorOccurred st;
     effects := effects st |}.

Definition set_modelSwitchedFromQuotaError (v : bool) (st : State) : State :=
  {|
     turnCancelledRef := turnCancelledRef st;
     abortControllerRef := abortControllerRef st;
     isResponding := isResponding st;
     thought := thought st;
     pendingHistoryItemRef := pendingHistoryItemRef st;
     processedMemoryToolsRef := processedMemoryToolsRef st;
     loopDetectedRef := loopDetectedRef st;
     toolCalls := toolCalls st;
     history := history st;
     clientHistory := clientHistory st;
     promptCount := promptCount st;
     modelSwitchedFromQuotaError := v;
     quotaErrorOccurred := quotaErrorOccurred st;
     effects := effects st |}.

Definition set_quotaErrorOccurred (v : bool) (st : State) : State :=
  {|
     turnCancelledRef := turnCancelledRef st;
     abortControllerRef := abortControllerRef st;
     isResponding := isResponding st;
     thought := thought st;
     pendingHistoryItemRef := pendingHistoryItemRef st;
     processedMemoryToolsRef := processedMemoryToolsRef st;
     loopDetectedRef := loopDetectedRef st;
     toolCalls := toolCalls st;
     history := history st;
     clientHistory := clientHistory st;
     promptCount := promptCount st;
     modelSwitchedFromQuotaError := modelSwitchedFromQuotaError st;
     quotaErrorOccurred := v;
     effects := effects st |}.

Definition set_effects (v : list Effect) (st : State) : State :=
  {|
     turnCancelledRef := turnCancelledRef st;
     abortControllerRef := abortControllerRef st;
     isResponding := isResponding st;
     thought := thought st;
     pendingHistoryItemRef := pendingHistoryItemRef st;
     processedMemoryToolsRef := processedMemoryToolsRef st;
     loopDetectedRef := loopDetectedRef st;
     toolCalls := toolCalls st;
     history := history st;
     clientHistory := clientHistory st;
     promptCount := promptCount st;
     modelSwitchedFromQuotaError := modelSwitchedFromQuotaError st;
     quotaErrorOccurred := quotaErrorOccurred st;
     effects := v |}.

(** ** What the collaborators answer during one handler *)

Inductive SlashCommandProcessorResult : Type :=
| ScheduleTool (toolName : string) (toolArgs : gmap string Json)
| SubmitPrompt (content : PartListUnion)
| Handled.

(** An exception that ends the event stream, as the catch block of
    [submitQuery] observes it. *)
Record StreamError : Type := {
  isUnauthorizedError : bool;      (* instanceof UnauthorizedError *)
  isAbortError : bool;             (* isNodeError(error) && error.name === 'AbortError' *)
  errorMessage : string            (* getErrorMessage(error) *)
}.

Record SubmitEnv : Type := {
  (** [Date.now()] *)
  now : Z;
  (** [config.getSessionId()] *)
  sessionId : string;
  (** [handleSlashCommand(trimmedQuery)]; [None] is [false] *)
  slashCommandResult : option SlashCommandProcessorResult;
  shellModeActive : bool;
  (** [handleShellCommand(trimmedQuery, abortSignal)] *)
  shellCommandHandled : bool;
  (** [isAtCommand(trimmedQuery)] and the result of [handleAtCommand] *)
  atCommand : bool;
  atShouldProceed : bool;
  atProcessedQuery : option PartListUnion;
  (** the identifier built for a client-initiated tool call *)
  clientToolCallId : string;
  (** the environment asks for the system prompt to be shown, and the
      prompt the chat returns ([None] also when reading it throws) *)
  logSystemPrompt : bool;
  systemPrompt : option string;
  (** the events of [sendMessageStream], and the exception that ends them *)
  streamEvents : list StreamEvent;
  streamError : option StreamError;
  (** what the chat appends to its own history during the turn *)
  turnHistory : list Content
}.

Record Config : Type := {
  checkpointingEnabled : bool;
  projectTempDir : option string;
  projectRoot : option string
}.

Inductive MkdirResult : Type :=
| MkdirDone
| MkdirEEXIST
| MkdirFails.

(** The result of a call to the git service. *)
Inductive GitResult : Type :=
| GitThrows
| GitReturns (commitHash : option string).

(** The answers for one restorable tool call. *)
Record SnapshotEnv : Type := {
  createFileSnapshot : GitResult;
  getCurrentCommitHash : GitResult;
  (** [new Date().toISOString()] *)
  isoTimestamp : string;
  writeFileThrows : bool
}.

Record CheckpointEnv : Type := {
  mkdirResult : MkdirResult;
  (** by the position of the call among the restorable calls *)
  snapshotEnv : nat -> SnapshotEnv
}.

(** ** The collaborators' operations *)

Definition addItem (item : HistoryItemWithoutId) (timestamp : Z) (st : State) : State :=
  set_history (history st ++ [(item, timestamp)]) st.

Definition effect (e : Effect) (st : State) : State :=
  set_effects (effects st ++ [e]) st.

(** Modelled from the spec: [scheduleToolCalls] of the tool scheduler
    (useReactToolScheduler), which "appends each request as a
    TrackedToolCall in validating state". *)
Definition scheduleToolCalls (requests : list ToolCallRequestInfo) (st : State) : State :=
  set_toolCalls
    (toolCalls st
     ++ map (fun r => {| request := r; status := validating; response := None;
                         responseSubmittedTocasualresearch := false |}) requests)
    st.

(** Modelled from the spec: [markToolsAsSubmitted] of the tool scheduler,
    which "flips responseSubmittedToModel=true" for the given call ids. *)
Definition markToolsAsSubmitted (callIds : list string) (st : State) : State :=
  set_toolCalls
    (map (fun tc =>
            if existsb (String.eqb (callId (request tc))) callIds
            then {| request := request tc; status := status tc; response := response tc;
                    responseSubmittedTocasualresearch := true |}
            else tc)
       (toolCalls st))
    st.

(** Modelled from the spec: [startNewPrompt] and [getPromptCount] of the
    session statistics (SessionContext), the first of which increments the
    prompt counter. *)
Definition startNewPrompt (st : State) : State :=
  set_promptCount (S (promptCount st)) st.

Definition getPromptCount (st : State) : nat := promptCount st.

(** Modelled from the spec: [addHistory] of the client, which appends a
    message to the conversation history. *)
Definition addHistory (content : Content) (st : State) : State :=
  set_clientHistory (clientHistory st ++ [content]) st.

(** The calls of [sendMessageStream] made so far. *)
Definition backendCalls (st : State) : list (PartListUnion * string) :=
  flat_map (fun e => match e with
                     | SendMessageStream query prompt_id => [(query, prompt_id)]
                     | _ => []
                     end) (effects st).

(** The checkpoint files written so far. *)
Definition filesWritten (st : State) : list (string * Checkpoint) :=
  flat_map (fun e => match e with
                     | WriteFile path content => [(path, content)]
                     | _ => []
                     end) (effects st).

(** ** The hook *)

Definition mergePartListUnions (list : list PartListUnion) : PartListUnion :=
  PLMany (flat_map (fun item => match item with
                                | PLMany l => l
                                | PLOne u => [u]
                                end) list).

Definition isTerminalState (s : Status) : bool :=
  match s with
  | success | error | cancelled => true
  | _ => false
  end.

Definition streamingState (st : State) : StreamingState :=
  if existsb (fun tc => match status tc with awaiting_approval => true | _ => false end)
       (toolCalls st)
  then WaitingForConfirmation
  else if isResponding st
          || existsb (fun tc =>
                        match status tc with
                        | executing | scheduled | validating => true
                        | success | error | cancelled =>
                            negb (responseSubmittedTocasualresearch tc)
                        | awaiting_approval => false
                        end) (toolCalls st)
  then Responding
  else Idle.

(** [onExec]: around the execution of a shell command. *)
Definition onExecStart (st : State) : State := set_isResponding true st.
Definition onExecDone (st : State) : State := set_isResponding false st.

(** The [useInput] handler, for a key press with [key.escape]. *)
Definition escapeKey (timestamp : Z) (st : State) : State :=
  match streamingState st with
  | Responding =>
      if turnCancelledRef st then st
      else
        let st := set_turnCancelledRef true st in
        let st := match abortControllerRef st with
                  | Some _ => set_abortControllerRef (Some {| aborted := true |}) st
                  | None => st
                  end in
        let st := match pendingHistoryItemRef st with
                  | Some pending => addItem pending timestamp st
                  | None => st
                  end in
        let st := addItem (InfoItem RequestCancelled) timestamp st in
        let st := set_pendingHistoryItemRef None st in
        let st := effect OnCancelSubmit st in
        set_isResponding false st
  | _ => st
  end.

Definition finishReasonMessages (finishReason : FinishReason) : option string :=
  match finishReason with
  | FINISH_REASON_UNSPECIFIED => None
  | STOP => None
  | MAX_TOKENS => Some "Response truncated due to token limits."
  | SAFETY => Some "Response stopped due to safety reasons."
  | RECITATION => Some "Response stopped due to recitation policy."
  | LANGUAGE => Some "Response stopped due to unsupported language."
  | BLOCKLIST => Some "Response stopped due to forbidden terms."
  | PROHIBITED_CONTENT => Some "Response stopped due to prohibited content."
  | SPII =>
      Some "Response stopped due to sensitive personally identifiable information."
  | OTHER => Some "Response stopped for other reasons."
  | MALFORMED_FUNCTION_CALL => Some "Response stopped due to malformed function call."
  | IMAGE_SAFETY => Some "Response stopped due to image safety violations."
  | UNEXPECTED_TOOL_CALL => Some "Response stopped due to unexpected tool call."
  end.

(** [s.substring(0, n)] *)
Fixpoint substringTo (n : nat) (s : string) : string :=
  match n, s with
  | S m, String c r => String c (substringTo m r)
  | _, _ => ""
  end.

(** The decimal form of the prompt count. *)
Definition decimal (n : nat) : string := NilEmpty.string_of_uint (Nat.to_uint n).

(** ** The operations of the orchestrator *)

(** A submission (through the callback of a render with the given
    streaming state), the scheduler's completion callback, the escape key,
    a change of the scheduler's calls, the start and the end of a shell
    command, and the checkpoint effect. *)
Inductive Operation : Type :=
| SubmitQuery (rendered : StreamingState) (query : PartListUnion) (options : option bool)
    (prompt_id : option string) (env : SubmitEnv)
| ToolsCompleted (completed : list TrackedToolCall) (env : SubmitEnv)
| EscapeKey (timestamp : Z)
| SchedulerUpdate (calls : list TrackedToolCall)
| ExecStart
| ExecDone
| SaveRestorable (config : Config) (env : CheckpointEnv).

Section Hook.

(** [findLastSafeSplitPoint] (utils/markdownUtilities.js) *)
Variable findLastSafeSplitPoint : string -> nat.

(** [mapToDisplay] of the tool scheduler *)
Variable mapTrackedToolCallsToDisplay : list TrackedToolCall -> HistoryItemWithoutId.

(** [path.basename] and [path.join] *)
Variable basename : string -> string.
Variable pathJoin : string -> string -> string.

Definition handleContentEvent (eventValue : string)
  (currentcasualresearchMessageBuffer : string) (userMessageTimestamp : Z) (st : State)
  : State * string :=
  if turnCancelledRef st then (st, "")
  else
    let newBuffer := (currentcasualresearchMessageBuffer ++ eventValue)%string in
    let '(st, newBuffer) :=
      match pendingHistoryItemRef st with
      | Some (ModelItem _) | Some (ModelContentItem _) => (st, newBuffer)
      | pending =>
          let st := match pending with
                    | Some item => addItem item userMessageTimestamp st
                    | None => st
                    end in
          (set_pendingHistoryItemRef (Some (ModelItem "")) st, eventValue)
      end in
    (* the type of the pending item: 'casualresearch' or 'casualresearch_content' *)
    let sameType (text : string) :=
      match pendingHistoryItemRef st with
      | Some (ModelContentItem _) => ModelContentItem text
      | _ => ModelItem text
      end in
    let splitPoint := findLastSafeSplitPoint newBuffer in
    if (splitPoint =? String.length newBuffer)%nat then
      (set_pendingHistoryItemRef (Some (sameType newBuffer)) st, newBuffer)
    else
      let beforeText := substringTo splitPoint newBuffer in
      let afterText := slice splitPoint newBuffer in
      let st := addItem (sameType beforeText) userMessageTimestamp st in
      (set_pendingHistoryItemRef (Some (ModelContentItem afterText)) st, afterText).

Definition handleUserCancelledEvent (userMessageTimestamp : Z) (st : State) : State :=
  if turnCancelledRef st then st
  else
    let st :=
      match pendingHistoryItemRef st with
      | Some (ToolGroupItem tools) =>
          let updatedTools :=
            map (fun tool =>
                   match display_status tool with
                   | Pending | Confirming | Executing =>
                       {| display_callId := display_callId tool;
                          display_name := display_name tool;
                          display_status := Canceled |}
                   | _ => tool
                   end) tools in
          set_pendingHistoryItemRef None
            (addItem (ToolGroupItem updatedTools) userMessageTimestamp st)
      | Some pending =>
          set_pendingHistoryItemRef None (addItem pending userMessageTimestamp st)
      | None => st
      end in
    let st := addItem (InfoItem UserCancelledTheRequest) userMessageTimestamp st in
    let st := set_isResponding false st in
    set_thought None st.

Definition handleErrorEvent (eventValue : StructuredError) (userMessageTimestamp : Z)
  (st : State) : State :=
  let st :=
    match pendingHistoryItemRef st with
    | Some pending =>
        set_pendingHistoryItemRef None (addItem pending userMessageTimestamp st)
    | None => st
    end in
  let st := addItem (ErrorItem (ApiErrorOfEvent eventValue)) userMessageTimestamp st in
  set_thought None st.

Definition handleFinishedEvent (finishReason : FinishReason) (userMessageTimestamp : Z)
  (st : State) : State :=
  match finishReasonMessages finishReason with
  | Some message => addItem (InfoItem (FinishWarning message)) userMessageTimestamp st
  | None => st
  end.

(** The [for await (const event of stream)] loop, with the locals
    [casualresearchMessageBuffer] and [toolCallRequests]. *)
Fixpoint processEvents (events : list StreamEvent) (env : SubmitEnv)
  (casualresearchMessageBuffer : string) (toolCallRequests : list ToolCallRequestInfo)
  (st : State) : State * list ToolCallRequestInfo :=
  match events with
  | [] => (st, toolCallRequests)
  | event :: rest =>
      match event with
      | Thought value =>
          processEvents rest env casualresearchMessageBuffer toolCallRequests
            (set_thought (Some value) st)
      | Content_ value =>
          let '(st, buffer) :=
            handleContentEvent value casualresearchMessageBuffer (now env) st in
          processEvents rest env buffer toolCallRequests st
      | ToolCallRequest value =>
          processEvents rest env casualresearchMessageBuffer (toolCallRequests ++ [value]) st
      | UserCancelled =>
          processEvents rest env casualresearchMessageBuffer toolCallRequests
            (handleUserCancelledEvent (now env) st)
      | Error_ value =>
          processEvents rest env casualresearchMessageBuffer toolCallRequests
            (handleErrorEvent value (now env) st)
      | ChatCompressed value =>
          processEvents rest env casualresearchMessageBuffer toolCallRequests
            (addItem (InfoItem (ChatCompressedInfo value)) (now env) st)
      | ToolCallConfirmation _ | ToolCallResponse _ =>
          processEvents rest env casualresearchMessageBuffer toolCallRequests st
      | MaxSessionTurns =>
          processEvents rest env casualresearchMessageBuffer toolCallRequests
            (addItem (InfoItem MaxSessionTurnsInfo) (now env) st)
      | Finished value =>
          processEvents rest env casualresearchMessageBuffer toolCallRequests
            (handleFinishedEvent value (now env) st)
      | LoopDetected =>
          processEvents rest env casualresearchMessageBuffer toolCallRequests
            (set_loopDetectedRef true st)
      end
  end.

(** [processcasualresearchStreamEvents]: the state it leaves, and the
    exception when the stream ends with one. *)
Definition processcasualresearchStreamEvents (env : SubmitEnv) (st : State)
  : State * option StreamError :=
  let '(st, toolCallRequests) := processEvents (streamEvents env) env "" [] st in
  match streamError env with
  | Some e => (st, Some e)
  | None =>
      (match toolCallRequests with
       | [] => st
       | _ => scheduleToolCalls toolCallRequests st
       end, None)
  end.

(** [typeof query === 'string'] *)
Definition asString (query : PartListUnion) : option string :=
  match query with
  | PLOne (PUString s) => Some s
  | _ => None
  end.

(** [prepareQueryForcasualresearch]: the state it leaves and the query
    to send; [None] when [shouldProceed] is false or the query is null. *)
Definition prepareQueryForcasualresearch (query : PartListUnion)
  (userMessageTimestamp : Z) (prompt_id : string) (env : SubmitEnv) (st : State)
  : State * option PartListUnion :=
  if turnCancelledRef st then (st, None)
  else
    match asString query with
    | Some s =>
        let trimmedQuery := trim s in
        if (String.length trimmedQuery =? 0)%nat then (st, None)
        else
          let st := effect (OnDebugMessage (UserQuery trimmedQuery)) st in
          match slashCommandResult env with
          | Some (ScheduleTool toolName toolArgs) =>
              let toolCallRequest :=
                {| callId := clientToolCallId env; tool_name := toolName;
                   tool_args := toolArgs; isClientInitiated := true;
                   prompt_id := prompt_id |} in
              (scheduleToolCalls [toolCallRequest] st, None)
          | Some (SubmitPrompt content) => (st, Some content)
          | Some Handled => (st, None)
          | None =>
              if shellModeActive env && shellCommandHandled env then (st, None)
              else if atCommand env then
                if negb (atShouldProceed env) then (st, None)
                else
                  match atProcessedQuery env with
                  | Some processed => (st, Some processed)
                  | None => (effect (OnDebugMessage QueryProcessingNull) st, None)
                  end
              else
                (addItem (UserItem trimmedQuery) userMessageTimestamp st,
                 Some (PLOne (PUString trimmedQuery)))
          end
    | None => (st, Some query)
    end.

(** [options?.isContinuation] *)
Definition isContinuation (options : option bool) : bool :=
  match options with
  | Some b => b
  | None => false
  end.

Definition handleLoopDetectedEvent (timestamp : Z) (st : State) : State :=
  addItem (InfoItem LoopDetectedInfo) timestamp st.

(** The prompt id of a submission: the one given unless it is absent or
    empty. *)
Definition effectivePromptId (prompt_id : option string) (env : SubmitEnv) (st : State)
  : string :=
  match prompt_id with
  | Some p =>
      if p =? "" then (sessionId env ++ "########" ++ decimal (getPromptCount st))%string
      else p
  | None => (sessionId env ++ "########" ++ decimal (getPromptCount st))%string
  end.

(** [submitQuery] past its guard, up to the end of its first [await]: the
    resets and [prepareQueryForcasualresearch].  It gives the prompt id
    of the submission and the query to send, [None] when the submission
    ends there. *)
Definition prepareSubmission (query : PartListUnion) (options : option bool)
  (prompt_id : option string) (env : SubmitEnv) (st : State)
  : State * (string * option PartListUnion) :=
  let userMessageTimestamp := now env in
  let st :=
    if negb (isContinuation options)
    then set_quotaErrorOccurred false (set_modelSwitchedFromQuotaError false st)
    else st in
  let st := set_abortControllerRef (Some {| aborted := false |}) st in
  let st := set_turnCancelledRef false st in
  let prompt_id := effectivePromptId prompt_id env st in
  let '(st, queryToSend) :=
    prepareQueryForcasualresearch query userMessageTimestamp prompt_id env st in
  (st, (prompt_id, queryToSend)).

(** The first part of [submitQuery], from its guard to the end of its
    first [await].  [rendered] is the [streamingState] the callback holds,
    the one of the render that made it.  The result is [None] when the
    call returns in this part. *)
Definition beginSubmission (rendered : StreamingState) (query : PartListUnion)
  (options : option bool) (prompt_id : option string) (env : SubmitEnv) (st : State)
  : State * option (string * PartListUnion) :=
  match rendered, isContinuation options with
  | Responding, false | WaitingForConfirmation, false => (st, None)
  | _, _ =>
      let '(st, (prompt_id, queryToSend)) :=
        prepareSubmission query options prompt_id env st in
      (st, match queryToSend with
           | Some queryToSend => Some (prompt_id, queryToSend)
           | None => None
           end)
  end.

(** The second part of [submitQuery], after that [await], for a query to
    send. *)
Definition completeSubmission (queryToSend : PartListUnion) (options : option bool)
  (prompt_id : string) (env : SubmitEnv) (st : State) : State :=
  let userMessageTimestamp := now env in
  let st :=
    if negb (isContinuation options)
    then set_thought None (startNewPrompt st)
    else st in
  let st := set_isResponding true st in
  (* try *)
  let st :=
    if logSystemPrompt env && negb (isContinuation options) then
      match systemPrompt env with
      | Some text => if text =? "" then st
                     else addItem (SystemPromptItem text) (userMessageTimestamp - 1) st
      | None => st
      end
    else st in
  let st := effect (SendMessageStream queryToSend prompt_id) st in
  let st := set_clientHistory (clientHistory st ++ turnHistory env) st in
  let '(st, thrown) := processcasualresearchStreamEvents env st in
  let st :=
    match thrown with
    | None =>
        let st :=
          match pendingHistoryItemRef st with
          | Some pending =>
              set_pendingHistoryItemRef None
                (addItem pending userMessageTimestamp st)
          | None => st
          end in
        if loopDetectedRef st
        then handleLoopDetectedEvent (now env) (set_loopDetectedRef false st)
        else st
    | Some e =>
        (* catch *)
        if isUnauthorizedError e then effect OnAuthError st
        else if negb (isAbortError e) then
          addItem
            (ErrorItem (ApiErrorOfException
                          (if errorMessage e =? "" then "Unknown error"
                           else errorMessage e)))
            userMessageTimestamp st
        else st
    end in
  (* finally *)
  set_isResponding false st.

(** [submitQuery], when nothing runs between its two parts. *)
Definition submitQuery (rendered : StreamingState) (query : PartListUnion)
  (options : option bool) (prompt_id : option string) (env : SubmitEnv) (st : State)
  : State :=
  let '(st, pending) := beginSubmission rendered query options prompt_id env st in
  match pending with
  | Some (prompt_id, queryToSend) =>
      completeSubmission queryToSend options prompt_id env st
  | None => st
  end.

(** [submitQuery] past its guard. *)
Definition acceptedSubmission (query : PartListUnion) (options : option bool)
  (prompt_id : option string) (env : SubmitEnv) (st : State) : State :=
  let '(st, (prompt_id, queryToSend)) :=
    prepareSubmission query options prompt_id env st in
  match queryToSend with
  | None => st
  | Some queryToSend => completeSubmission queryToSend options prompt_id env st
  end.

(** The calls of the batch that are terminal and have response parts. *)
Definition completedAndReadyToSubmitTools (completed : list TrackedToolCall)
  : list TrackedToolCall :=
  List.filter
    (fun tc => if isTerminalState (status tc)
               then match response tc with Some _ => true | None => false end
               else false)
    completed.

(** Those of them that the model asked for. *)
Definition casualresearchTools (completed : list TrackedToolCall) : list TrackedToolCall :=
  List.filter (fun t => negb (isClientInitiated (request t)))
    (completedAndReadyToSubmitTools completed).

(** [toolCall.response.responseParts] of a call kept by the filter (the
    empty list stands for the absent response, which the filter excludes). *)
Definition responsePartsOf (toolCall : TrackedToolCall) : PartListUnion :=
  match response toolCall with
  | Some r => responseParts r
  | None => PLMany []
  end.

(** The parts added to the history for cancelled calls: [flatMap] over the
    response parts, a string becoming a text part. *)
Definition combinedParts (tools : list TrackedToolCall) : list Part :=
  map (fun u => match u with
                | PUString s => textPart s
                | PUPart p => p
                end)
    (flat_map (fun toolCall => match responsePartsOf toolCall with
                               | PLMany l => l
                               | PLOne u => [u]
                               end) tools).

Definition isCancelled (tc : TrackedToolCall) : bool :=
  match status tc with cancelled => true | _ => false end.

(** The part of [handleCompletedTools] that precedes the submission:
    client-initiated calls are marked, new memory saves refresh memory. *)
Definition finalizeClientAndMemoryTools (completed : list TrackedToolCall) (st : State)
  : State :=
  let ready := completedAndReadyToSubmitTools completed in
  let clientTools := List.filter (fun t => isClientInitiated (request t)) ready in
  let st :=
    match clientTools with
    | [] => st
    | _ => markToolsAsSubmitted (map (fun t => callId (request t)) clientTools) st
    end in
  let newSuccessfulMemorySaves :=
    List.filter
      (fun t => (tool_name (request t) =? "save_memory")
                && match status t with success => true | _ => false end
                && negb (bool_decide (callId (request t) ∈ processedMemoryToolsRef st)))
      ready in
  match newSuccessfulMemorySaves with
  | [] => st
  | _ =>
      let st := effect PerformMemoryRefresh st in
      set_processedMemoryToolsRef
        (fold_left (fun s t => s ∪ {[ callId (request t) ]}) newSuccessfulMemorySaves
           (processedMemoryToolsRef st))
        st
  end.

Definition handleCompletedTools (completedToolCallsFromScheduler : list TrackedToolCall)
  (env : SubmitEnv) (st : State) : State :=
  if isResponding st then st
  else
    let st := finalizeClientAndMemoryTools completedToolCallsFromScheduler st in
    let tools := casualresearchTools completedToolCallsFromScheduler in
    match tools with
    | [] => st
    | first :: _ =>
        let callIdsToMarkAsSubmitted := map (fun t => callId (request t)) tools in
        if forallb isCancelled tools then
          let st := addHistory {| role := "user"; parts := combinedParts tools |} st in
          markToolsAsSubmitted callIdsToMarkAsSubmitted st
        else
          let responsesToSend := map responsePartsOf tools in
          if modelSwitchedFromQuotaError st then st
          else
            let mergedResponse := mergePartListUnions responsesToSend in
            (* a continuation passes the guard of [submitQuery] whatever
               streaming state its callback holds *)
            let st :=
              submitQuery (streamingState st) mergedResponse (Some true)
                (Some (prompt_id (request first))) env st in
            markToolsAsSubmitted callIdsToMarkAsSubmitted st
    end.

(** The completion callback given to the tool scheduler. *)
Definition onComplete (completedToolCallsFromScheduler : list TrackedToolCall)
  (env : SubmitEnv) (st : State) : State :=
  match completedToolCallsFromScheduler with
  | [] => st
  | _ =>
      let st :=
        addItem (mapTrackedToolCallsToDisplay completedToolCallsFromScheduler) (now env)
          st in
      handleCompletedTools completedToolCallsFromScheduler env st
  end.

(** ** Checkpoints *)

(** [s.replace(/c/g, d)] for single characters. *)
Fixpoint replaceAll (c d : ascii) (s : string) : string :=
  match s with
  | EmptyString => ""
  | String x r => String (if Ascii.eqb x c then d else x) (replaceAll c d r)
  end.

Definition colon : ascii := ascii_of_nat 58.
Definition dot : ascii := ascii_of_nat 46.
Definition dash : ascii := ascii_of_nat 45.
Definition underscore : ascii := ascii_of_nat 95.

(** The calls a checkpoint is taken for. *)
Definition restorableToolCalls (st : State) : list TrackedToolCall :=
  List.filter
    (fun toolCall =>
       ((tool_name (request toolCall) =? "replace")
        || (tool_name (request toolCall) =? "write_file"))
       && match status toolCall with awaiting_approval => true | _ => false end)
    (toolCalls st).

(** A hash that is a non-empty string. *)
Definition truthyHash (h : option string) : option string :=
  match h with
  | Some s => if s =? "" then None else Some s
  | None => None
  end.

(** The body of the [for (const toolCall of restorableToolCalls)] loop. *)
Definition saveRestorableToolCall (config : Config) (checkpointDir : string)
  (env : SnapshotEnv) (snapshotHistory : list (HistoryItemWithoutId * Z))
  (toolCall : TrackedToolCall) (st : State) : State :=
  let toolName := tool_name (request toolCall) in
  match tool_args (request toolCall) !! "file_path" with
  | Some filePath =>
      if negb (truthy filePath)
      then effect (OnDebugMessage (SkippingMissingFilePath toolName)) st
      else
        (* try *)
        let gitService := match projectRoot config with
                          | Some root => negb (root =? "")
                          | None => false
                          end in
        let failed := effect (OnDebugMessage FailedToWriteFile) st in
        let withHash (commitHash : string) :=
          match filePath with
          | JStr filePath =>
              let timestamp :=
                replaceAll dot underscore (replaceAll colon dash (isoTimestamp env)) in
              let fileName := basename filePath in
              let toolCallWithSnapshotFileName :=
                (timestamp ++ "-" ++ fileName ++ "-" ++ toolName ++ ".json")%string in
              let toolCallWithSnapshotFilePath :=
                pathJoin checkpointDir toolCallWithSnapshotFileName in
              if writeFileThrows env then failed
              else
                effect
                  (WriteFile toolCallWithSnapshotFilePath
                     {| cp_history := snapshotHistory;
                        cp_clientHistory := clientHistory st;
                        cp_toolCall := (toolName, tool_args (request toolCall));
                        cp_commitHash := commitHash;
                        cp_filePath := filePath |})
                  st
          | _ => failed          (* [path.basename] throws on a non-string *)
          end in
        let noHash :=
          effect (OnDebugMessage
                    (FailedToCreateSnapshot
                       (match filePath with JStr s => s | _ => "" end))) st in
        if negb gitService then noHash
        else
          match createFileSnapshot env with
          | GitThrows => failed
          | GitReturns h =>
              match truthyHash h with
              | Some commitHash => withHash commitHash
              | None =>
                  match getCurrentCommitHash env with
                  | GitThrows => failed
                  | GitReturns h' =>
                      match truthyHash h' with
                      | Some commitHash => withHash commitHash
                      | None => noHash
                      end
                  end
              end
          end
  | None => effect (OnDebugMessage (SkippingMissingFilePath toolName)) st
  end.

Fixpoint saveRestorableLoop (config : Config) (checkpointDir : string)
  (env : CheckpointEnv) (snapshotHistory : list (HistoryItemWithoutId * Z))
  (position : nat) (calls : list TrackedToolCall) (st : State) : State :=
  match calls with
  | [] => st
  | toolCall :: rest =>
      saveRestorableLoop config checkpointDir env snapshotHistory (S position) rest
        (saveRestorableToolCall config checkpointDir (snapshotEnv env position)
           snapshotHistory toolCall st)
  end.

(** The effect that runs when the tool calls change. *)
Definition saveRestorableToolCalls (config : Config) (env : CheckpointEnv) (st : State)
  : State :=
  if negb (checkpointingEnabled config) then st
  else
    match restorableToolCalls st with
    | [] => st
    | calls =>
        match projectTempDir config with
        | Some tempDir =>
            if tempDir =? "" then st
            else
              let checkpointDir := pathJoin tempDir "checkpoints" in
              let st := effect (Mkdir checkpointDir) st in
              match mkdirResult env with
              | MkdirFails =>
                  effect (OnDebugMessage FailedToCreateCheckpointDirectory) st
              | _ =>
                  saveRestorableLoop config checkpointDir env (history st) 0 calls st
              end
        | None => st
        end
    end.

(** ** One operation, and a sequence of them *)

Definition step (op : Operation) (st : State) : State :=
  match op with
  | SubmitQuery rendered query options prompt_id env =>
      submitQuery rendered query options prompt_id env st
  | ToolsCompleted completed env => onComplete completed env st
  | EscapeKey timestamp => escapeKey timestamp st
  | SchedulerUpdate calls => set_toolCalls calls st
  | ExecStart => onExecStart st
  | ExecDone => onExecDone st
  | SaveRestorable config env => saveRestorableToolCalls config env st
  end.

Fixpoint runOperations (ops : list Operation) (st : State) : State :=
  match ops with
  | [] => st
  | op :: rest => runOperations rest (step op st)
  end.

End Hook.

(** ** Example data *)

Definition initialState : State :=
  {| turnCancelledRef := false; abortControllerRef := None; isResponding := false;
     thought := None; pendingHistoryItemRef := None; processedMemoryToolsRef := ∅;
     loopDetectedRef := false; toolCalls := []; history := []; clientHistory := [];
     promptCount := 0; modelSwitchedFromQuotaError := false;
     quotaErrorOccurred := false; effects := [] |}.

(** The answers of the collaborators for a plain submission whose turn
    yields the given events. *)
Definition exEnv (events : list StreamEvent) : SubmitEnv :=
  {| now := 1000; sessionId := "session"; slashCommandResult := None;
     shellModeActive := false; shellCommandHandled := false; atCommand := false;
     atShouldProceed := false; atProcessedQuery := None; clientToolCallId := "client-1";
     logSystemPrompt := false; systemPrompt := None;
     streamEvents := events; streamError := None; turnHistory := [] |}.

Definition exRequest : ToolCallRequestInfo :=
  {| callId := "t1"; tool_name := "read_file"; tool_args := ∅;
     isClientInitiated := false; prompt_id := "session########0" |}.

Definition exResponsePart : Part :=
  functionResponsePart "t1" "read_file" (JObj [("output", JStr "file contents")]).

(** The tool call [t1] in a terminal state, with its response. *)
Definition exCompleted (s : Status) : TrackedToolCall :=
  {| request := exRequest; status := s;
     response := Some {| response_callId := "t1";
                         responseParts := PLOne (PUPart exResponsePart) |};
     responseSubmittedTocasualresearch := false |}.


(** A split point that never splits. *)
Definition exSplitPoint (s : string) : nat := String.length s.

Definition exDisplay (calls : list TrackedToolCall) : HistoryItemWithoutId :=
  ToolGroupItem
    (map (fun tc => {| display_callId := callId (request tc);
                        display_name := tool_name (request tc);
                        display_status := match status tc with
                                          | success => Success
                                          | error => Error
                                          | cancelled => Canceled
                                          | awaiting_approval => Confirming
                                          | executing => Executing
                                          | _ => Pending
                                          end |}) calls).

(** The last component of a path written with [/]. *)
Fixpoint exBasename (p : string) : string :=
  match p with
  | EmptyString => ""
  | String c r =>
      if existsb (Ascii.eqb (ascii_of_nat 47)) (list_ascii_of_string r)
      then exBasename r
      else if Ascii.eqb c (ascii_of_nat 47) then r else p
  end.

Definition exPathJoin (a b : string) : string := (a ++ "/" ++ b)%string.

(** A [write_file] call on [/work/src/a.ts] that awaits approval. *)
Definition exWriteFile : TrackedToolCall :=
  {| request :=
       {| callId := "w1"; tool_name := "write_file";
          tool_args := {[ "file_path" := JStr "/work/src/a.ts" ]};
          isClientInitiated := false; prompt_id := "session########0" |};
     status := awaiting_approval; response := None;
     responseSubmittedTocasualresearch := false |}.

Definition exAwaitingApproval : State := set_toolCalls [exWriteFile] initialState.

Definition exConfig (tempDir : option string) : Config :=
  {| checkpointingEnabled := true; projectTempDir := tempDir;
     projectRoot := Some "/work" |}.

(** The file system and the git service answer as given; the snapshot
    gives the hash [abc123]. *)
Definition exCheckpointEnv (mkdir : MkdirResult) (writeThrows : bool) : CheckpointEnv :=
  {| mkdirResult := mkdir;
     snapshotEnv := fun _ =>
       {| createFileSnapshot := GitReturns (Some "abc123");
          getCurrentCommitHash := GitReturns None;
          isoTimestamp := "2025-07-01T10:20:30.123Z";
          writeFileThrows := writeThrows |} |}.

End Orchestrator.

(* ===================================================================== *)
(** * File discovery: the constructor of [FileDiscoveryService] *)
(* ===================================================================== *)

Module FileDiscoveryInit.
Import FileDiscovery.

Definition casualresearch_IGNORE_FILE_NAME : string := ".casualresearchignore".

Section Constructor.

(** [path.resolve] and [isGitRepository] (utils/gitUtils.js). *)
Variable resolve : string -> string.
Variable isGitRepository : string -> bool.

(** [new GitIgnoreParser(root)] (utils/gitIgnoreParser.js) once
    [loadGitRepoPatterns()], or [loadPatterns(name)], has returned or
    thrown: the constructor keeps the parser in both cases. *)
Variable gitRepoParser : string -> GitIgnoreFilter.
Variable patternsParser : string -> string -> GitIgnoreFilter.

Definition newFileDiscoveryService (projectRoot : string) : FileDiscoveryService :=
  let projectRoot := resolve projectRoot in
  {| gitIgnoreFilter :=
       if isGitRepository projectRoot then Some (gitRepoParser projectRoot) else None;
     casualresearchIgnoreFilter :=
       Some (patternsParser projectRoot casualresearch_IGNORE_FILE_NAME);
     projectRoot := projectRoot |}.

End Constructor.

(** A project outside a git repository whose ignore file lists
    [secret.txt]. *)
Definition exResolve (p : string) : string := p.
Definition exIsGitRepository (p : string) : bool := false.
Definition exGitRepoParser (root : string) : GitIgnoreFilter :=
  {| isIgnored := fun p => p =? "node_modules" |}.
Definition exPatternsParser (root name : string) : GitIgnoreFilter :=
  {| isIgnored := fun p => p =? "secret.txt" |}.

End FileDiscoveryInit.

(* ===================================================================== *)
(** * The MCP client: the server given on the command line *)
(* ===================================================================== *)

Module McpCommand.
Import Mcp.

(** An entry of the array [parse] of shell-quote returns: a word, or an
    object (an operator, a glob, a comment). *)
Inductive ParseEntry : Type :=
| Word (s : string)
| ControlOperator (op : string).

Definition isWord (entry : ParseEntry) : bool :=
  match entry with
  | Word _ => true
  | ControlOperator _ => false
  end.

(** The entry read as a string, as the cast [as string[]] has it. *)
Definition wordOf (entry : ParseEntry) : string :=
  match entry with
  | Word s => s
  | ControlOperator op => op
  end.

Section Populate.

(** [parse(cmd, process.env)] of shell-quote. *)
Variable parse : string -> list ParseEntry.

(** [populateMcpServerCommand]: the servers it returns (the object it was
    given, updated in place), or the exception. *)
Definition populateMcpServerCommand (mcpServers : gmap string MCPServerConfig)
  (mcpServerCommand : option string) : Outcome (gmap string MCPServerConfig) :=
  match mcpServerCommand with
  | Some cmd =>
      if cmd =? "" then Return mcpServers
      else
        let args := parse cmd in
        if existsb (fun arg => negb (isWord arg)) args then
          Throw (PlainError ("failed to parse mcpServerCommand: " ++ cmd))
        else
          (* use generic server name 'mcp' *)
          Return (<["mcp" := {| command := match args with
                                           | arg :: _ => Some (wordOf arg)
                                           | [] => None
                                           end;
                                args := Some (map wordOf (tl args));
                                httpUrl := None; url := None;
                                timeout := None; trust := None |}]> mcpServers)
  | None => Return mcpServers
  end.

End Populate.

(** Words separated by single spaces. *)
Fixpoint exWords (current : string) (s : string) : list ParseEntry :=
  match s with
  | EmptyString => [Word current]
  | String c r =>
      if Ascii.eqb c (ascii_of_nat 32) then Word current :: exWords "" r
      else exWords (current ++ String c "") r
  end.

Definition exParse (cmd : string) : list ParseEntry :=
  if String.eqb cmd "node server.js | tee log"
  then [Word "node"; Word "server.js"; ControlOperator "|"; Word "tee"; Word "log"]
  else exWords "" cmd.

End McpCommand.

(* ===================================================================== *)
(** * The OpenRouter client: the request it sends, [generateContent] *)
(* ===================================================================== *)

(** The calls of [console.log] and [console.warn] are left out. *)

Module OpenRouterRequest.
Import JS OpenRouter.

(** A part of a content, as the conversion reads it: its [text]. *)
Record RequestPart : Type := {
  part_text : option string
}.

(** An element of [request.contents]: an object, with its [role] and
    [parts] members when it has them, or a string. *)
Inductive ContentItem : Type :=
| ContentObject (role : option string) (parts : option (list RequestPart))
| ContentString (s : string).

(** [request.contents]: an array, or a single content, part or string. *)
Inductive RequestContents : Type :=
| ContentsArray (items : list ContentItem)
| ContentsSingle (item : ContentItem).

(** [request.config.systemInstruction]: a string, an object with a [parts]
    member, or another object (a part, an array of parts). *)
Inductive SystemInstruction : Type :=
| SystemString (s : string)
| SystemContent (parts : list RequestPart)
| SystemOther.

(** A function declaration of a tool, as the conversion reads it. *)
Record FunctionDeclaration : Type := {
  fd_name : option string;
  fd_description : option string;
  fd_parameters : option Json
}.

(** A tool of [request.config.tools]; [None] when it has no
    [functionDeclarations] array. *)
Record Tool : Type := {
  functionDeclarations : option (list FunctionDeclaration)
}.

(** [GenerateContentParameters], with the members of [config] the client
    reads. *)
Record GenerateContentParameters : Type := {
  contents : option RequestContents;
  systemInstruction : option SystemInstruction;
  tools : option (list Tool)
}.

Record Message : Type := {
  msg_role : string;
  msg_content : string
}.

(** [{ type: 'function', function: { name, description, parameters } }] *)
Record OpenRouterTool : Type := {
  fn_name : option string;
  fn_description : string;
  fn_parameters : Json
}.

(** The body of the POST request; [body_tools] is [None] when the member
    is not set. *)
Record RequestBody : Type := {
  body_model : string;
  body_messages : list Message;
  body_stream : bool;
  body_tools : option (list OpenRouterTool)
}.

(** [texts.join('\n')] *)
Fixpoint joinLines (texts : list string) : string :=
  match texts with
  | [] => ""
  | [t] => t
  | t :: rest => (t ++ String newline (joinLines rest))%string
  end.

Definition convertToolsToOpenRouterFormat (tools : option (list Tool))
  : list OpenRouterTool :=
  match tools with
  | None | Some [] => []
  | Some tools =>
      flat_map
        (fun tool =>
           match functionDeclarations tool with
           | Some declarations =>
               map (fun funcDecl =>
                      {| fn_name := fd_name funcDecl;
                         fn_description :=
                           match fd_description funcDecl with
                           | Some d => d
                           | None => ""
                           end;
                         fn_parameters :=
                           match fd_parameters funcDecl with
                           | Some p => if truthy p then p else JObj []
                           | None => JObj []
                           end |})
                 declarations
           | None => []
           end)
        tools
  end.

(** [parts.filter((part) => part.text).map((part) => part.text).join('\n')] *)
Definition textParts (parts : list RequestPart) : string :=
  joinLines
    (flat_map (fun part => match part_text part with
                           | Some t => if t =? "" then [] else [t]
                           | None => []
                           end) parts).

(** The text of the system message; the empty string when there is none. *)
Definition systemContent (instruction : option SystemInstruction) : string :=
  match instruction with
  | Some (SystemString s) => s
  | Some (SystemContent parts) =>
      (* [undefined] is joined as the empty string *)
      joinLines (map (fun part => match part_text part with
                                  | Some t => t
                                  | None => ""
                                  end) parts)
  | Some SystemOther => ""
  | None => ""
  end.

(** The messages one element of [request.contents] adds. *)
Definition convertContent (content : ContentItem) : list Message :=
  match content with
  | ContentObject (Some role) (Some parts) =>
      if role =? "user" then
        let textParts := textParts parts in
        if textParts =? "" then []
        else [{| msg_role := "user"; msg_content := textParts |}]
      else if role =? "model" then
        let textParts := textParts parts in
        if textParts =? "" then []
        else [{| msg_role := "assistant"; msg_content := textParts |}]
      else []
  | ContentObject _ _ => []
  | ContentString s => [{| msg_role := "user"; msg_content := s |}]
  end.

Definition convertToOpenRouterFormat (request : GenerateContentParameters)
  : list Message :=
  let systemContent := systemContent (systemInstruction request) in
  let messages :=
    if systemContent =? "" then []
    else [{| msg_role := "system"; msg_content := systemContent |}] in
  let messages :=
    match contents request with
    | Some (ContentsArray items) => messages ++ flat_map convertContent items
    | _ => messages
    end in
  (* If no messages were converted, create a default user message *)
  match messages with
  | [] => [{| msg_role := "user"; msg_content := "Hello" |}]
  | _ => messages
  end.

(** The request body [generateContent] ([stream] false) and
    [createStreamGenerator] ([stream] true) send. *)
Definition requestBody (model : string) (request : GenerateContentParameters)
  (stream : bool) : RequestBody :=
  let messages := convertToOpenRouterFormat request in
  let tools := convertToolsToOpenRouterFormat (tools request) in
  {| body_model := model;
     body_messages := messages;
     body_stream := stream;
     body_tools := match tools with
                   | [] => None
                   | _ => Some tools
                   end |}.

Section Client.
Variable JSON_parse : Json -> option Json.
Variable toNumberPositive : Json -> bool.

(** [generateContent], from the response of [fetch] on; [data] is what
    [response.json()] resolves to, [None] when it rejects. *)
Definition generateContent (response : FetchResponse) (data : option Json)
  : Outcome GenerateContentResponse :=
  if negb (ok response) then
    Throw (HttpError (status response) (statusText response) (errorData response))
  else
    match data with
    | None => Throw SyntaxError
    | Some data =>
        let! result := convertFromOpenRouterFormat JSON_parse toNumberPositive data false in
        match result with
        | None => Throw (PlainError "Failed to convert OpenRouter response")
        | Some result => Return result
        end
    end.

End Client.

(** ** Example data *)

(** A request whose history holds a function call and its response, and
    no text. *)
Definition exToolOnlyRequest : GenerateContentParameters :=
  {| contents :=
       Some (ContentsArray
               [ContentObject (Some "model") (Some [{| part_text := None |}]);
                ContentObject (Some "user") (Some [{| part_text := None |}])]);
     systemInstruction := None;
     tools := None |}.

Definition exChatRequest : GenerateContentParameters :=
  {| contents :=
       Some (ContentsArray
               [ContentObject (Some "user") (Some [{| part_text := Some "Say hello." |}]);
                ContentObject (Some "model")
                  (Some [{| part_text := Some "Hello" |}; {| part_text := None |};
                         {| part_text := Some "world" |}])]);
     systemInstruction := Some (SystemString "Be brief.");
     tools :=
       Some [{| functionDeclarations :=
                  Some [{| fd_name := Some "read_file"; fd_description := None;
                           fd_parameters := None |}] |};
             {| functionDeclarations := None |}] |}.

End OpenRouterRequest.

(* ===================================================================== *)
(** * The content generator and its configuration
      (core/contentGenerator.ts, config/models.ts) *)
(* ===================================================================== *)

Module ContentGenerator.

Definition DEFAULT_casualresearch_MODEL : string := "openai/gpt-oss-20b:free".

(** The model used with OpenRouter when the configuration names none. *)
Definition OPENROUTER_DEFAULT_MODEL : string := "anthropic/claude-3.5-sonnet".

Inductive AuthType : Type :=
| LOGIN_WITH_GOOGLE
| USE_casualresearch
| USE_VERTEX_AI
| CLOUD_SHELL
| USE_OPENROUTER.

Definition authTypeEqb (a b : AuthType) : bool :=
  match a, b with
  | LOGIN_WITH_GOOGLE, LOGIN_WITH_GOOGLE
  | USE_casualresearch, USE_casualresearch
  | USE_VERTEX_AI, USE_VERTEX_AI
  | CLOUD_SHELL, CLOUD_SHELL
  | USE_OPENROUTER, USE_OPENROUTER => true
  | _, _ => false
  end.

(** [authType === t] for an [authType] that may be [undefined]. *)
Definition isAuthType (authType : option AuthType) (t : AuthType) : bool :=
  match authType with
  | Some a => authTypeEqb a t
  | None => false
  end.

(** The variables of [process.env] the configuration reads; [None] for a
    variable that is not set. *)
Record ProcessEnv : Type := {
  casualresearch_API_KEY : option string;
  OPENROUTER_API_KEY : option string;
  GOOGLE_API_KEY : option string;
  GOOGLE_CLOUD_PROJECT : option string;
  GOOGLE_CLOUD_LOCATION : option string
}.

(** [v || undefined] *)
Definition orUndefined (v : option string) : option string :=
  match v with
  | Some s => if s =? "" then None else Some s
  | None => None
  end.

(** [Config], as the configuration reads it. *)
Record Config : Type := {
  getModel : string;
  getProxy : option string
}.

Record ContentGeneratorConfig : Type := {
  model : string;
  apiKey : option string;
  vertexai : option bool;
  authType : option AuthType;
  proxy : option string
}.

(** [createContentGeneratorConfig].  The call of [getEffectiveModel],
    whose promise is dropped, is left out. *)
Definition createContentGeneratorConfig (env : ProcessEnv) (config : Config)
  (authType : option AuthType) : ContentGeneratorConfig :=
  let casualresearchApiKey := orUndefined (casualresearch_API_KEY env) in
  let openrouterApiKey := orUndefined (OPENROUTER_API_KEY env) in
  let googleApiKey := orUndefined (GOOGLE_API_KEY env) in
  let googleCloudProject := orUndefined (GOOGLE_CLOUD_PROJECT env) in
  let googleCloudLocation := orUndefined (GOOGLE_CLOUD_LOCATION env) in
  let configModel := getModel config in
  let effectiveModel :=
    if isAuthType authType USE_OPENROUTER then
      if configModel =? "" then OPENROUTER_DEFAULT_MODEL else configModel
    else
      if configModel =? "" then DEFAULT_casualresearch_MODEL else configModel in
  let contentGeneratorConfig :=
    {| model := effectiveModel; apiKey := None; vertexai := None;
       authType := authType; proxy := getProxy config |} in
  if isAuthType authType LOGIN_WITH_GOOGLE || isAuthType authType CLOUD_SHELL then
    contentGeneratorConfig
  else
    match isAuthType authType USE_casualresearch, casualresearchApiKey with
    | true, Some key =>
        {| model := effectiveModel; apiKey := Some key; vertexai := Some false;
           authType := authType; proxy := getProxy config |}
    | _, _ =>
        match isAuthType authType USE_OPENROUTER, openrouterApiKey with
        | true, Some key =>
            {| model := effectiveModel; apiKey := Some key; vertexai := Some false;
               authType := authType; proxy := getProxy config |}
        | _, _ =>
            if isAuthType authType USE_VERTEX_AI
               && (match googleApiKey with
                   | Some _ => true
                   | None =>
                       match googleCloudProject, googleCloudLocation with
                       | Some _, Some _ => true
                       | _, _ => false
                       end
                   end)
            then
              {| model := effectiveModel; apiKey := googleApiKey; vertexai := Some true;
                 authType := authType; proxy := getProxy config |}
            else contentGeneratorConfig
        end
    end.

Section Create.

(** The generator of the code-assist server. *)
Variable CodeAssist : Type.

(** What a [LoggingContentGenerator] wraps. *)
Inductive Generator : Type :=
| CodeAssistGenerator (generator : CodeAssist)
| GoogleGenAIModels (apiKey : option string) (vertexai : option bool)
| OpenRouterClient (apiKey model : string).

Inductive ContentGenerator : Type :=
| LoggingContentGenerator (wrapped : Generator).

(** [createCodeAssistContentGenerator] (code_assist/codeAssist.js), which
    may reject. *)
Variable createCodeAssistContentGenerator : AuthType -> Outcome CodeAssist.

(** The name of an auth type, as the error message shows it. *)
Definition authTypeName (authType : option AuthType) : string :=
  match authType with
  | Some LOGIN_WITH_GOOGLE => "oauth-personal"
  | Some USE_casualresearch => "casualresearch-api-key"
  | Some USE_VERTEX_AI => "vertex-ai"
  | Some CLOUD_SHELL => "cloud-shell"
  | Some USE_OPENROUTER => "openrouter-api-key"
  | None => "undefined"
  end.

Definition createContentGenerator (config : ContentGeneratorConfig)
  : Outcome ContentGenerator :=
  match authType config with
  | Some LOGIN_WITH_GOOGLE =>
      let! generator := createCodeAssistContentGenerator LOGIN_WITH_GOOGLE in
      Return (LoggingContentGenerator (CodeAssistGenerator generator))
  | Some CLOUD_SHELL =>
      let! generator := createCodeAssistContentGenerator CLOUD_SHELL in
      Return (LoggingContentGenerator (CodeAssistGenerator generator))
  | Some USE_casualresearch | Some USE_VERTEX_AI =>
      Return (LoggingContentGenerator
                (GoogleGenAIModels (orUndefined (apiKey config)) (vertexai config)))
  | Some USE_OPENROUTER =>
      match orUndefined (apiKey config) with
      | None => Throw (PlainError "OpenRouter API key is required")
      | Some key => Return (LoggingContentGenerator (OpenRouterClient key (model config)))
      end
  | None =>
      Throw (PlainError ("Error creating contentGenerator: Unsupported authType: "
                         ++ authTypeName (authType config)))
  end.

End Create.

Arguments CodeAssistGenerator {CodeAssist} generator.
Arguments GoogleGenAIModels {CodeAssist} apiKey vertexai.
Arguments OpenRouterClient {CodeAssist} apiKey model.
Arguments LoggingContentGenerator {CodeAssist} wrapped.

(** ** Example data *)

Definition exEnv : ProcessEnv :=
  {| casualresearch_API_KEY := Some "g-key"; OPENROUTER_API_KEY := Some "or-key";
     GOOGLE_API_KEY := None; GOOGLE_CLOUD_PROJECT := None;
     GOOGLE_CLOUD_LOCATION := None |}.

Definition exConfig : Config := {| getModel := ""; getProxy := None |}.

End ContentGenerator.

(* ===================================================================== *)
(** * Facts about JSON values *)
(* ===================================================================== *)

Module JSFacts.
Import JS.

Lemma size_pos j : 0 < size j.
Proof. destruct j; simpl; lia. Qed.

Lemma size_member k ms v :
  lookupMember k ms = Some v -> size v < size (JObj ms).
Proof.
  induction ms as [|[k' x] r IH]; simpl; [discriminate|].
  destruct (k' =? k).
  - intros [= ->]. lia.
  - intros H. apply IH in H. simpl in H. lia.
Qed.

Lemma size_prop v k x :
  (k =? "length") = false -> prop v k = Some x -> size x < size v.
Proof.
  intros Hk. destruct v; simpl; try discriminate; rewrite ?Hk; try discriminate.
  apply size_member.
Qed.

Lemma size_item l x : In x l -> size x < size (JArr l).
Proof.
  induction l as [|y r IH]; simpl; [tauto|].
  intros [->|H]; [lia|]. apply IH in H. simpl in H. lia.
Qed.

Lemma size_value v x : In x (values v) -> size x < size v.
Proof.
  destruct v; simpl; try tauto.
  - apply size_item.
  - induction members as [|[k y] r IH]; simpl; [tauto|].
    intros [->|H]; [lia|]. apply IH in H. lia.
Qed.

End JSFacts.

(* ===================================================================== *)
(** * [hasValidTypes]: the recursive equation and its characterisation *)
(* ===================================================================== *)

Module McpSchemaFacts.
Import JS JSFacts McpSchema.

Lemma forallb_agree {A} (f g : A -> bool) (l : list A) :
  (forall x, In x l -> f x = g x) -> forallb f l = forallb g l.
Proof.
  induction l as [|x r IH]; simpl; intros H; [reflexivity|].
  rewrite (H x) by (left; reflexivity).
  rewrite IH by (intros y Hy; apply H; right; exact Hy).
  reflexivity.
Qed.

Lemma keywords_not_length :
  Forall (fun k => (k =? "length") = false) schemaArrayKeywords.
Proof. repeat constructor. Qed.

Lemma keywordLoop_agree f g s kws acc :
  Forall (fun k => (k =? "length") = false) kws ->
  (forall v, size v < size s -> f v = g v) ->
  keywordLoop f s kws acc = keywordLoop g s kws acc.
Proof.
  intros Hk Hfg. revert acc.
  induction Hk as [|k r Hk1 Hk IH]; intros acc; simpl; [reflexivity|].
  destruct (prop s k) as [[| | | |l|]|] eqn:E; try apply IH.
  rewrite (forallb_agree f g l).
  - destruct (forallb g l); [apply IH|reflexivity].
  - intros x Hx. apply Hfg.
    pose proof (size_prop _ _ _ Hk1 E). pose proof (size_item _ _ Hx). lia.
Qed.

(** The body reads [self] only at values strictly inside the schema. *)
Lemma hasValidTypesBody_agree f g s :
  (forall v, size v < size s -> f v = g v) ->
  hasValidTypesBody f s = hasValidTypesBody g s.
Proof.
  intros Hfg. unfold hasValidTypesBody.
  rewrite (keywordLoop_agree f g s _ false keywords_not_length Hfg).
  assert (P : match prop s "properties" with
              | Some ps => isObject ps && negb (forallb f (values ps))
              | None => false
              end
              = match prop s "properties" with
                | Some ps => isObject ps && negb (forallb g (values ps))
                | None => false
                end).
  { destruct (prop s "properties") as [ps|] eqn:E; [|reflexivity].
    rewrite (forallb_agree f g (values ps)); [reflexivity|].
    intros x Hx. apply Hfg.
    pose proof (size_prop s "properties" ps eq_refl E).
    pose proof (size_value _ _ Hx). lia. }
  assert (I : match prop s "items" with
              | Some i => negb (f i)
              | None => false
              end
              = match prop s "items" with
                | Some i => negb (g i)
                | None => false
                end).
  { destruct (prop s "items") as [i|] eqn:E; [|reflexivity].
    rewrite (Hfg i); [reflexivity|]. exact (size_prop s "items" i eq_refl E). }
  rewrite P, I. reflexivity.
Qed.

(** Any fuel that covers the size of the schema gives the same answer. *)
Lemma hasValidTypesFuel_enough n : forall m s,
  size s <= n -> size s <= m -> hasValidTypesFuel n s = hasValidTypesFuel m s.
Proof.
  induction n as [|n IH]; intros m s Hn Hm.
  - pose proof (size_pos s). lia.
  - destruct m as [|m]; [pose proof (size_pos s); lia|].
    simpl. apply hasValidTypesBody_agree.
    intros v Hv. apply IH; lia.
Qed.

(** The source's recursive definition, as an equation. *)
Lemma hasValidTypes_unfold s :
  hasValidTypes s = hasValidTypesBody hasValidTypes s.
Proof.
  unfold hasValidTypes at 1.
  pose proof (size_pos s) as Hs.
  destruct (size s) as [|k] eqn:E; [lia|].
  simpl. apply hasValidTypesBody_agree.
  intros v Hv. unfold hasValidTypes. apply hasValidTypesFuel_enough; lia.
Qed.

(** [Array.isArray(s[kw])] *)
Definition isArrayAt (s : Json) (kw : string) : bool :=
  match prop s kw with
  | Some (JArr _) => true
  | _ => false
  end.

Lemma keywordLoop_result f s kws acc :
  keywordLoop f s kws acc =
  if forallb (fun kw => forallb f (subSchemas s kw)) kws
  then Some (acc || existsb (isArrayAt s) kws)
  else None.
Proof.
  revert acc. induction kws as [|k r IH]; intros acc; simpl.
  - rewrite orb_false_r. reflexivity.
  - unfold subSchemas at 1, isArrayAt at 1.
    destruct (prop s k) as [[| | | |l|]|]; simpl; rewrite ?IH; try reflexivity.
    destruct (forallb f l); simpl; [|reflexivity].
    rewrite orb_true_r. reflexivity.
Qed.

Lemma hasValidTypes_nonobject s : isObject s = false -> hasValidTypes s = true.
Proof.
  intros H. rewrite hasValidTypes_unfold. unfold hasValidTypesBody.
  rewrite H. reflexivity.
Qed.

Lemma typeIs_hasType s t : typeIs s t = true -> t <> "" -> hasType s = true.
Proof.
  unfold typeIs, hasType. destruct (prop s "type") as [[| | |u| |]|]; try discriminate.
  intros H Ht. apply String.eqb_eq in H. subst u. simpl.
  destruct (String.eqb_spec t ""); [contradiction|reflexivity].
Qed.

(** [Object.values] of a property that may be [undefined]. *)
Definition valuesOf (v : option Json) : list Json :=
  match v with
  | Some x => values x
  | None => []
  end.

Definition typedOk (s : Json) : bool :=
  hasType s
  || (forallb (fun kw => forallb hasValidTypes (subSchemas s kw)) schemaArrayKeywords
      && existsb (isArrayAt s) schemaArrayKeywords).

Definition propertiesOk (s : Json) : bool :=
  negb (typeIs s "object") || forallb hasValidTypes (valuesOf (prop s "properties")).

Definition itemsOk (s : Json) : bool :=
  negb (typeIs s "array")
  || match prop s "items" with
     | Some i => hasValidTypes i
     | None => true
     end.

Lemma truthy_false_nonobject v : truthy v = false -> isObject v = false.
Proof. destruct v; simpl; intros H; try reflexivity; discriminate. Qed.

Lemma isObject_truthy v : isObject v = true -> truthy v = true.
Proof. destruct v; simpl; intros H; try reflexivity; discriminate. Qed.

Lemma values_nonobject v : isObject v = false -> values v = [].
Proof. destruct v; simpl; intros H; try reflexivity; discriminate. Qed.

(** The early returns of the body, read as one boolean formula. *)
Lemma hasValidTypes_formula s :
  hasValidTypes s =
  negb (isObject s) || (typedOk s && propertiesOk s && itemsOk s).
Proof.
  rewrite hasValidTypes_unfold. unfold hasValidTypesBody.
  destruct (isObject s) eqn:Ho; [|reflexivity]. cbn [negb orb].
  rewrite keywordLoop_result. fold (hasType s).
  unfold typedOk, propertiesOk, itemsOk.
  assert (P : truthy' (prop s "properties")
              && match prop s "properties" with
                 | Some ps => isObject ps && negb (forallb hasValidTypes (values ps))
                 | None => false
                 end
              = negb (forallb hasValidTypes (valuesOf (prop s "properties")))).
  { destruct (prop s "properties") as [ps|]; [|reflexivity]. cbn [truthy' valuesOf].
    destruct (isObject ps) eqn:Hops.
    - rewrite (isObject_truthy _ Hops). reflexivity.
    - rewrite (values_nonobject _ Hops). cbn. apply andb_false_r. }
  assert (I : truthy' (prop s "items")
              && match prop s "items" with
                 | Some i => negb (hasValidTypes i)
                 | None => false
                 end
              = negb match prop s "items" with
                     | Some i => hasValidTypes i
                     | None => true
                     end).
  { destruct (prop s "items") as [i|]; [|reflexivity]. cbn [truthy'].
    destruct (truthy i) eqn:Htr; [reflexivity|].
    rewrite (hasValidTypes_nonobject i (truthy_false_nonobject _ Htr)). reflexivity. }
  rewrite <- !andb_assoc, P, I.
  destruct (hasType s); cbn [negb orb];
    destruct (forallb (fun kw => forallb hasValidTypes (subSchemas s kw))
                schemaArrayKeywords); cbn [andb];
    destruct (existsb (isArrayAt s) schemaArrayKeywords); cbn [negb andb orb];
    destruct (typeIs s "object"); cbn [negb andb orb];
    destruct (forallb hasValidTypes (valuesOf (prop s "properties"))); cbn [negb andb orb];
    destruct (typeIs s "array"); cbn [negb andb orb];
    try reflexivity;
    destruct (match prop s "items" with
              | Some i => hasValidTypes i
              | None => true
              end); reflexivity.
Qed.

(** ** Closure of the side condition under the steps of a visit *)

Lemma noEmpty_member k ms v :
  forallb (fun '(_, x) => noEmptySubSchemas x) ms = true ->
  lookupMember k ms = Some v -> noEmptySubSchemas v = true.
Proof.
  induction ms as [|[k' x] r IH]; simpl; [discriminate|].
  intros H. apply andb_prop in H as [Hx Hr].
  destruct (k' =? k); [intros [= <-]; exact Hx|apply IH, Hr].
Qed.

Lemma noEmpty_prop n k v :
  (k =? "length") = false ->
  noEmptySubSchemas n = true -> prop n k = Some v -> noEmptySubSchemas v = true.
Proof.
  intros Hk. destruct n; simpl; rewrite ?Hk; try discriminate.
  intros H. apply andb_prop in H as [_ H]. eapply noEmpty_member, H.
Qed.

Lemma noEmpty_value v x :
  noEmptySubSchemas v = true -> In x (values v) -> noEmptySubSchemas x = true.
Proof.
  destruct v; simpl; try tauto.
  - intros H Hx. rewrite forallb_forall in H. apply H, Hx.
  - intros H Hx. apply andb_prop in H as [_ H]. rewrite forallb_forall in H.
    apply in_map_iff in Hx as [[k y] [<- Hy]]. exact (H _ Hy).
Qed.

Lemma subSchemas_prop n kw m :
  In m (subSchemas n kw) -> exists l, prop n kw = Some (JArr l) /\ In m l.
Proof.
  unfold subSchemas. destruct (prop n kw) as [[| | | |l|]|]; simpl; try tauto.
  intros H. exists l. split; [reflexivity|exact H].
Qed.

Lemma keyword_not_length kw : In kw schemaArrayKeywords -> (kw =? "length") = false.
Proof.
  intros H. pose proof keywords_not_length as F.
  rewrite List.Forall_forall in F. exact (F kw H).
Qed.

Lemma noEmpty_subSchema n kw m :
  In kw schemaArrayKeywords ->
  noEmptySubSchemas n = true -> In m (subSchemas n kw) -> noEmptySubSchemas m = true.
Proof.
  intros Hkw Hn Hm. apply subSchemas_prop in Hm as [l [Hl Hm]].
  pose proof (noEmpty_prop n kw _ (keyword_not_length kw Hkw) Hn Hl) as H.
  simpl in H. rewrite forallb_forall in H. apply H, Hm.
Qed.

Lemma noEmpty_array_nonEmpty n kw :
  In kw schemaArrayKeywords -> noEmptySubSchemas n = true ->
  isArrayAt n kw = true -> nonEmpty (subSchemas n kw) = true.
Proof.
  intros Hkw Hn. unfold isArrayAt, subSchemas.
  destruct n; simpl; try discriminate.
  - rewrite (keyword_not_length kw Hkw). discriminate.
  - rewrite (keyword_not_length kw Hkw). discriminate.
  - cbn [noEmptySubSchemas] in Hn. apply andb_prop in Hn as [Hn _].
    rewrite forallb_forall in Hn. specialize (Hn kw Hkw).
    destruct (lookupMember kw members) as [[| | | |[|x l]|]|]; simpl; try discriminate.
    reflexivity.
Qed.

Lemma size_subSchema n kw m :
  In kw schemaArrayKeywords -> In m (subSchemas n kw) -> size m < size n.
Proof.
  intros Hkw Hm. apply subSchemas_prop in Hm as [l [Hl Hm]].
  pose proof (size_prop n kw _ (keyword_not_length kw Hkw) Hl).
  pose proof (size_item _ _ Hm). lia.
Qed.

Lemma typeIs_object n t : typeIs n t = true -> isObject n = true.
Proof.
  unfold typeIs. destruct n; simpl; try discriminate; reflexivity.
Qed.

Lemma subSchema_object n kw m :
  In kw schemaArrayKeywords -> In m (subSchemas n kw) -> isObject n = true.
Proof.
  intros Hkw Hm. apply subSchemas_prop in Hm as [l [Hl _]].
  destruct n; try reflexivity; simpl in Hl;
    rewrite ?(keyword_not_length kw Hkw) in Hl; discriminate.
Qed.

(** ** One step of a visit preserves a [true] answer *)

Lemma valid_parts s :
  hasValidTypes s = true -> isObject s = true ->
  typedOk s = true /\ propertiesOk s = true /\ itemsOk s = true.
Proof.
  rewrite hasValidTypes_formula. intros H Ho. rewrite Ho in H. simpl in H.
  apply andb_prop in H as [H Hi]. apply andb_prop in H as [Ht Hp]. auto.
Qed.

Lemma valid_property n ps p :
  hasValidTypes n = true -> typeIs n "object" = true ->
  prop n "properties" = Some ps -> In p (values ps) -> hasValidTypes p = true.
Proof.
  intros Hv Hty Hps Hp.
  destruct (valid_parts n Hv (typeIs_object _ _ Hty)) as [_ [H _]].
  unfold propertiesOk in H. rewrite Hty, Hps in H. simpl in H.
  rewrite forallb_forall in H. apply H, Hp.
Qed.

Lemma valid_items n i :
  hasValidTypes n = true -> typeIs n "array" = true ->
  prop n "items" = Some i -> hasValidTypes i = true.
Proof.
  intros Hv Hty Hi.
  destruct (valid_parts n Hv (typeIs_object _ _ Hty)) as [_ [_ H]].
  unfold itemsOk in H. rewrite Hty, Hi in H. exact H.
Qed.

Lemma valid_subSchema n kw m :
  hasValidTypes n = true -> hasType n = false -> In kw schemaArrayKeywords ->
  In m (subSchemas n kw) -> hasValidTypes m = true.
Proof.
  intros Hv Hty Hkw Hm.
  destruct (valid_parts n Hv (subSchema_object _ _ _ Hkw Hm)) as [H _].
  unfold typedOk in H. rewrite Hty in H. cbn [orb] in H.
  apply andb_prop in H as [H _].
  rewrite forallb_forall in H. specialize (H kw Hkw).
  rewrite forallb_forall in H. apply H, Hm.
Qed.

Lemma visited_valid s n :
  hasValidTypes s = true -> noEmptySubSchemas s = true -> visitedNode s n ->
  hasValidTypes n = true /\ noEmptySubSchemas n = true.
Proof.
  intros Hv Hne Hn. induction Hn as [|n ps p _ [IHv IHn] Hty Hps Hp
                                      |n i _ [IHv IHn] Hty Hi
                                      |n kw m _ [IHv IHn] Hty Hkw Hm].
  - auto.
  - split; [exact (valid_property n ps p IHv Hty Hps Hp)|].
    apply (noEmpty_value ps); [|exact Hp].
    exact (noEmpty_prop n "properties" ps eq_refl IHn Hps).
  - split; [exact (valid_items n i IHv Hty Hi)|].
    exact (noEmpty_prop n "items" i eq_refl IHn Hi).
  - split; [exact (valid_subSchema n kw m IHv Hty Hkw Hm)|].
    exact (noEmpty_subSchema n kw m Hkw IHn Hm).
Qed.

Lemma valid_nodeOk n :
  hasValidTypes n = true -> noEmptySubSchemas n = true -> nodeOk n = true.
Proof.
  intros Hv Hne. unfold nodeOk.
  destruct (isObject n) eqn:Ho; [|reflexivity]. cbn [negb orb].
  destruct (valid_parts n Hv Ho) as [H _]. unfold typedOk in H.
  destruct (hasType n); [reflexivity|]. cbn [orb] in H |- *.
  apply andb_prop in H as [_ H].
  apply existsb_exists in H as [kw [Hkw Harr]].
  apply existsb_exists. exists kw. split; [exact Hkw|].
  exact (noEmpty_array_nonEmpty n kw Hkw Hne Harr).
Qed.

Lemma visited_trans a b c : visitedNode a b -> visitedNode b c -> visitedNode a c.
Proof.
  intros Hab Hbc. induction Hbc; eauto using visitedNode.
Qed.

Lemma nonEmpty_isArrayAt n kw : nonEmpty (subSchemas n kw) = true -> isArrayAt n kw = true.
Proof.
  unfold subSchemas, isArrayAt.
  destruct (prop n kw) as [[| | | |l|]|]; simpl; try discriminate. reflexivity.
Qed.

Lemma nodes_ok_valid : forall k s,
  size s <= k -> (forall n, visitedNode s n -> nodeOk n = true) -> hasValidTypes s = true.
Proof.
  induction k as [|k IH]; intros s Hk Hok.
  - pose proof (size_pos s). lia.
  - rewrite hasValidTypes_formula.
    destruct (isObject s) eqn:Ho; [|reflexivity]. simpl.
    assert (Hchild : forall c, size c < size s -> visitedNode s c -> hasValidTypes c = true).
    { intros c Hc Hvc. apply IH; [lia|].
      intros n Hn. apply Hok. exact (visited_trans s c n Hvc Hn). }
    assert (Ht : typedOk s = true).
    { unfold typedOk. destruct (hasType s) eqn:Hty; [reflexivity|]. cbn [orb].
      pose proof (Hok s (visit_root s)) as Hroot. unfold nodeOk in Hroot.
      rewrite Ho, Hty in Hroot. cbn [negb orb] in Hroot.
      apply andb_true_intro. split.
      - apply forallb_forall. intros kw Hkw. apply forallb_forall. intros m Hm.
        apply Hchild; [exact (size_subSchema s kw m Hkw Hm)|].
        exact (visit_member s s kw m (visit_root s) Hty Hkw Hm).
      - apply existsb_exists in Hroot as [kw [Hkw Hn]].
        apply existsb_exists. exists kw. split; [exact Hkw|].
        exact (nonEmpty_isArrayAt s kw Hn). }
    assert (Hp : propertiesOk s = true).
    { unfold propertiesOk. destruct (typeIs s "object") eqn:Hty; [|reflexivity]. simpl.
      apply forallb_forall. intros p Hp.
      destruct (prop s "properties") as [ps|] eqn:Hps; [|contradiction]. simpl in Hp.
      apply Hchild.
      - pose proof (size_prop s "properties" ps eq_refl Hps).
        pose proof (size_value ps p Hp). lia.
      - exact (visit_property s s ps p (visit_root s) Hty Hps Hp). }
    assert (Hi : itemsOk s = true).
    { unfold itemsOk. destruct (typeIs s "array") eqn:Hty; [|reflexivity]. simpl.
      destruct (prop s "items") as [i|] eqn:Hi; [|reflexivity].
      apply Hchild.
      - exact (size_prop s "items" i eq_refl Hi).
      - exact (visit_items s s i (visit_root s) Hty Hi). }
    rewrite Ht, Hp, Hi. reflexivity.
Qed.

Lemma visited_is_node s n : visitedNode s n -> schemaNode s n.
Proof. induction 1; eauto using schemaNode. Qed.

(** One direction of the claimed characterisation holds as it is worded:
    a schema all of whose nodes pass is accepted. *)
Lemma specValid_accepted s : specValid s -> hasValidTypes s = true.
Proof.
  intros H. apply (nodes_ok_valid (size s)); [lia|].
  intros n Hn. apply H, visited_is_node, Hn.
Qed.

(** C5, as stated, fails on the code.  (1) Below a node that has a type the
    members of anyOf/allOf/oneOf are not examined: the first schema is
    accepted although its anyOf member [{}] has neither a type nor a
    sub-schema array.  (2) An empty anyOf array counts as a sub-schema
    array: the second schema is accepted although it has no type and no
    non-empty array. *)
Lemma hasValidTypes_not_every_node :
  (hasValidTypes exTypedWithUntypedMember = true /\ ~ specValid exTypedWithUntypedMember)
  /\ (hasValidTypes exEmptyAnyOf = true /\ ~ specValid exEmptyAnyOf).
Proof.
  split; split; try reflexivity.
  - intros H.
    assert (N : schemaNode exTypedWithUntypedMember (JObj [])).
    { apply (node_member _ exTypedWithUntypedMember "anyOf").
      - apply node_root.
      - simpl. auto.
      - simpl. auto. }
    specialize (H _ N). discriminate H.
  - intros H. specialize (H _ (node_root _)). discriminate H.
Qed.

(** C5 (amended): on a schema none of whose anyOf/allOf/oneOf arrays is
    empty, [hasValidTypes] answers [true] exactly when every visited node
    -- the root, each schema in the properties of an object-typed node, the
    items schema of an array-typed node, and each member of an
    anyOf/allOf/oneOf array of a node that has no type -- is a non-object
    value, has a type, or has a non-empty anyOf, allOf or oneOf array. *)
Theorem hasValidTypes_visited_nodes (s : Json) :
  noEmptySubSchemas s = true ->
  (hasValidTypes s = true <-> forall n, visitedNode s n -> nodeOk n = true).
Proof.
  intros Hne. split.
  - intros Hv n Hn.
    destruct (visited_valid s n Hv Hne Hn) as [Hvn Hnn].
    exact (valid_nodeOk n Hvn Hnn).
  - intros H. apply (nodes_ok_valid (size s)); [lia|exact H].
Qed.

Lemma hasValidTypes_visited_nodes_witness :
  noEmptySubSchemas exNested = true
  /\ (hasValidTypes exNested = true <-> forall n, visitedNode exNested n -> nodeOk n = true).
Proof.
  split; [reflexivity|].
  apply (hasValidTypes_visited_nodes exNested). reflexivity.
Defined.

Example hasValidTypes_exNested : hasValidTypes exNested = true.
Proof. reflexivity. Qed.

Example hasValidTypes_missing_type :
  hasValidTypes (JObj [("type", JStr "object");
                       ("properties", JObj [("path", JObj [])])]) = false.
Proof. reflexivity. Qed.

End McpSchemaFacts.

(* ===================================================================== *)
(** * File discovery: batch filter against single-path predicate *)
(* ===================================================================== *)

Module FileDiscoveryFacts.
Import FileDiscovery.

Lemma filter_agree {A} (f g : A -> bool) (l : list A) :
  (forall x, f x = g x) -> List.filter f l = List.filter g l.
Proof.
  intros H. induction l as [|x r IH]; simpl; [reflexivity|].
  rewrite H, IH. reflexivity.
Qed.

(** X1: with the options omitted, or with both members given, the batch
    filter keeps exactly the paths the predicate does not ignore, in order. *)
Lemma filterFiles_shouldIgnoreFile this filePaths options :
  match options with Some o => fullySpecified o = true | None => True end ->
  filterFiles this filePaths options
  = List.filter (fun p => negb (shouldIgnoreFile this p options)) filePaths.
Proof.
  intros Hopt. unfold filterFiles, shouldIgnoreFile. apply filter_agree. intros p.
  destruct options as [[[g|] [c|]]|]; simpl in *; try discriminate.
  - destruct g, c, (shouldGitIgnoreFile this p), (shouldcasualresearchIgnoreFile this p);
      reflexivity.
  - destruct (shouldGitIgnoreFile this p), (shouldcasualresearchIgnoreFile this p);
      reflexivity.
Qed.

(** C10 at a partially specified options record: [filterFiles] reads the
    omitted member as false and keeps [secret.txt], [shouldIgnoreFile]
    reads it as true and ignores the same path. *)
Lemma filterFiles_partial_options_disagree :
  filterFiles exService ["a.ts"; "secret.txt"] (Some exGitOnlyOff) = ["a.ts"; "secret.txt"]
  /\ shouldIgnoreFile exService "secret.txt" (Some exGitOnlyOff) = true
  /\ List.filter (fun p => negb (shouldIgnoreFile exService p (Some exGitOnlyOff)))
       ["a.ts"; "secret.txt"] = ["a.ts"].
Proof. repeat split. Qed.

End FileDiscoveryFacts.

(* ===================================================================== *)
(** * The OpenRouter client: conversion and the streaming generator *)
(* ===================================================================== *)

Module OpenRouterFacts.
Import JS OpenRouter.

(** ** Lines of a text that arrives in chunks *)

Fixpoint noNewline (s : string) : bool :=
  match s with
  | EmptyString => true
  | String c r => negb (Ascii.eqb c newline) && noNewline r
  end.

(** The text of the whole body. *)
Definition joinChunks (chunks : list string) : string :=
  fold_right String.append "" chunks.

(** The lines of a text that are ended by a newline character. *)
Definition completeLines (text : string) : list string :=
  List.removelast (splitLines text).

Lemma append_cons c r b : (String c r ++ b)%string = String c (r ++ b)%string.
Proof. reflexivity. Qed.

Lemma append_empty_r s : (s ++ "")%string = s.
Proof. induction s as [|c r IH]; [reflexivity|]. rewrite append_cons, IH. reflexivity. Qed.

Lemma append_assoc_r a b c : ((a ++ b) ++ c)%string = (a ++ (b ++ c))%string.
Proof.
  induction a as [|x r IH]; [reflexivity|]. rewrite !append_cons, IH. reflexivity.
Qed.

Lemma splitLines_cons s : exists x xs, splitLines s = x :: xs.
Proof.
  destruct s as [|c r]; simpl; [eauto|].
  destruct (Ascii.eqb c newline); [eauto|].
  destruct (splitLines r); eauto.
Qed.

Lemma splitLines_app a b :
  splitLines (a ++ b)%string
  = List.removelast (splitLines a)
    ++ splitLines (List.last (splitLines a) "" ++ b)%string.
Proof.
  induction a as [|c r IH]; [reflexivity|].
  rewrite append_cons. cbn [splitLines].
  destruct (splitLines_cons r) as [x0 [xs0 Hr]].
  rewrite Hr in IH.
  destruct (Ascii.eqb c newline) eqn:Hc.
  - rewrite IH, Hr. reflexivity.
  - rewrite IH, Hr. destruct xs0 as [|x1 xs1].
    + cbn [List.removelast List.last app]. rewrite append_cons. cbn [splitLines].
      rewrite Hc. reflexivity.
    + reflexivity.
Qed.

Lemma splitLines_noNewline s : noNewline s = true -> splitLines s = [s].
Proof.
  induction s as [|c r IH]; simpl; [reflexivity|].
  intros H. apply andb_prop in H as [Hc Hr].
  apply negb_true_iff in Hc. rewrite Hc, (IH Hr). reflexivity.
Qed.

Lemma last_splitLines_noNewline s : noNewline (List.last (splitLines s) "") = true.
Proof.
  induction s as [|c r IH]; [reflexivity|].
  cbn [splitLines]. destruct (splitLines_cons r) as [x [xs Hr]]. rewrite Hr in *.
  destruct (Ascii.eqb c newline) eqn:Hc.
  - exact IH.
  - destruct xs as [|y ys]; [|exact IH].
    simpl in *. rewrite Hc, IH. reflexivity.
Qed.

Lemma completeLines_app a b :
  completeLines (a ++ b)%string
  = completeLines a ++ completeLines (List.last (splitLines a) "" ++ b)%string.
Proof.
  unfold completeLines. rewrite splitLines_app.
  destruct (splitLines_cons (List.last (splitLines a) "" ++ b)%string) as [x [xs H]].
  rewrite H. apply removelast_app. discriminate.
Qed.

Section Frames.
Variable JSON_parse : Json -> option Json.
Variable toNumberPositive : Json -> bool.

(** The payload of a [data: ] line. *)
Definition payload (line : string) : string := trim (slice 6 line).

(** The line that ends the stream. *)
Definition isDone (line : string) : bool :=
  startsWith "data: " line && (payload line =? "[DONE]").

(** The lines before the first [DONE] line. *)
Fixpoint untilDone (lines : list string) : list string :=
  match lines with
  | [] => []
  | l :: r => if isDone l then [] else l :: untilDone r
  end.

(** What one line contributes to the output. *)
Definition frameOutput (line : string) : list GenerateContentResponse :=
  if startsWith "data: " line then
    match JSON_parse (JStr (payload line)) with
    | Some data =>
        match convertFromOpenRouterFormat JSON_parse toNumberPositive data true with
        | Return (Some converted) => [converted]
        | _ => []
        end
    | None => []
    end
  else [].

Lemma processLines_frames lines :
  processLines JSON_parse toNumberPositive lines
  = (flat_map frameOutput (untilDone lines), existsb isDone lines).
Proof.
  induction lines as [|l r IH]; [reflexivity|].
  assert (E : isDone l = startsWith "data: " l && (payload l =? "[DONE]"))
    by reflexivity.
  cbn [processLines untilDone existsb]. fold (payload l). rewrite IH, E.
  destruct (startsWith "data: " l) eqn:Hs; cbn [andb orb].
  - destruct (payload l =? "[DONE]") eqn:Hd; [reflexivity|].
    change (flat_map frameOutput (l :: untilDone r))
      with (frameOutput l ++ flat_map frameOutput (untilDone r)).
    assert (F : frameOutput l
                = match JSON_parse (JStr (payload l)) with
                  | Some data =>
                      match convertFromOpenRouterFormat JSON_parse toNumberPositive
                              data true with
                      | Return (Some converted) => [converted]
                      | Return None => []
                      | Throw _ => []
                      end
                  | None => []
                  end).
    { unfold frameOutput. rewrite Hs.
      destruct (JSON_parse (JStr (payload l))) as [data|]; [|reflexivity].
      destruct (convertFromOpenRouterFormat JSON_parse toNumberPositive data true)
        as [[c|]|e]; reflexivity. }
    rewrite F. reflexivity.
  - change (flat_map frameOutput (l :: untilDone r))
      with (frameOutput l ++ flat_map frameOutput (untilDone r)).
    assert (F : frameOutput l = []) by (unfold frameOutput; rewrite Hs; reflexivity).
    rewrite F. reflexivity.
Qed.

Lemma untilDone_app l1 l2 :
  untilDone (l1 ++ l2)
  = if existsb isDone l1 then untilDone l1 else l1 ++ untilDone l2.
Proof.
  induction l1 as [|x r IH]; [reflexivity|].
  simpl. destruct (isDone x); [reflexivity|]. simpl. rewrite IH.
  destruct (existsb isDone r); reflexivity.
Qed.

Lemma readLoop_frames chunks : forall buffer,
  noNewline buffer = true ->
  readLoop JSON_parse toNumberPositive chunks buffer
  = flat_map frameOutput (untilDone (completeLines (buffer ++ joinChunks chunks)%string)).
Proof.
  induction chunks as [|value rest IH]; intros buffer Hb.
  - simpl. unfold completeLines.
    rewrite append_empty_r.
    rewrite (splitLines_noNewline _ Hb). reflexivity.
  - cbn [readLoop joinChunks fold_right popLine].
    rewrite processLines_frames.
    fold (joinChunks rest). fold (completeLines (buffer ++ value)%string).
    rewrite <- append_assoc_r.
    rewrite (completeLines_app (buffer ++ value)%string (joinChunks rest)).
    rewrite (untilDone_app (completeLines (buffer ++ value)%string)).
    destruct (existsb isDone (completeLines (buffer ++ value)%string)) eqn:Hd.
    + reflexivity.
    + rewrite (IH _ (last_splitLines_noNewline _)), flat_map_app.
      assert (U : untilDone (completeLines (buffer ++ value)%string)
                  = completeLines (buffer ++ value)%string).
      { revert Hd. generalize (completeLines (buffer ++ value)%string).
        induction l as [|x r IHl]; simpl; [reflexivity|].
        destruct (isDone x); simpl; [discriminate|]. intros H. rewrite (IHl H). reflexivity. }
      rewrite U. reflexivity.
Qed.

End Frames.

(** C6: the responses the streaming generator yields are, in the order of
    the input lines, the outputs of the newline-terminated lines that come
    before the first line whose payload is [DONE]; after that line nothing
    is yielded and the generator returns.  A line yields nothing, or it
    starts with [data: ], its payload is parsed by [JSON.parse] and
    converted without an exception, and it yields that one converted
    response: a payload that does not parse, or whose conversion throws
    or returns null, is skipped and raises nothing. *)
Theorem createStreamGenerator_frames
    (JSON_parse : Json -> option Json) (toNumberPositive : Json -> bool)
    (status : Z) (statusText : string) (errorData : option Json)
    (chunks : list string) :
  createStreamGenerator JSON_parse toNumberPositive
    {| ok := true; status := status; statusText := statusText;
       errorData := errorData; body := Some chunks |}
  = (flat_map (frameOutput JSON_parse toNumberPositive)
       (untilDone (completeLines (joinChunks chunks))),
     Return tt)
  /\ (forall line,
        frameOutput JSON_parse toNumberPositive line = []
        \/ exists data converted,
             startsWith "data: " line = true
             /\ JSON_parse (JStr (payload line)) = Some data
             /\ convertFromOpenRouterFormat JSON_parse toNumberPositive data true
                = Return (Some converted)
             /\ frameOutput JSON_parse toNumberPositive line = [converted]).
Proof.
  split.
  - unfold createStreamGenerator. simpl.
    rewrite (readLoop_frames JSON_parse toNumberPositive chunks "" eq_refl).
    reflexivity.
  - intros line. unfold frameOutput.
    destruct (startsWith "data: " line); [|left; reflexivity].
    destruct (JSON_parse (JStr (payload line))) as [data|]; [|left; reflexivity].
    destruct (convertFromOpenRouterFormat JSON_parse toNumberPositive data true)
      as [[c|]|e] eqn:E; try (left; reflexivity).
    right. exists data, c. repeat split; assumption.
Qed.

(** ** Conversion of tool calls and text *)

(** The parts of the converted candidate(s). *)
Definition convertedParts (o : Outcome (option GenerateContentResponse))
  : option (list Part) :=
  match o with
  | Return (Some r) => Some (flat_map parts (candidates r))
  | _ => None
  end.

Definition isTextPart (p : Part) : bool :=
  match p with
  | TextPart _ => true
  | FunctionCallPart _ => false
  end.

(** [data.choices?.[0]?.delta?.tool_calls] *)
Definition deltaToolCalls (data : Json) : option Json :=
  optProp (optProp (optIndex0 (prop data "choices")) "delta") "tool_calls".

Lemma no_text_among_calls calls :
  existsb isTextPart (map FunctionCallPart calls) = false.
Proof. induction calls as [|c r IH]; [reflexivity|exact IH]. Qed.

(** In streaming mode a delta with a truthy [tool_calls] is converted to
    function-call parts only, whatever its [content]. *)
Lemma streaming_tool_calls_only JSON_parse toNumberPositive data ps :
  truthy' (deltaToolCalls data) = true ->
  convertedParts (convertFromOpenRouterFormat JSON_parse toNumberPositive data true)
  = Some ps ->
  existsb isTextPart ps = false.
Proof.
  unfold deltaToolCalls, convertFromOpenRouterFormat.
  destruct data; try discriminate; cbn [getProp bindOutcome]; intros Ht;
    rewrite ?Ht;
    try (destruct (optProp _ "tool_calls") as [[| | | |tc|]|]; try discriminate;
         destruct (mapOutcome _ tc) as [calls|e]; try discriminate;
         cbn [bindOutcome convertedParts candidates flat_map parts];
         intros [= <-]; rewrite app_nil_r; apply no_text_among_calls).
Qed.

(** In non-streaming mode the parts are the function calls, in the order
    of [tool_calls], followed by the text part (present when the content is
    truthy, or when there is no other part). *)
Lemma nonStreaming_parts JSON_parse toNumberPositive data r :
  convertFromOpenRouterFormat JSON_parse toNumberPositive data false = Return (Some r) ->
  exists c,
    candidates r = [c]
    /\ parts c
       = map FunctionCallPart (functionCalls r)
         ++ (if truthy (responseText r) then [TextPart (responseText r)]
             else match functionCalls r with
                  | [] => [TextPart (responseText r)]
                  | _ => []
                  end).
Proof.
  unfold convertFromOpenRouterFormat.
  destruct (getProp data "choices") as [choices|e]; [|discriminate].
  cbn [bindOutcome].
  set (message := optProp (optIndex0 choices) "message").
  set (content := orElse (optProp message "content") (JStr "")).
  destruct (match optProp message "tool_calls" with
            | Some tool_calls =>
                if truthy tool_calls && lengthPositive toNumberPositive tool_calls
                then forOfToolCalls JSON_parse tool_calls
                else Return []
            | None => Return []
            end) as [calls|e]; [|discriminate].
  cbn [bindOutcome]. intros [= <-]. eexists. split; [reflexivity|].
  cbn [parts functionCalls responseText].
  destruct (truthy content).
  - destruct calls; reflexivity.
  - destruct calls; [reflexivity|]. rewrite app_nil_r. reflexivity.
Qed.

(** A function call's [args] is what [JSON.parse] returns on the entry's
    [arguments], or on the text of the empty object when [arguments] is
    absent or falsy (the empty string). *)
Lemma convertToolCall_args JSON_parse toolCall fc :
  convertToolCall JSON_parse toolCall = Return fc ->
  JSON_parse (orElse (optProp (prop toolCall "function") "arguments") (JStr "{}"))
  = Some (args fc).
Proof.
  unfold convertToolCall. destruct toolCall; try discriminate;
    cbn [getProp bindOutcome];
    match goal with
    | |- context [JSON_parse ?x] => destruct (JSON_parse x); [|discriminate]
    end; intros [= <-]; reflexivity.
Qed.

(** C4 at a streaming delta that carries both a tool call and text: the
    converted candidate holds the function call and no text part, while
    the same content as a non-streaming message is converted to the
    function call followed by the text. *)
Lemma streaming_delta_drops_text :
  convertedParts
    (convertFromOpenRouterFormat exParse exToNumberPositive exDeltaBoth true)
  = Some [FunctionCallPart {| name := JStr "read_file"; args := JObj [] |}]
  /\ convertedParts
       (convertFromOpenRouterFormat exParse exToNumberPositive exMessageBoth false)
     = Some [FunctionCallPart {| name := JStr "read_file"; args := JObj [] |};
             TextPart (JStr "Reading the file.")].
Proof. split; reflexivity. Qed.

(** The generator on a body cut into chunks inside a line: the text line
    and the tool-call line are yielded in order, nothing after [DONE]. *)
Example createStreamGenerator_example :
  let body :=
    [("data: " ++ exDeltaHelloText)%string;
     String newline ("da");
     ("ta: " ++ exDeltaBothText ++ String newline (": keep-alive" ++ String newline "data: {"))%string;
     String newline ("data: [DONE]" ++ String newline ("data: " ++ exDeltaHelloText ++ String newline ""))%string] in
  option_map (map (fun r => flat_map parts (candidates r)))
    (Some (fst (createStreamGenerator exParse exToNumberPositive
                  {| ok := true; status := 200; statusText := "OK";
                     errorData := None; body := Some body |})))
  = Some [[TextPart (JStr "Hello")];
          [FunctionCallPart {| name := JStr "read_file"; args := JObj [] |}]].
Proof. vm_compute. reflexivity. Qed.

End OpenRouterFacts.

(* ===================================================================== *)
(** * The turn engine: what [run] does with an exception *)
(* ===================================================================== *)

Module TurnEngineFacts.
Import JS Core TurnEngine.

Section RunFacts.
Variable toFriendlyError : Thrown -> Thrown.
Variable getErrorMessage : Thrown -> string.
Variable getResponseText : GenerateContentResponse -> option string.
Variable curatedHistory : list Content.
Variable maybeIncludeSchemaDepthContext : StructuredError -> StructuredError.
Variable synthesizeCallId : option string -> nat -> string.

Local Abbreviation run' := (run toFriendlyError getErrorMessage getResponseText curatedHistory
                    maybeIncludeSchemaDepthContext synthesizeCallId).
Local Abbreviation runLoop' := (runLoop toFriendlyError getErrorMessage getResponseText curatedHistory
                        maybeIncludeSchemaDepthContext synthesizeCallId).
Local Abbreviation processResponse' := (processResponse getResponseText synthesizeCallId).

(** The number of [Error] events among the events. *)
Definition errorEvents (evs : list StreamEvent) : nat :=
  List.length (List.filter isErrorEvent evs).

Lemma errorEvents_app a b : errorEvents (a ++ b) = errorEvents a + errorEvents b.
Proof. unfold errorEvents. rewrite List.filter_app, List.length_app. reflexivity. Qed.

Lemma handleFunctionCalls_no_error calls : forall this,
  errorEvents (snd (handleFunctionCalls synthesizeCallId this calls)) = 0.
Proof.
  induction calls as [|c r IH]; intros this; [reflexivity|].
  cbn [handleFunctionCalls].
  destruct (handlePendingFunctionCall synthesizeCallId this c) as [this' ev] eqn:E.
  specialize (IH this').
  destruct (handleFunctionCalls synthesizeCallId this' r) as [this'' more].
  unfold handlePendingFunctionCall in E. injection E as _ <-.
  exact IH.
Qed.

(** A response never produces an [Error] event. *)
Lemma processResponse_no_error this resp :
  errorEvents (snd (processResponse' this resp)) = 0.
Proof.
  unfold processResponse.
  destruct (match firstPart resp with
            | Some thoughtPart => match thought thoughtPart with Some b => b | None => false end
            | None => false
            end); [reflexivity|].
  match goal with
  | |- context [handleFunctionCalls synthesizeCallId ?t ?l] =>
      pose proof (handleFunctionCalls_no_error l t) as H;
      destruct (handleFunctionCalls synthesizeCallId t l) as [this' callEvents]
  end.
  cbn [snd] in H.
  assert (C : errorEvents match getResponseText resp with
                          | Some text => if text =? "" then [] else [Content_ text]
                          | None => []
                          end = 0).
  { destruct (getResponseText resp) as [t|]; [|reflexivity].
    destruct (t =? ""); reflexivity. }
  destruct (firstCandidate resp) as [[ps [fr|]]|]; cbn [snd];
    rewrite !errorEvents_app, ?C, ?H; reflexivity.
Qed.

(** While no response is cut short by the cancellation signal, the events
    of a stream that ends with an exception are those of the same stream
    ending normally, followed by those of the catch block. *)
Lemma runLoop_throws items : forall this req e aborted,
  forallb (fun item => negb (abortedAtArrival item)) items = true ->
  exists this',
    events (runLoop' this req items (StreamThrows e aborted))
    = events (runLoop' this req items StreamDone)
      ++ events (catchBlock toFriendlyError getErrorMessage curatedHistory
                   maybeIncludeSchemaDepthContext this' req e aborted)
    /\ completion (runLoop' this req items (StreamThrows e aborted))
       = completion (catchBlock toFriendlyError getErrorMessage curatedHistory
                       maybeIncludeSchemaDepthContext this' req e aborted)
    /\ errorEvents (events (runLoop' this req items StreamDone)) = 0.
Proof.
  induction items as [|item rest IH]; intros this req e aborted Hab.
  - exists this. cbn [runLoop events]. auto.
  - cbn [forallb] in Hab. apply andb_prop in Hab as [Hi Hrest].
    apply negb_true_iff in Hi. cbn [runLoop]. rewrite Hi.
    pose proof (processResponse_no_error this (resp item)) as Hp.
    destruct (processResponse' this (resp item)) as [this1 emitted].
    destruct (IH this1 req e aborted Hrest) as [this' [He [Hc Hn]]].
    exists this'. cbn [events completion snd] in *.
    rewrite He, Hc, errorEvents_app, Hp, Hn, app_assoc. auto.
Qed.

End RunFacts.

(** C3, as stated, fails on the code: the catch block tests for the
    auth-unauthorized error before it reads the cancellation signal.  With
    the signal aborted and an unauthorized error, the turn emits no
    [UserCancelled] event and re-raises. *)
Lemma run_unauthorized_while_aborted :
  events (run (fun e => e) detail exResponseText [] (fun s => s) exCallId exTurn
            (PLOne (PUString "hi"))
            {| items := []; ending := StreamThrows exUnauthorized true |})
  = []
  /\ completion (run (fun e => e) detail exResponseText [] (fun s => s) exCallId exTurn
                   (PLOne (PUString "hi"))
                   {| items := []; ending := StreamThrows exUnauthorized true |})
     = Rethrown exUnauthorized.
Proof. split; reflexivity. Qed.

(** C3 (amended): for an exception raised while [run] consumes the backend
    stream (no response having been cut short by the cancellation signal),
    with [error] the friendly form of the exception: if [error] is an
    auth-unauthorized error, [run] emits no further event and re-raises
    [error], whatever the cancellation signal; otherwise, if the signal is
    aborted, it emits [UserCancelled] and returns; otherwise it emits
    exactly one [Error] event, whose value is the structured error holding
    the message of [error] and its [status] when that is a number (as the
    chat's schema-depth annotation leaves it), and returns. *)
Theorem run_exception
    (toFriendlyError : Thrown -> Thrown) (getErrorMessage : Thrown -> string)
    (getResponseText : GenerateContentResponse -> option string)
    (curatedHistory : list Content)
    (maybeIncludeSchemaDepthContext : StructuredError -> StructuredError)
    (synthesizeCallId : option string -> nat -> string)
    (this : Turn) (req : PartListUnion) (items : list StreamItem)
    (e : Thrown) (abortedAtCatch : bool) :
  forallb (fun item => negb (abortedAtArrival item)) items = true ->
  let run' := run toFriendlyError getErrorMessage getResponseText curatedHistory
                maybeIncludeSchemaDepthContext synthesizeCallId this req in
  let normal := events (run' {| items := items; ending := StreamDone |}) in
  let r := run' {| items := items; ending := StreamThrows e abortedAtCatch |} in
  let error := toFriendlyError e in
  if isUnauthorizedError error then
    events r = normal /\ completion r = Rethrown error
  else if abortedAtCatch then
    events r = normal ++ [UserCancelled] /\ completion r = Returned
  else
    events r
    = normal
      ++ [Error_ (maybeIncludeSchemaDepthContext
                    {| message := getErrorMessage error;
                       status := match thrownStatus error with
                                 | Some (JNum n) => Some n
                                 | _ => None
                                 end |})]
    /\ completion r = Returned
    /\ errorEvents (events r) = 1.
Proof.
  intros Hab. cbv zeta. unfold run. cbn [TurnEngine.items ending].
  destruct (runLoop_throws toFriendlyError getErrorMessage getResponseText curatedHistory
              maybeIncludeSchemaDepthContext synthesizeCallId items this req e
              abortedAtCatch Hab) as [this' [He [Hc Hn]]].
  rewrite He, Hc. unfold catchBlock.
  destruct (isUnauthorizedError (toFriendlyError e)).
  - cbn [events completion]. rewrite app_nil_r. auto.
  - destruct abortedAtCatch; cbn [events completion]; [auto|].
    repeat split. rewrite errorEvents_app, Hn. reflexivity.
Qed.

Lemma run_exception_witness :
  forallb (fun item => negb (abortedAtArrival item))
    [{| abortedAtArrival := false; resp := exHello |}] = true
  /\ events (run (fun e => e) detail exResponseText [] (fun s => s) exCallId exTurn
               (PLOne (PUString "hi"))
               {| items := [{| abortedAtArrival := false; resp := exHello |}];
                  ending := StreamThrows exQuota false |})
     = [Content_ "Hello"; Error_ {| message := "quota"; status := Some 429%Z |}].
Proof.
  split; [reflexivity|].
  exact (proj1 (run_exception (fun e => e) detail exResponseText [] (fun s => s) exCallId
                  exTurn (PLOne (PUString "hi"))
                  [{| abortedAtArrival := false; resp := exHello |}]
                  exQuota false eq_refl)).
Defined.

Example thought_subject :
  matchBold "**Plan** read the file" = Some ("", "Plan", " read the file").
Proof. reflexivity. Qed.

End TurnEngineFacts.

(* ===================================================================== *)
(** * The MCP client: status of a server after discovery *)
(* ===================================================================== *)

Module McpFacts.
Import JS McpSchema Mcp.

Section ClientFacts.
Variable PromptRegistry : Type.
Variable registerPrompt : PromptRegistry -> DiscoveredMCPPrompt -> PromptRegistry.
Variable getAllPrompts : PromptRegistry -> list DiscoveredMCPPrompt.
Variable validURL : string -> bool.

Local Abbreviation State := (McpState PromptRegistry).
Local Abbreviation connectAndDiscover' :=
  (connectAndDiscover PromptRegistry registerPrompt getAllPrompts validURL).
Local Abbreviation discoverPrompts' :=
  (discoverPrompts PromptRegistry registerPrompt getAllPrompts).

(** The calls made to the listeners for a run of status updates. *)
Definition notificationsFor (listeners : list StatusChangeListener)
  (updates : list (string * MCPServerStatus))
  : list (StatusChangeListener * string * MCPServerStatus) :=
  flat_map (fun '(name, status) => map (fun l => (l, name, status)) listeners) updates.

Lemma notificationsFor_app listeners a b :
  notificationsFor listeners (a ++ b)
  = notificationsFor listeners a ++ notificationsFor listeners b.
Proof. unfold notificationsFor. apply flat_map_app. Qed.

(** What a piece of the discovery adds to the module state: status
    updates, every one of them notified to every registered listener, the
    listeners themselves being left as they are. *)
Definition extends (st st' : State) (updates : list (string * MCPServerStatus)) : Prop :=
  statusChangeListeners st' = statusChangeListeners st
  /\ statusUpdates st' = statusUpdates st ++ updates
  /\ notifications st'
     = notifications st ++ notificationsFor (statusChangeListeners st) updates.

Lemma extends_refl st : extends st st [].
Proof. unfold extends. simpl. rewrite !app_nil_r. auto. Qed.

Lemma extends_trans st1 st2 st3 u v :
  extends st1 st2 u -> extends st2 st3 v -> extends st1 st3 (u ++ v).
Proof.
  intros [L1 [U1 N1]] [L2 [U2 N2]]. unfold extends.
  rewrite L2, L1, U2, U1, N2, N1, L1, notificationsFor_app, !app_assoc. auto.
Qed.

Lemma extends_update name status (st : State) :
  extends st (updateMCPServerStatus PromptRegistry name status st) [(name, status)].
Proof. unfold extends. simpl. rewrite app_nil_r. auto. Qed.

Lemma extends_clientErrors name n : forall st : State,
  extends st (clientErrors PromptRegistry name n st) (repeat (name, DISCONNECTED) n).
Proof.
  induction n as [|n IH]; intros st; [apply extends_refl|].
  cbn [clientErrors repeat].
  change ((name, DISCONNECTED) :: repeat (name, DISCONNECTED) n)
    with ([(name, DISCONNECTED)] ++ repeat (name, DISCONNECTED) n).
  eapply extends_trans; [apply extends_update|apply IH].
Qed.

Lemma extends_same (st st' : State) :
  statusChangeListeners st' = statusChangeListeners st ->
  statusUpdates st' = statusUpdates st ->
  notifications st' = notifications st ->
  extends st st' [].
Proof. intros L U N. unfold extends. simpl. rewrite L, U, N, !app_nil_r. auto. Qed.

Lemma extends_like (st st1 st2 : State) u :
  extends st st1 u ->
  statusChangeListeners st2 = statusChangeListeners st1 ->
  statusUpdates st2 = statusUpdates st1 ->
  notifications st2 = notifications st1 ->
  extends st st2 u.
Proof.
  intros E L U N. rewrite <- (app_nil_r u).
  eapply extends_trans; [exact E|apply extends_same; assumption].
Qed.

Lemma clientErrors_registry name n : forall s : State,
  promptRegistry (clientErrors PromptRegistry name n s) = promptRegistry s.
Proof. induction n as [|n IH]; intros s; [reflexivity|]. simpl. rewrite IH. reflexivity. Qed.

(** The server can be reached and at least one prompt is returned by
    [discoverPrompts] or one tool by [discoverTools]. *)
Definition foundAnything (name : string) (config : MCPServerConfig)
  (server : ServerBehaviour) (st : State) : bool :=
  match connectToMcpServer validURL name config server with
  | None => false
  | Some _ =>
      negb ((List.length (fst (discoverPrompts' name server (promptRegistry st))) =? 0)%nat
            && (List.length (discoverTools name config server) =? 0)%nat)
  end.

(** The errors the client reports during a run of [connectAndDiscover]:
    those reported while the prompts and the tools are discovered, none
    when the connection is not made. *)
Definition clientErrorCount (name : string) (config : MCPServerConfig)
  (server : ServerBehaviour) : nat :=
  match connectToMcpServer validURL name config server with
  | Some _ => errorsDuringPrompts server + errorsDuringTools server
  | None => 0
  end.

(** X8: the status updates of [connectAndDiscover] are, in order:
    CONNECTING; one DISCONNECTED for each error the client reports during
    the discovery (the client's error handler); and last CONNECTED or
    DISCONNECTED, CONNECTED exactly when the connection was made and
    [discoverPrompts] or [discoverTools] returned something.  The status
    read afterwards is that last one, and every update is notified to
    every registered listener. *)
Lemma connectAndDiscover_updates name config server (st : State) :
  extends st (connectAndDiscover' name config server st)
    (([(name, CONNECTING)]
        ++ repeat (name, DISCONNECTED) (clientErrorCount name config server))
       ++ [(name, if foundAnything name config server st
                  then CONNECTED else DISCONNECTED)])
  /\ getMCPServerStatus PromptRegistry name (connectAndDiscover' name config server st)
     = if foundAnything name config server st then CONNECTED else DISCONNECTED.
Proof.
  unfold connectAndDiscover, foundAnything, clientErrorCount.
  destruct (connectToMcpServer validURL name config server) as [client|].
  - rewrite clientErrors_registry. cbn [promptRegistry updateMCPServerStatus].
    destruct (discoverPrompts' name server (promptRegistry st)) as [prompts registry].
    cbn [fst].
    set (st1 := updateMCPServerStatus PromptRegistry name CONNECTING st).
    set (st2 := clientErrors PromptRegistry name (errorsDuringPrompts server) st1).
    set (st3 := setPromptRegistry PromptRegistry registry st2).
    set (st4 := clientErrors PromptRegistry name (errorsDuringTools server) st3).
    assert (E4 : extends st st4
                   ([(name, CONNECTING)]
                      ++ repeat (name, DISCONNECTED)
                           (errorsDuringPrompts server + errorsDuringTools server))).
    { rewrite repeat_app, app_assoc.
      eapply extends_trans; [|apply extends_clientErrors].
      apply (extends_like st st2); try reflexivity.
      eapply extends_trans; [apply extends_update|apply extends_clientErrors]. }
    destruct ((List.length prompts =? 0)%nat
              && (List.length (discoverTools name config server) =? 0)%nat); cbn [negb].
    + split.
      * eapply extends_trans; [|apply extends_update].
        apply (extends_like st st4); [exact E4|reflexivity..].
      * unfold getMCPServerStatus. simpl. rewrite lookup_insert_eq. reflexivity.
    + split.
      * apply (extends_like st (updateMCPServerStatus PromptRegistry name CONNECTED st4));
          try reflexivity.
        eapply extends_trans; [exact E4|apply extends_update].
      * unfold getMCPServerStatus. simpl. rewrite lookup_insert_eq. reflexivity.
  - cbn [repeat]. rewrite app_nil_r. split.
    + eapply extends_trans; apply extends_update.
    + unfold getMCPServerStatus. simpl. rewrite lookup_insert_eq. reflexivity.
Qed.

End ClientFacts.

(** C7 at a server that declares the prompts capability, lists no prompt
    and no tool, while the shared registry holds a prompt registered for
    another server: [discoverPrompts] returns the whole registry, so the
    server ends CONNECTED although nothing was discovered from it.  With
    an empty registry the same server ends DISCONNECTED. *)
Lemma connectAndDiscover_counts_registry :
  listedPrompts exEmptyServer = Some []
  /\ discoverTools "second" exConfig exEmptyServer = []
  /\ getMCPServerStatus ListRegistry "second"
       (connectAndDiscover ListRegistry listRegisterPrompt listGetAllPrompts (fun _ => true)
          "second" exConfig exEmptyServer (exInitial [exOtherPrompt]))
     = CONNECTED
  /\ getMCPServerStatus ListRegistry "second"
       (connectAndDiscover ListRegistry listRegisterPrompt listGetAllPrompts (fun _ => true)
          "second" exConfig exEmptyServer (exInitial []))
     = DISCONNECTED.
Proof. repeat split; vm_compute; reflexivity. Qed.

Example connectAndDiscover_notifications :
  notifications
    (connectAndDiscover ListRegistry listRegisterPrompt listGetAllPrompts (fun _ => true)
       "second" exConfig exEmptyServer (exInitial []))
  = [(1, "second", CONNECTING); (2, "second", CONNECTING);
     (1, "second", DISCONNECTED); (2, "second", DISCONNECTED)].
Proof. reflexivity. Qed.

End McpFacts.

(* ===================================================================== *)
(** * The stream orchestrator: submissions, completed tools, checkpoints *)
(* ===================================================================== *)

Module OrchestratorFacts.
Import JS Core Orchestrator.

(** ** What the event handlers leave untouched *)

(** The scheduler's calls, the chat's history, the prompt counter, the
    calls to the collaborators and the quota flag are the same in both
    states. *)
Definition sameCore (st st' : State) : Prop :=
  toolCalls st' = toolCalls st
  /\ clientHistory st' = clientHistory st
  /\ promptCount st' = promptCount st
  /\ effects st' = effects st
  /\ modelSwitchedFromQuotaError st' = modelSwitchedFromQuotaError st.

Lemma sameCore_refl st : sameCore st st.
Proof. unfold sameCore. auto. Qed.

Lemma sameCore_trans a b c : sameCore a b -> sameCore b c -> sameCore a c.
Proof. unfold sameCore. intuition congruence. Qed.

(** Case analysis on the innermost scrutinee, until none is left. *)
Ltac split_cases :=
  repeat match goal with
         | |- context [match ?x with _ => _ end] =>
             lazymatch x with
             | context [match _ with _ => _ end] => fail
             | _ => destruct x eqn:?
             end
         end.

Ltac frame :=
  split_cases; cbn [fst snd];
  try (unfold sameCore; cbn; auto; fail);
  try apply sameCore_refl.

Section HookFacts.
Variable findLastSafeSplitPoint : string -> nat.
Variable mapTrackedToolCallsToDisplay : list TrackedToolCall -> HistoryItemWithoutId.
Variable basename : string -> string.
Variable pathJoin : string -> string -> string.

Local Abbreviation submitQuery' := (submitQuery findLastSafeSplitPoint).
Local Abbreviation handleCompletedTools' := (handleCompletedTools findLastSafeSplitPoint).
Local Abbreviation step' :=
  (step findLastSafeSplitPoint mapTrackedToolCallsToDisplay basename pathJoin).
Local Abbreviation runOperations' :=
  (runOperations findLastSafeSplitPoint mapTrackedToolCallsToDisplay basename pathJoin).

Lemma handleContentEvent_frame value buffer ts st :
  sameCore st (fst (handleContentEvent findLastSafeSplitPoint value buffer ts st)).
Proof. unfold handleContentEvent. frame. Qed.

Lemma handleUserCancelledEvent_frame ts st :
  sameCore st (handleUserCancelledEvent ts st).
Proof. unfold handleUserCancelledEvent. frame. Qed.

Lemma handleErrorEvent_frame value ts st : sameCore st (handleErrorEvent value ts st).
Proof. unfold handleErrorEvent. frame. Qed.

Lemma handleFinishedEvent_frame value ts st :
  sameCore st (handleFinishedEvent value ts st).
Proof. unfold handleFinishedEvent. frame. Qed.

Lemma processEvents_frame events env : forall buffer requests st,
  sameCore st (fst (processEvents findLastSafeSplitPoint events env buffer requests st)).
Proof.
  induction events as [|event rest IH]; intros buffer requests st;
    [apply sameCore_refl|].
  destruct event; cbn [processEvents];
    first
      [ apply IH
      | eapply sameCore_trans; [apply handleUserCancelledEvent_frame|apply IH]
      | eapply sameCore_trans; [apply handleErrorEvent_frame|apply IH]
      | eapply sameCore_trans; [apply handleFinishedEvent_frame|apply IH]
      | eapply sameCore_trans; [|apply IH]; unfold sameCore; cbn; auto; fail
      | idtac ].
  pose proof (handleContentEvent_frame value buffer (now env) st) as H.
  destruct (handleContentEvent findLastSafeSplitPoint value buffer (now env) st)
    as [st' buffer'].
  eapply sameCore_trans; [exact H|apply IH].
Qed.

(** ** What a submission does to the prompt counter and the backend *)

Lemma backendCalls_effect e st :
  backendCalls (effect e st)
  = backendCalls st ++ match e with
                       | SendMessageStream query prompt_id => [(query, prompt_id)]
                       | _ => []
                       end.
Proof.
  unfold backendCalls, effect. cbn [effects set_effects].
  rewrite flat_map_app. cbn [flat_map]. rewrite app_nil_r. reflexivity.
Qed.

Lemma backendCalls_same st st' : effects st' = effects st -> backendCalls st' = backendCalls st.
Proof. unfold backendCalls. intros ->. reflexivity. Qed.

(** The state in which a submission prepares the query. *)
Definition resetForSubmission (options : option bool) (st : State) : State :=
  set_turnCancelledRef false
    (set_abortControllerRef (Some {| aborted := false |})
       (if negb (isContinuation options)
        then set_quotaErrorOccurred false (set_modelSwitchedFromQuotaError false st)
        else st)).

(** The query a submission sends to the backend, if it sends one. *)
Definition queryToSend (query : PartListUnion) (options : option bool)
  (prompt_id : option string) (env : SubmitEnv) (st : State) : option PartListUnion :=
  snd (prepareQueryForcasualresearch query (now env) (effectivePromptId prompt_id env st)
         env (resetForSubmission options st)).

Lemma prepareQuery_frame query ts prompt_id env st :
  let st' := fst (prepareQueryForcasualresearch query ts prompt_id env st) in
  clientHistory st' = clientHistory st
  /\ promptCount st' = promptCount st
  /\ backendCalls st' = backendCalls st
  /\ exists extra, toolCalls st' = toolCalls st ++ extra.
Proof.
  unfold prepareQueryForcasualresearch. split_cases; cbn -[backendCalls];
    repeat split; try reflexivity;
    try (exists []; rewrite app_nil_r; reflexivity);
    try (eexists; reflexivity);
    unfold backendCalls; cbn; rewrite ?flat_map_app; cbn; rewrite ?app_nil_r;
    reflexivity.
Qed.

Lemma processStream_frame env st :
  let st' := fst (processcasualresearchStreamEvents findLastSafeSplitPoint env st) in
  clientHistory st' = clientHistory st
  /\ promptCount st' = promptCount st
  /\ effects st' = effects st
  /\ exists extra, toolCalls st' = toolCalls st ++ extra.
Proof.
  unfold processcasualresearchStreamEvents.
  pose proof (processEvents_frame (streamEvents env) env "" [] st) as H.
  destruct (processEvents findLastSafeSplitPoint (streamEvents env) env "" [] st)
    as [st1 requests].
  cbn [fst] in H. destruct H as [Ht [Hc [Hp [He Hm]]]].
  destruct (streamError env); cbn [fst].
  - repeat split; try assumption. exists []. rewrite app_nil_r. exact Ht.
  - destruct requests; cbn.
    + repeat split; try assumption. exists []. rewrite app_nil_r. exact Ht.
    + repeat split; try assumption. rewrite Ht. eexists. reflexivity.
Qed.

Lemma acceptedSubmission_core query options prompt_id env st :
  let st' := acceptedSubmission findLastSafeSplitPoint query options prompt_id env st in
  backendCalls st'
  = backendCalls st
    ++ match queryToSend query options prompt_id env st with
       | Some sent => [(sent, effectivePromptId prompt_id env st)]
       | None => []
       end
  /\ promptCount st'
     = promptCount st
       + match queryToSend query options prompt_id env st with
         | Some _ => if isContinuation options then 0 else 1
         | None => 0
         end
  /\ (exists extra, toolCalls st' = toolCalls st ++ extra)
  /\ clientHistory st'
     = clientHistory st
       ++ match queryToSend query options prompt_id env st with
          | Some _ => turnHistory env
          | None => []
          end.
Proof.
  unfold acceptedSubmission, prepareSubmission, completeSubmission, queryToSend.
  cbv zeta. fold (resetForSubmission options st).
  assert (R : clientHistory (resetForSubmission options st) = clientHistory st
              /\ promptCount (resetForSubmission options st) = promptCount st
              /\ effects (resetForSubmission options st) = effects st
              /\ toolCalls (resetForSubmission options st) = toolCalls st).
  { unfold resetForSubmission. destruct (isContinuation options); cbn; auto. }
  destruct R as [Rc [Rp [Re Rt]]].
  assert (Eid : effectivePromptId prompt_id env (resetForSubmission options st)
                = effectivePromptId prompt_id env st).
  { unfold effectivePromptId, getPromptCount. rewrite Rp. reflexivity. }
  rewrite Eid.
  pose proof (prepareQuery_frame query (now env) (effectivePromptId prompt_id env st) env
                (resetForSubmission options st)) as P.
  destruct (prepareQueryForcasualresearch query (now env)
              (effectivePromptId prompt_id env st) env (resetForSubmission options st))
    as [st1 [sent|]]; cbn [fst snd] in *; cbv beta iota;
    destruct P as [Pc [Pp [Pb [extra1 Pt]]]].
  - set (st2 := set_isResponding true
                  (if negb (isContinuation options)
                   then set_thought None (startNewPrompt st1) else st1)).
    set (st3 := if logSystemPrompt env && negb (isContinuation options)
                then match systemPrompt env with
                     | Some text =>
                         if text =? "" then st2
                         else addItem (SystemPromptItem text) (now env - 1) st2
                     | None => st2
                     end
                else st2).
    set (st4 := set_clientHistory
                  (clientHistory (effect (SendMessageStream sent
                                            (effectivePromptId prompt_id env st)) st3)
                   ++ turnHistory env)
                  (effect (SendMessageStream sent (effectivePromptId prompt_id env st))
                     st3)).
    assert (H3 : clientHistory st3 = clientHistory st
                 /\ promptCount st3
                    = promptCount st + (if isContinuation options then 0 else 1)
                 /\ effects st3 = effects st1
                 /\ toolCalls st3 = toolCalls st ++ extra1).
    { subst st3 st2. rewrite <- Rc, <- Rp, <- Rt, <- Pc, <- Pp, <- Pt.
      destruct (logSystemPrompt env), (isContinuation options), (systemPrompt env) as [t|];
        cbn; try destruct (t =? ""); cbn; repeat split; lia. }
    destruct H3 as [H3c [H3p [H3e H3t]]].
    assert (H4 : clientHistory st4 = clientHistory st ++ turnHistory env
                 /\ promptCount st4
                    = promptCount st + (if isContinuation options then 0 else 1)
                 /\ backendCalls st4
                    = backendCalls st ++ [(sent, effectivePromptId prompt_id env st)]
                 /\ toolCalls st4 = toolCalls st ++ extra1).
    { subst st4. cbn. rewrite H3c, H3p, H3t. repeat split.
      change (backendCalls (effect (SendMessageStream sent
                                      (effectivePromptId prompt_id env st)) st3)
              = backendCalls st ++ [(sent, effectivePromptId prompt_id env st)]).
      rewrite backendCalls_effect, (backendCalls_same st1 st3 H3e), Pb.
      rewrite (backendCalls_same st (resetForSubmission options st) Re). reflexivity. }
    destruct H4 as [H4c [H4p [H4b H4t]]].
    pose proof (processStream_frame env st4) as S.
    destruct (processcasualresearchStreamEvents findLastSafeSplitPoint env st4)
      as [st5 thrown]; cbn [fst] in S.
    destruct S as [Sc [Sp [Se [extra2 St]]]].
    assert (F : forall final,
               clientHistory final = clientHistory st5 ->
               promptCount final = promptCount st5 ->
               backendCalls final = backendCalls st5 ->
               toolCalls final = toolCalls st5 ->
               backendCalls final
               = backendCalls st ++ [(sent, effectivePromptId prompt_id env st)]
               /\ promptCount final
                  = promptCount st + (if isContinuation options then 0 else 1)
               /\ (exists extra, toolCalls final = toolCalls st ++ extra)
               /\ clientHistory final = clientHistory st ++ turnHistory env).
    { intros final Fc Fp Fb Ft.
      rewrite Fb, Fp, Ft, Fc, (backendCalls_same st4 st5 Se), H4b, Sp, H4p, St, H4t,
        Sc, H4c.
      repeat split. exists (extra1 ++ extra2). rewrite app_assoc. reflexivity. }
    apply F; destruct thrown as [e|]; split_cases; try reflexivity;
      unfold backendCalls; cbn; rewrite ?flat_map_app; cbn; rewrite ?app_nil_r;
      reflexivity.
  - rewrite !app_nil_r, Nat.add_0_r, Pb, Pp, Pc, Rp, Rc, Pt, Rt,
      (backendCalls_same st (resetForSubmission options st) Re).
    repeat split. exists extra1. reflexivity.
Qed.

(** The streaming state is not Idle. *)
Definition busy (rendered : StreamingState) : bool :=
  match rendered with
  | Idle => false
  | Responding | WaitingForConfirmation => true
  end.

Lemma submitQuery_unfold rendered query options prompt_id env st :
  submitQuery' rendered query options prompt_id env st
  = if busy rendered && negb (isContinuation options) then st
    else acceptedSubmission findLastSafeSplitPoint query options prompt_id env st.
Proof.
  unfold submitQuery, beginSubmission, acceptedSubmission, busy.
  destruct rendered, (isContinuation options); cbn [andb negb]; try reflexivity;
    destruct (prepareSubmission query options prompt_id env st) as [st1 [id [sent|]]];
    reflexivity.
Qed.


(** ** The prompt counter *)

(** The operation made a call to the backend. *)
Definition reachesBackend (st st' : State) : bool :=
  (List.length (backendCalls st) <? List.length (backendCalls st'))%nat.

(** The number of prompts an operation starts: one for a submission that
    is not a continuation and reaches the backend. *)
Definition newPrompts (op : Operation) (st : State) : nat :=
  match op with
  | SubmitQuery rendered query options prompt_id env =>
      if negb (isContinuation options) && reachesBackend st (step' op st) then 1 else 0
  | _ => 0
  end.

Fixpoint promptsStarted (ops : list Operation) (st : State) : nat :=
  match ops with
  | [] => 0
  | op :: rest => newPrompts op st + promptsStarted rest (step' op st)
  end.

Lemma submitQuery_promptCount rendered query options prompt_id env st :
  promptCount (submitQuery' rendered query options prompt_id env st)
  = promptCount st
    + (if negb (isContinuation options)
          && reachesBackend st (submitQuery' rendered query options prompt_id env st)
       then 1 else 0).
Proof.
  unfold reachesBackend. rewrite submitQuery_unfold.
  destruct (busy rendered && negb (isContinuation options)).
  - rewrite Nat.ltb_irrefl, andb_false_r. lia.
  - destruct (acceptedSubmission_core query options prompt_id env st) as [Hb [Hp _]].
    rewrite Hb, Hp, List.length_app.
    destruct (queryToSend query options prompt_id env st); cbn [List.length].
    + replace (List.length (backendCalls st) <? List.length (backendCalls st) + 1)%nat
        with true by (symmetry; apply Nat.ltb_lt; lia).
      destruct (isContinuation options); reflexivity.
    + rewrite !Nat.add_0_r, Nat.ltb_irrefl, andb_false_r. lia.
Qed.

Lemma markToolsAsSubmitted_promptCount ids st :
  promptCount (markToolsAsSubmitted ids st) = promptCount st.
Proof. reflexivity. Qed.

Lemma finalize_frame completed st :
  let st' := finalizeClientAndMemoryTools completed st in
  promptCount st' = promptCount st
  /\ backendCalls st' = backendCalls st
  /\ clientHistory st' = clientHistory st
  /\ isResponding st' = isResponding st
  /\ modelSwitchedFromQuotaError st' = modelSwitchedFromQuotaError st.
Proof.
  unfold finalizeClientAndMemoryTools. cbv zeta.
  repeat match goal with
         | |- context [match ?l with [] => _ | _ :: _ => _ end] => destruct l
         end;
    cbn -[backendCalls]; repeat split;
    unfold backendCalls; cbn; rewrite ?flat_map_app; cbn; rewrite ?app_nil_r; reflexivity.
Qed.

Lemma handleCompletedTools_promptCount completed env st :
  promptCount (handleCompletedTools' completed env st) = promptCount st.
Proof.
  unfold handleCompletedTools.
  destruct (isResponding st); [reflexivity|].
  destruct (finalize_frame completed st) as [Hp _].
  destruct (casualresearchTools completed) as [|first rest]; [exact Hp|].
  destruct (forallb isCancelled (first :: rest)); [exact Hp|].
  destruct (modelSwitchedFromQuotaError (finalizeClientAndMemoryTools completed st));
    [exact Hp|].
  rewrite markToolsAsSubmitted_promptCount, submitQuery_promptCount. cbn. lia.
Qed.

Lemma saveRestorableToolCall_promptCount config dir env h toolCall st :
  promptCount (saveRestorableToolCall basename pathJoin config dir env h toolCall st)
  = promptCount st.
Proof. unfold saveRestorableToolCall. split_cases; reflexivity. Qed.

Lemma saveRestorableLoop_promptCount config dir env h calls : forall position st,
  promptCount (saveRestorableLoop basename pathJoin config dir env h position calls st)
  = promptCount st.
Proof.
  induction calls as [|c r IH]; intros position st; [reflexivity|].
  cbn [saveRestorableLoop]. rewrite IH. apply saveRestorableToolCall_promptCount.
Qed.

Lemma step_promptCount op st :
  promptCount (step' op st) = promptCount st + newPrompts op st.
Proof.
  destruct op; cbn [step newPrompts]; rewrite ?Nat.add_0_r.
  - apply submitQuery_promptCount.
  - unfold onComplete. destruct completed; [reflexivity|].
    rewrite handleCompletedTools_promptCount. reflexivity.
  - unfold escapeKey. split_cases; reflexivity.
  - reflexivity.
  - reflexivity.
  - reflexivity.
  - unfold saveRestorableToolCalls.
    split_cases; try reflexivity; rewrite saveRestorableLoop_promptCount; reflexivity.
Qed.

Lemma runOperations_promptCount ops : forall st,
  promptCount (runOperations' ops st) = promptCount st + promptsStarted ops st.
Proof.
  induction ops as [|op rest IH]; intros st; cbn [runOperations promptsStarted];
    [lia|].
  rewrite IH, step_promptCount. lia.
Qed.

(** C8: every operation adds to the prompt counter the number of prompts
    it starts -- one for a submission that is not a continuation and makes
    a call to the backend, none for any other operation, a continuation
    among them; hence after a sequence of operations the counter has grown
    by the number of such submissions, and it never decreases. *)
Theorem promptCount_counts_prompts (ops : list Operation) (st : State) :
  (forall op, promptCount (step' op st) = promptCount st + newPrompts op st)
  /\ promptCount (runOperations' ops st) = promptCount st + promptsStarted ops st
  /\ promptCount st <= promptCount (runOperations' ops st).
Proof.
  split; [intros op; apply step_promptCount|].
  rewrite runOperations_promptCount. split; lia.
Qed.

(** ** The guard of a submission *)

(** What the guard does: a call that is not a continuation, through a
    callback that holds Responding or WaitingForConfirmation, returns the
    state it was given; every other call is a submission past the guard,
    whatever the streaming state is when it is made. *)
Lemma submitQuery_guard (rendered : StreamingState) (query : PartListUnion)
    (options : option bool) (prompt_id : option string) (env : SubmitEnv) (st : State) :
  (isContinuation options = false -> rendered <> Idle ->
     submitQuery' rendered query options prompt_id env st = st)
  /\ (isContinuation options = true \/ rendered = Idle ->
        submitQuery' rendered query options prompt_id env st
        = acceptedSubmission findLastSafeSplitPoint query options prompt_id env st).
Proof.
  rewrite submitQuery_unfold. split.
  - intros -> Hr. destruct rendered; [congruence|reflexivity..].
  - intros [->| ->]; [rewrite andb_false_r|]; reflexivity.
Qed.

(** ** The completion callback *)

Lemma markToolsAsSubmitted_marks ids st tc :
  In tc (toolCalls (markToolsAsSubmitted ids st)) ->
  In (callId (request tc)) ids ->
  responseSubmittedTocasualresearch tc = true.
Proof.
  unfold markToolsAsSubmitted. cbn [toolCalls set_toolCalls].
  intros Hin Hid. apply in_map_iff in Hin as [tc0 [<- _]].
  destruct (existsb (String.eqb (callId (request tc0))) ids) eqn:E; [reflexivity|].
  exfalso. assert (X : existsb (String.eqb (callId (request tc0))) ids = true).
  { apply existsb_exists. exists (callId (request tc0)).
    split; [exact Hid|apply String.eqb_refl]. }
  congruence.
Qed.






(** ** Checkpoints *)

(** The calls a checkpoint is taken for are the tracked calls named
    [replace] or [write_file] that await approval. *)
Lemma restorableToolCalls_spec st toolCall :
  In toolCall (restorableToolCalls st)
  <-> In toolCall (toolCalls st)
      /\ (tool_name (request toolCall) = "replace"
          \/ tool_name (request toolCall) = "write_file")
      /\ status toolCall = awaiting_approval.
Proof.
  unfold restorableToolCalls. rewrite List.filter_In.
  rewrite andb_true_iff, orb_true_iff, !String.eqb_eq.
  destruct (status toolCall); intuition congruence.
Qed.

(** The commit hash the loop body obtains for a call: the snapshot's, else
    the current commit's; none without a git service or when a call to it
    throws. *)
Definition obtainedCommitHash (config : Config) (env : SnapshotEnv) : option string :=
  match projectRoot config with
  | Some root =>
      if root =? "" then None
      else
        match createFileSnapshot env with
        | GitThrows => None
        | GitReturns h =>
            match truthyHash h with
            | Some commitHash => Some commitHash
            | None =>
                match getCurrentCommitHash env with
                | GitThrows => None
                | GitReturns h' => truthyHash h'
                end
            end
        end
  | None => None
  end.

(** The name of the checkpoint file. *)
Definition checkpointFileName (env : SnapshotEnv) (filePath toolName : string) : string :=
  (replaceAll dot underscore (replaceAll colon dash (isoTimestamp env))
   ++ "-" ++ basename filePath ++ "-" ++ toolName ++ ".json")%string.

Local Abbreviation saveOne' := (saveRestorableToolCall basename pathJoin).
Local Abbreviation saveLoop' := (saveRestorableLoop basename pathJoin).

(** The loop body makes one call to a collaborator and changes nothing
    else. *)
Lemma saveRestorableToolCall_frame config dir env h toolCall st :
  clientHistory (saveOne' config dir env h toolCall st) = clientHistory st
  /\ exists e, effects (saveOne' config dir env h toolCall st) = effects st ++ [e].
Proof.
  unfold saveRestorableToolCall. split_cases; cbn; split; try reflexivity; eauto.
Qed.

Lemma saveRestorableToolCall_writes config dir env h toolCall st filePath commitHash :
  tool_args (request toolCall) !! "file_path" = Some (JStr filePath) ->
  filePath <> "" ->
  obtainedCommitHash config env = Some commitHash ->
  writeFileThrows env = false ->
  effects (saveOne' config dir env h toolCall st)
  = effects st
    ++ [WriteFile
          (pathJoin dir (checkpointFileName env filePath (tool_name (request toolCall))))
          {| cp_history := h;
             cp_clientHistory := clientHistory st;
             cp_toolCall := (tool_name (request toolCall), tool_args (request toolCall));
             cp_commitHash := commitHash;
             cp_filePath := filePath |}].
Proof.
  intros Hf Hne Hh Hw. unfold saveRestorableToolCall, obtainedCommitHash in *.
  rewrite Hf. cbn [truthy].
  destruct (String.eqb_spec filePath ""); [contradiction|]. cbn [negb].
  destruct (projectRoot config) as [root|]; [|discriminate].
  destruct (root =? ""); [discriminate|]. cbn [negb].
  destruct (createFileSnapshot env) as [|h1]; [discriminate|].
  destruct (truthyHash h1) as [c1|].
  - injection Hh as <-. rewrite Hw. reflexivity.
  - destruct (getCurrentCommitHash env) as [|h2]; [discriminate|].
    rewrite Hh, Hw. reflexivity.
Qed.

(** When the write fails, the loop body reports it and writes nothing. *)
Lemma saveRestorableToolCall_write_fails config dir env h toolCall st filePath commitHash :
  tool_args (request toolCall) !! "file_path" = Some (JStr filePath) ->
  filePath <> "" ->
  obtainedCommitHash config env = Some commitHash ->
  writeFileThrows env = true ->
  effects (saveOne' config dir env h toolCall st)
  = effects st ++ [OnDebugMessage FailedToWriteFile].
Proof.
  intros Hf Hne Hh Hw. unfold saveRestorableToolCall, obtainedCommitHash in *.
  rewrite Hf. cbn [truthy].
  destruct (String.eqb_spec filePath ""); [contradiction|]. cbn [negb].
  destruct (projectRoot config) as [root|]; [|discriminate].
  destruct (root =? ""); [discriminate|]. cbn [negb].
  destruct (createFileSnapshot env) as [|h1]; [discriminate|].
  destruct (truthyHash h1) as [c1|].
  - rewrite Hw. reflexivity.
  - destruct (getCurrentCommitHash env) as [|h2]; [discriminate|].
    rewrite Hh, Hw. reflexivity.
Qed.

(** What the loop body does for a call with a file path and a commit
    hash: it writes the checkpoint, or reports that the write failed. *)
Definition checkpointEffect (dir : string) (env : SnapshotEnv)
  (h : list (HistoryItemWithoutId * Z)) (ch : list Content) (toolCall : TrackedToolCall)
  (filePath commitHash : string) : Effect :=
  if writeFileThrows env then OnDebugMessage FailedToWriteFile
  else
    WriteFile
      (pathJoin dir (checkpointFileName env filePath (tool_name (request toolCall))))
      {| cp_history := h;
         cp_clientHistory := ch;
         cp_toolCall := (tool_name (request toolCall), tool_args (request toolCall));
         cp_commitHash := commitHash;
         cp_filePath := filePath |}.

Lemma saveRestorableToolCall_checkpoint config dir env h toolCall st filePath commitHash :
  tool_args (request toolCall) !! "file_path" = Some (JStr filePath) ->
  filePath <> "" ->
  obtainedCommitHash config env = Some commitHash ->
  effects (saveOne' config dir env h toolCall st)
  = effects st
    ++ [checkpointEffect dir env h (clientHistory st) toolCall filePath commitHash].
Proof.
  intros Hf Hne Hh. unfold checkpointEffect.
  destruct (writeFileThrows env) eqn:Hw.
  - exact (saveRestorableToolCall_write_fails config dir env h toolCall st filePath
             commitHash Hf Hne Hh Hw).
  - exact (saveRestorableToolCall_writes config dir env h toolCall st filePath
             commitHash Hf Hne Hh Hw).
Qed.

(** The loop makes one call to a collaborator for each restorable call. *)
Lemma saveRestorableLoop_effects config dir env h calls : forall position st,
  exists perCall,
    effects (saveLoop' config dir env h position calls st) = effects st ++ perCall
    /\ List.length perCall = List.length calls.
Proof.
  induction calls as [|c r IH]; intros position st.
  - exists []. rewrite app_nil_r. split; reflexivity.
  - cbn [saveRestorableLoop].
    destruct (saveRestorableToolCall_frame config dir (snapshotEnv env position) h c st)
      as [_ [e He]].
    destruct (IH (S position)
                (saveOne' config dir (snapshotEnv env position) h c st))
      as [more [Hm Hl]].
    exists (e :: more). rewrite Hm, He, <- app_assoc. cbn [List.length app].
    split; [reflexivity|]. rewrite Hl. reflexivity.
Qed.

Lemma saveRestorableLoop_nth config dir env h calls : forall k position st toolCall
    filePath commitHash,
  nth_error calls k = Some toolCall ->
  tool_args (request toolCall) !! "file_path" = Some (JStr filePath) ->
  filePath <> "" ->
  obtainedCommitHash config (snapshotEnv env (position + k)) = Some commitHash ->
  exists perCall,
    effects (saveLoop' config dir env h position calls st) = effects st ++ perCall
    /\ List.length perCall = List.length calls
    /\ nth_error perCall k
       = Some (checkpointEffect dir (snapshotEnv env (position + k)) h (clientHistory st)
                 toolCall filePath commitHash).
Proof.
  induction calls as [|c r IH]; intros k position st toolCall filePath commitHash Hn Hf
    Hne Hh.
  - destruct k; discriminate.
  - cbn [saveRestorableLoop]. destruct k as [|k].
    + injection Hn as ->. rewrite Nat.add_0_r in *.
      destruct (saveRestorableLoop_effects config dir env h r (S position)
                  (saveOne' config dir (snapshotEnv env position) h toolCall st))
        as [more [Hm Hl]].
      rewrite (saveRestorableToolCall_checkpoint config dir _ h toolCall st filePath
                 commitHash Hf Hne Hh) in Hm.
      eexists (_ :: more). rewrite Hm, <- app_assoc. cbn [app List.length nth_error].
      split; [reflexivity|]. split; [rewrite Hl|]; reflexivity.
    + cbn [nth_error] in Hn.
      destruct (saveRestorableToolCall_frame config dir (snapshotEnv env position) h c st)
        as [Hc [e He]].
      replace (position + S k) with (S position + k) in * by lia.
      destruct (IH k (S position)
                  (saveOne' config dir (snapshotEnv env position) h c st)
                  toolCall filePath commitHash Hn Hf Hne Hh) as [more [Hm [Hl Hk]]].
      exists (e :: more). rewrite Hm, He, <- app_assoc, <- Hc.
      cbn [app List.length nth_error].
      split; [reflexivity|]. split; [rewrite Hl; reflexivity|exact Hk].
Qed.

Lemma filesWritten_effect path content st :
  In (WriteFile path content) (effects st) -> In (path, content) (filesWritten st).
Proof.
  intros H. unfold filesWritten. apply in_flat_map.
  exists (WriteFile path content). split; [exact H|left; reflexivity].
Qed.

(** C9 (amended): with checkpointing enabled, take a tracked call named
    [replace] or [write_file] that awaits approval with a non-empty string
    [file_path] argument, for which a commit hash is obtained (from the
    snapshot, else the current commit).  When the project temp directory
    is not set, or empty, the effect changes nothing.  Otherwise it asks
    for the directory [<projectTempDir>/checkpoints]; when that cannot be
    made, it emits the debug message of that failure and writes no file.
    When the directory was made or exists, the effect makes one call for
    each restorable call, in order, and the call made for this one is:
    when the write fails, the debug message of that failure, and no
    write; otherwise the write of a file named
    [<timestamp>-<basename>-<toolName>.json] under that directory,
    holding exactly the history, the client history, the tool call's name
    and args, the commit hash and the file path. *)
Theorem saveRestorableToolCalls_writes
    (config : Config) (env : CheckpointEnv) (st : State)
    (k : nat) (toolCall : TrackedToolCall) (filePath commitHash : string) :
  checkpointingEnabled config = true ->
  nth_error (restorableToolCalls st) k = Some toolCall ->
  tool_args (request toolCall) !! "file_path" = Some (JStr filePath) ->
  filePath <> "" ->
  obtainedCommitHash config (snapshotEnv env k) = Some commitHash ->
  let final := saveRestorableToolCalls basename pathJoin config env st in
  match projectTempDir config with
  | None => final = st
  | Some tempDir =>
      if tempDir =? "" then final = st
      else
        let checkpointDir := pathJoin tempDir "checkpoints" in
        let path :=
          pathJoin checkpointDir
            (checkpointFileName (snapshotEnv env k) filePath
               (tool_name (request toolCall))) in
        let checkpoint :=
          {| cp_history := history st;
             cp_clientHistory := clientHistory st;
             cp_toolCall := (tool_name (request toolCall), tool_args (request toolCall));
             cp_commitHash := commitHash;
             cp_filePath := filePath |} in
        match mkdirResult env with
        | MkdirFails =>
            effects final
            = effects st
              ++ [Mkdir checkpointDir;
                  OnDebugMessage FailedToCreateCheckpointDirectory]
            /\ filesWritten final = filesWritten st
        | MkdirDone | MkdirEEXIST =>
            exists perCall,
              effects final = effects st ++ Mkdir checkpointDir :: perCall
              /\ List.length perCall = List.length (restorableToolCalls st)
              /\ nth_error perCall k
                 = Some (if writeFileThrows (snapshotEnv env k)
                         then OnDebugMessage FailedToWriteFile
                         else WriteFile path checkpoint)
              /\ (writeFileThrows (snapshotEnv env k) = false ->
                  In (path, checkpoint) (filesWritten final))
        end
  end.
Proof.
  intros Hen Hn Hf Hfne Hh. cbv zeta. unfold saveRestorableToolCalls.
  rewrite Hen. cbn [negb].
  destruct (restorableToolCalls st) as [|c r] eqn:Er; [destruct k; discriminate|].
  destruct (projectTempDir config) as [tempDir|]; [|reflexivity].
  destruct (tempDir =? ""); [reflexivity|].
  set (dir := pathJoin tempDir "checkpoints").
  assert (L : exists perCall,
             effects (saveLoop' config dir env (history (effect (Mkdir dir) st)) 0
                        (c :: r) (effect (Mkdir dir) st))
             = effects st ++ Mkdir dir :: perCall
             /\ List.length perCall = List.length (c :: r)
             /\ nth_error perCall k
                = Some (checkpointEffect dir (snapshotEnv env k) (history st)
                          (clientHistory st) toolCall filePath commitHash)).
  { destruct (saveRestorableLoop_nth config dir env (history st) (c :: r) k 0
                (effect (Mkdir dir) st) toolCall filePath commitHash Hn Hf Hfne Hh)
      as [perCall [He [Hl Hk]]].
    exists perCall. split; [|split; [exact Hl|exact Hk]].
    change (history (effect (Mkdir dir) st)) with (history st).
    rewrite He. cbn [effects effect set_effects]. rewrite <- app_assoc. reflexivity. }
  assert (W : forall final perCall,
             effects final = effects st ++ Mkdir dir :: perCall ->
             nth_error perCall k
             = Some (checkpointEffect dir (snapshotEnv env k) (history st)
                       (clientHistory st) toolCall filePath commitHash) ->
             writeFileThrows (snapshotEnv env k) = false ->
             In (pathJoin dir
                   (checkpointFileName (snapshotEnv env k) filePath
                      (tool_name (request toolCall))),
                 {| cp_history := history st;
                    cp_clientHistory := clientHistory st;
                    cp_toolCall :=
                      (tool_name (request toolCall), tool_args (request toolCall));
                    cp_commitHash := commitHash;
                    cp_filePath := filePath |})
               (filesWritten final)).
  { intros final perCall He Hk Hw. apply filesWritten_effect. rewrite He.
    apply in_or_app. right. right. apply nth_error_In with (n := k).
    rewrite Hk. unfold checkpointEffect. rewrite Hw. reflexivity. }
  destruct (mkdirResult env).
  - destruct L as [perCall [He [Hl Hk]]]. exists perCall.
    split; [exact He|]. split; [exact Hl|]. split; [exact Hk|].
    exact (W _ perCall He Hk).
  - destruct L as [perCall [He [Hl Hk]]]. exists perCall.
    split; [exact He|]. split; [exact Hl|]. split; [exact Hk|].
    exact (W _ perCall He Hk).
  - split.
    + cbn [effects effect set_effects]. rewrite <- app_assoc. reflexivity.
    + unfold filesWritten. cbn [effects effect set_effects].
      rewrite !flat_map_app. cbn [flat_map]. rewrite !app_nil_r. reflexivity.
Qed.

End HookFacts.



(** C2: the claim fails on the code.  The guard of [submitQuery] reads the
    streaming state that its callback holds, and [isResponding] is set
    only in the second part of a submission, after its first [await].  So
    a second call that is not a continuation, made through the same
    callback while the first call is at that [await], passes the guard:
    both turns are sent to the backend, under the same prompt id, and two
    prompts are counted, the second turn being started while the streaming
    state is Responding.  Likewise a call through the callback of an Idle
    render, made after the first turn has left the streaming state
    Responding (its tool call is not finished), passes the guard, starts
    a backend turn, counts a prompt and adds to the history. *)
Theorem submitQuery_overlapping :
  let first := PLOne (PUString "Read foo.txt") in
  let second := PLOne (PUString "Say hello.") in
  let env1 := exEnv [ToolCallRequest exRequest] in
  let env2 := exEnv [Content_ "Hello"; Finished STOP] in
  (* two calls through the callback of the first render, the second made
     while the first is at its first await *)
  let begun1 := beginSubmission Idle first None None env1 initialState in
  let begun2 := beginSubmission Idle second None None env2 (fst begun1) in
  let done1 :=
    completeSubmission exSplitPoint first None "session########0" env1 (fst begun2) in
  let done2 :=
    completeSubmission exSplitPoint second None "session########0" env2 done1 in
  (* a call through the callback of the first render, after the first
     call has returned *)
  let responding := submitQuery exSplitPoint Idle first None None env1 initialState in
  let stale := submitQuery exSplitPoint Idle second None None env2 responding in
  streamingState initialState = Idle
  /\ snd begun1 = Some ("session########0", first)
  /\ streamingState (fst begun1) = Idle
  /\ snd begun2 = Some ("session########0", second)
  /\ streamingState done1 = Responding
  /\ backendCalls done2 = [(first, "session########0"); (second, "session########0")]
  /\ promptCount done2 = 2
  /\ streamingState responding = Responding
  /\ backendCalls stale = [(first, "session########0"); (second, "session########1")]
  /\ promptCount stale = 2
  /\ List.length (history stale) = S (S (List.length (history responding))).
Proof. repeat split. Qed.

(** The plain text turn and the single tool turn of the specification:
    one prompt each, the second with two calls to the backend. *)
Example plain_text_turn :
  promptCount
    (runOperations exSplitPoint exDisplay exBasename exPathJoin
       [SubmitQuery Idle (PLOne (PUString "Say hello.")) None None
          (exEnv [Content_ "Hello"; Content_ " world"; Finished STOP])]
       initialState)
  = 1.
Proof. reflexivity. Qed.

Example single_tool_turn :
  let final :=
    runOperations exSplitPoint exDisplay exBasename exPathJoin
      [SubmitQuery Idle (PLOne (PUString "Read foo.txt")) None None
         (exEnv [ToolCallRequest exRequest]);
       SchedulerUpdate [exCompleted success];
       ToolsCompleted [exCompleted success]
         (exEnv [Content_ "The file says: file contents"; Finished STOP])]
      initialState in
  promptCount final = 1
  /\ map snd (backendCalls final) = ["session########0"; "session########0"]
  /\ streamingState final = Idle.
Proof. repeat split. Qed.

(** C9, as stated, fails on the code: with checkpointing enabled, a
    [write_file] call awaiting approval with a [file_path] argument and a
    commit hash at hand, no file is written when the project temp
    directory is not set, when the checkpoints directory cannot be
    created, or when the write fails. *)
Lemma saveRestorableToolCalls_guards :
  restorableToolCalls exAwaitingApproval = [exWriteFile]
  /\ obtainedCommitHash (exConfig None) (snapshotEnv (exCheckpointEnv MkdirDone false) 0)
     = Some "abc123"
  /\ filesWritten (saveRestorableToolCalls exBasename exPathJoin (exConfig None)
                     (exCheckpointEnv MkdirDone false) exAwaitingApproval)
     = []
  /\ filesWritten (saveRestorableToolCalls exBasename exPathJoin (exConfig (Some "/tmp/p"))
                     (exCheckpointEnv MkdirFails false) exAwaitingApproval)
     = []
  /\ filesWritten (saveRestorableToolCalls exBasename exPathJoin (exConfig (Some "/tmp/p"))
                     (exCheckpointEnv MkdirDone true) exAwaitingApproval)
     = [].
Proof. repeat split; vm_compute; reflexivity. Qed.

Lemma saveRestorableToolCalls_writes_witness :
  map fst
    (filesWritten (saveRestorableToolCalls exBasename exPathJoin (exConfig (Some "/tmp/p"))
                     (exCheckpointEnv MkdirDone false) exAwaitingApproval))
  = ["/tmp/p/checkpoints/2025-07-01T10-20-30_123Z-a.ts-write_file.json"]
  /\ In ("/tmp/p/checkpoints/2025-07-01T10-20-30_123Z-a.ts-write_file.json",
         {| cp_history := [];
            cp_clientHistory := [];
            cp_toolCall := ("write_file", {[ "file_path" := JStr "/work/src/a.ts" ]});
            cp_commitHash := "abc123";
            cp_filePath := "/work/src/a.ts" |})
       (filesWritten (saveRestorableToolCalls exBasename exPathJoin
                        (exConfig (Some "/tmp/p"))
                        (exCheckpointEnv MkdirDone false) exAwaitingApproval))
  /\ effects (saveRestorableToolCalls exBasename exPathJoin (exConfig (Some "/tmp/p"))
                (exCheckpointEnv MkdirFails false) exAwaitingApproval)
     = [Mkdir "/tmp/p/checkpoints"; OnDebugMessage FailedToCreateCheckpointDirectory]
  /\ saveRestorableToolCalls exBasename exPathJoin (exConfig None)
       (exCheckpointEnv MkdirDone false) exAwaitingApproval
     = exAwaitingApproval.
Proof.
  assert (Hf : tool_args (request exWriteFile) !! "file_path"
               = Some (JStr "/work/src/a.ts")) by (vm_compute; reflexivity).
  assert (Hne : "/work/src/a.ts" <> "") by discriminate.
  split; [vm_compute; reflexivity|]. split; [|split].
  - pose proof (saveRestorableToolCalls_writes exBasename exPathJoin
                  (exConfig (Some "/tmp/p")) (exCheckpointEnv MkdirDone false)
                  exAwaitingApproval 0 exWriteFile "/work/src/a.ts" "abc123"
                  eq_refl eq_refl Hf Hne eq_refl) as H.
    cbv zeta in H. cbn [projectTempDir exConfig mkdirResult exCheckpointEnv] in H.
    change ("/tmp/p" =? "") with false in H. cbv beta iota in H.
    destruct H as [perCall [_ [_ [_ Hin]]]]. exact (Hin eq_refl).
  - pose proof (saveRestorableToolCalls_writes exBasename exPathJoin
                  (exConfig (Some "/tmp/p")) (exCheckpointEnv MkdirFails false)
                  exAwaitingApproval 0 exWriteFile "/work/src/a.ts" "abc123"
                  eq_refl eq_refl Hf Hne eq_refl) as H.
    cbv zeta in H. cbn [projectTempDir exConfig mkdirResult exCheckpointEnv] in H.
    change ("/tmp/p" =? "") with false in H. cbv beta iota in H.
    exact (proj1 H).
  - exact (saveRestorableToolCalls_writes exBasename exPathJoin (exConfig None)
             (exCheckpointEnv MkdirDone false) exAwaitingApproval 0 exWriteFile
             "/work/src/a.ts" "abc123" eq_refl eq_refl Hf Hne eq_refl).
Defined.

End OrchestratorFacts.

(* ===================================================================== *)
(** * File discovery: the batch filter *)
(* ===================================================================== *)

Module FileDiscoveryProps.
Import FileDiscovery FileDiscoveryInit.

(** The test [filterFiles] applies to one path. *)
Definition kept (this : FileDiscoveryService) (options : option FilterFilesOptions)
  (filePath : string) : bool :=
  match filterFiles this [filePath] options with
  | [] => false
  | _ => true
  end.

Lemma filterFiles_filter this options filePaths :
  filterFiles this filePaths options = List.filter (kept this options) filePaths.
Proof.
  unfold kept, filterFiles. induction filePaths as [|p r IH]; [reflexivity|].
  cbn [List.filter]. rewrite IH.
  destruct (if flagSet _ && shouldGitIgnoreFile this p then false else _); reflexivity.
Qed.

(** X2: [filterFiles] keeps the order of the paths it is given (its result
    is a sublist of them), filters a concatenation piecewise, and filtering
    its own result again with the same options changes nothing. *)
Theorem filterFiles_sublist_idempotent (this : FileDiscoveryService)
    (options : option FilterFilesOptions) (filePaths morePaths : list string) :
  sublist (filterFiles this filePaths options) filePaths
  /\ filterFiles this (filePaths ++ morePaths) options
     = filterFiles this filePaths options ++ filterFiles this morePaths options
  /\ filterFiles this (filterFiles this filePaths options) options
     = filterFiles this filePaths options.
Proof.
  rewrite !filterFiles_filter. repeat split.
  - induction filePaths as [|p r IH]; [constructor|].
    cbn [List.filter]. destruct (kept this options p); constructor; exact IH.
  - apply List.filter_app.
  - induction filePaths as [|p r IH]; [reflexivity|].
    cbn [List.filter]. destruct (kept this options p) eqn:E; [|exact IH].
    cbn [List.filter]. rewrite E, IH. reflexivity.
Qed.

(** Switching an option off never removes a path from the result: a
    path kept under given options is kept when [respectGitIgnore] or
    [respectcasualresearchIgnore] is turned to false. *)
Theorem filterFiles_options_off (this : FileDiscoveryService) (filePaths : list string)
    (git project git' project' : bool) (filePath : string) :
  (git' = true -> git = true) ->
  (project' = true -> project = true) ->
  In filePath
    (filterFiles this filePaths
       (Some {| respectGitIgnore := Some git; respectcasualresearchIgnore := Some project |})) ->
  In filePath
    (filterFiles this filePaths
       (Some {| respectGitIgnore := Some git';
                respectcasualresearchIgnore := Some project' |})).
Proof.
  intros Hg Hp. unfold filterFiles. rewrite !List.filter_In. cbn [flagSet respectGitIgnore
    respectcasualresearchIgnore].
  intros [Hin Hk]. split; [exact Hin|].
  destruct git', project', git, project,
    (shouldGitIgnoreFile this filePath), (shouldcasualresearchIgnoreFile this filePath);
    cbn in *; try reflexivity; try discriminate;
    try (specialize (Hg eq_refl); discriminate);
    try (specialize (Hp eq_refl); discriminate).
Qed.

Lemma filterFiles_options_off_witness :
  In "a.ts"
    (filterFiles exService ["a.ts"; "secret.txt"]
       (Some {| respectGitIgnore := Some true; respectcasualresearchIgnore := Some true |}))
  /\ In "a.ts"
       (filterFiles exService ["a.ts"; "secret.txt"]
          (Some {| respectGitIgnore := Some false;
                   respectcasualresearchIgnore := Some true |})).
Proof.
  assert (H : In "a.ts"
                (filterFiles exService ["a.ts"; "secret.txt"]
                   (Some {| respectGitIgnore := Some true;
                            respectcasualresearchIgnore := Some true |}))).
  { left. reflexivity. }
  split; [exact H|].
  apply (filterFiles_options_off exService ["a.ts"; "secret.txt"] true true false true
           "a.ts"); [discriminate|reflexivity|exact H].
Defined.

Section ConstructorProps.
Variable resolve : string -> string.
Variable isGitRepository : string -> bool.
Variable gitRepoParser : string -> GitIgnoreFilter.
Variable patternsParser : string -> string -> GitIgnoreFilter.

Local Abbreviation new :=
  (newFileDiscoveryService resolve isGitRepository gitRepoParser patternsParser).

(** X3: for a service built on a project root that is not inside a git
    repository, the [respectGitIgnore] option has no effect: [filterFiles]
    and [shouldIgnoreFile] give the same result whatever its value, and
    decide by the project's own ignore file alone. *)
Theorem newFileDiscoveryService_outside_git (projectRoot : string)
    (filePaths : list string) (git : option bool) (project : bool) :
  isGitRepository (resolve projectRoot) = false ->
  filterFiles (new projectRoot) filePaths
    (Some {| respectGitIgnore := git; respectcasualresearchIgnore := Some project |})
  = List.filter
      (fun p => negb (project
                      && isIgnored (patternsParser (resolve projectRoot)
                                      casualresearch_IGNORE_FILE_NAME) p))
      filePaths
  /\ forall p,
       shouldIgnoreFile (new projectRoot) p
         (Some {| respectGitIgnore := git; respectcasualresearchIgnore := Some project |})
       = project
         && isIgnored (patternsParser (resolve projectRoot)
                         casualresearch_IGNORE_FILE_NAME) p.
Proof.
  intros Hgit. unfold filterFiles, shouldIgnoreFile, shouldGitIgnoreFile,
    shouldcasualresearchIgnoreFile, newFileDiscoveryService.
  cbn [gitIgnoreFilter casualresearchIgnoreFilter respectGitIgnore
         respectcasualresearchIgnore flagSet].
  rewrite Hgit. split.
  - apply FileDiscoveryFacts.filter_agree. intros p. rewrite andb_false_r.
    destruct (project && _); reflexivity.
  - intros p. rewrite andb_false_r. destruct (project && _); reflexivity.
Qed.

End ConstructorProps.

Lemma newFileDiscoveryService_outside_git_witness :
  exIsGitRepository (exResolve "/work") = false
  /\ filterFiles
       (newFileDiscoveryService exResolve exIsGitRepository exGitRepoParser
          exPatternsParser "/work")
       ["node_modules"; "secret.txt"; "a.ts"]
       (Some {| respectGitIgnore := Some true; respectcasualresearchIgnore := Some true |})
     = ["node_modules"; "a.ts"].
Proof.
  split; [reflexivity|].
  exact (proj1 (newFileDiscoveryService_outside_git exResolve exIsGitRepository
                  exGitRepoParser exPatternsParser "/work"
                  ["node_modules"; "secret.txt"; "a.ts"] (Some true) true eq_refl)).
Defined.

(** With the options omitted, or with both members given, the batch filter
    and the single-path predicate agree on a concrete service. *)
Lemma filterFiles_shouldIgnoreFile_witness :
  filterFiles exService ["a.ts"; "secret.txt"] None
  = List.filter (fun p => negb (shouldIgnoreFile exService p None)) ["a.ts"; "secret.txt"].
Proof.
  exact (FileDiscoveryFacts.filterFiles_shouldIgnoreFile exService ["a.ts"; "secret.txt"]
           None I).
Defined.

End FileDiscoveryProps.

(* ===================================================================== *)
(** * The MCP client: statuses, listeners, transports and tools *)
(* ===================================================================== *)

Module McpProps.
Import JS McpSchema Mcp McpCommand.

(** The last status given to [name] in a run of updates. *)
Fixpoint lastStatusFor (name : string) (updates : list (string * MCPServerStatus))
  : option MCPServerStatus :=
  match updates with
  | [] => None
  | (n, s) :: rest =>
      match lastStatusFor name rest with
      | Some later => Some later
      | None => if n =? name then Some s else None
      end
  end.

Section ClientProps.
Variable PromptRegistry : Type.
Variable registerPrompt : PromptRegistry -> DiscoveredMCPPrompt -> PromptRegistry.
Variable getAllPrompts : PromptRegistry -> list DiscoveredMCPPrompt.
Variable validURL : string -> bool.

Local Abbreviation State := (McpState PromptRegistry).
Local Abbreviation update := (updateMCPServerStatus PromptRegistry).
Local Abbreviation status := (getMCPServerStatus PromptRegistry).
Local Abbreviation add := (addMCPStatusChangeListener PromptRegistry).
Local Abbreviation remove := (removeMCPStatusChangeListener PromptRegistry).
Local Abbreviation connectAndDiscover' :=
  (connectAndDiscover PromptRegistry registerPrompt getAllPrompts validURL).

(** A run of calls of [updateMCPServerStatus]. *)
Fixpoint updateAll (updates : list (string * MCPServerStatus)) (st : State) : State :=
  match updates with
  | [] => st
  | (n, s) :: rest => updateAll rest (update n s st)
  end.

Lemma status_update name n s (st : State) :
  status name (update n s st) = if n =? name then s else status name st.
Proof.
  unfold getMCPServerStatus, updateMCPServerStatus. cbn [serverStatuses].
  destruct (String.eqb_spec n name) as [->|Hne].
  - rewrite lookup_insert_eq. reflexivity.
  - rewrite lookup_insert_ne by exact Hne. reflexivity.
Qed.

(** X4: after any run of status updates, [getMCPServerStatus] returns for
    each server the status of the last update made for it, and what it
    returned before the run for a server the run did not update; a server
    that was never given a status reads DISCONNECTED. *)
Theorem getMCPServerStatus_updateAll (name : string)
    (updates : list (string * MCPServerStatus)) (st : State) :
  status name (updateAll updates st)
  = match lastStatusFor name updates with
    | Some s => s
    | None => match serverStatuses st !! name with
              | Some s => s
              | None => DISCONNECTED
              end
    end.
Proof.
  revert st. induction updates as [|[n s] rest IH]; intros st; [reflexivity|].
  cbn [updateAll lastStatusFor]. rewrite IH.
  destruct (lastStatusFor name rest); [reflexivity|].
  fold (status name (update n s st)). rewrite status_update.
  destruct (n =? name); reflexivity.
Qed.

(** The calls made to [listener] among the notifications. *)
Definition callsTo (listener : StatusChangeListener)
  (calls : list (StatusChangeListener * string * MCPServerStatus))
  : list (string * MCPServerStatus) :=
  flat_map (fun '(l, n, s) => if Nat.eqb l listener then [(n, s)] else []) calls.

Lemma callsTo_app listener a b :
  callsTo listener (a ++ b) = callsTo listener a ++ callsTo listener b.
Proof. unfold callsTo. apply flat_map_app. Qed.

Lemma callsTo_listeners listener n s listeners :
  callsTo listener (map (fun l => (l, n, s)) listeners)
  = repeat (n, s) (count_occ Nat.eq_dec listeners listener).
Proof.
  induction listeners as [|l r IH]; [reflexivity|].
  cbn [map callsTo flat_map count_occ]. fold (callsTo listener (map (fun l => (l, n, s)) r)).
  rewrite IH. destruct (Nat.eq_dec l listener) as [->|Hne].
  - rewrite Nat.eqb_refl. reflexivity.
  - apply Nat.eqb_neq in Hne. rewrite Hne. reflexivity.
Qed.

Lemma count_removeFirst listener x listeners :
  count_occ Nat.eq_dec (removeFirst listener listeners) x
  = if Nat.eqb x listener then Nat.pred (count_occ Nat.eq_dec listeners x)
    else count_occ Nat.eq_dec listeners x.
Proof.
  induction listeners as [|l r IH]; [destruct (Nat.eqb x listener); reflexivity|].
  cbn [removeFirst]. destruct (Nat.eqb_spec l listener) as [->|Hne].
  - cbn [count_occ]. destruct (Nat.eq_dec listener x) as [->|Hx].
    + rewrite Nat.eqb_refl. reflexivity.
    + apply not_eq_sym, Nat.eqb_neq in Hx. rewrite Hx. reflexivity.
  - cbn [count_occ]. rewrite IH. destruct (Nat.eq_dec l x) as [->|Hx].
    + apply Nat.eqb_neq in Hne. rewrite Hne. reflexivity.
    + reflexivity.
Qed.

(** X5: a status update calls every listener once for each time it is
    registered.  [removeMCPStatusChangeListener] takes away one
    registration of the listener it is given and none of any other; so a
    listener that was registered once and then removed is not called by
    later updates, and one registered twice is still called once. *)
Theorem listeners_called_per_registration (listener other : StatusChangeListener)
    (n : string) (s : MCPServerStatus) (st : State) :
  callsTo other (notifications (update n s st))
  = callsTo other (notifications st)
    ++ repeat (n, s) (count_occ Nat.eq_dec (statusChangeListeners st) other)
  /\ count_occ Nat.eq_dec (statusChangeListeners (add listener st)) other
     = count_occ Nat.eq_dec (statusChangeListeners st) other
       + (if Nat.eqb other listener then 1 else 0)
  /\ count_occ Nat.eq_dec (statusChangeListeners (remove listener st)) other
     = count_occ Nat.eq_dec (statusChangeListeners st) other
       - (if Nat.eqb other listener then 1 else 0).
Proof.
  repeat split.
  - cbn [updateMCPServerStatus notifications].
    rewrite callsTo_app, callsTo_listeners. reflexivity.
  - cbn [addMCPStatusChangeListener statusChangeListeners].
    rewrite count_occ_app. cbn [count_occ].
    destruct (Nat.eq_dec listener other) as [->|Hne].
    + rewrite Nat.eqb_refl. reflexivity.
    + apply not_eq_sym, Nat.eqb_neq in Hne. rewrite Hne. reflexivity.
  - cbn [removeMCPStatusChangeListener statusChangeListeners].
    rewrite count_removeFirst. destruct (Nat.eqb other listener); lia.
Qed.

(** [createTransport] prefers [command] to [httpUrl] and [httpUrl] to
    [url]: with a command the transport is stdio whatever the URLs are;
    an SSE transport is made only when there is neither a command nor an
    [httpUrl]; and an [httpUrl] that is not a valid URL gives no transport
    at all, even when [url] is valid. *)
Theorem createTransport_precedence (name : string) (config : MCPServerConfig) :
  (forall c, present (command config) = Some c ->
     createTransport validURL name config
     = Some (StdioClientTransport c
               (match args config with Some a => a | None => [] end)))
  /\ (forall u, createTransport validURL name config = Some (SSEClientTransport u) ->
        present (command config) = None /\ present (httpUrl config) = None
        /\ present (url config) = Some u /\ validURL u = true)
  /\ (forall h, present (command config) = None -> present (httpUrl config) = Some h ->
        validURL h = false -> createTransport validURL name config = None).
Proof.
  unfold createTransport. split; [|split].
  - intros c ->. reflexivity.
  - intros u. destruct (present (command config)); [discriminate|].
    destruct (present (httpUrl config)) as [h|].
    + destruct (validURL h); discriminate.
    + destruct (present (url config)) as [u'|]; [|discriminate].
      destruct (validURL u') eqn:E; [|discriminate].
      intros [= <-]. auto.
  - intros h -> -> ->. reflexivity.
Qed.

(** X6: every tool [discoverTools] returns carries the name of the server,
    the timeout of the configuration (ten minutes when it gives none) and
    its trust flag, and a parameter schema that [hasValidTypes] accepts
    (the schema of an object without properties when the declaration has
    none); and it returns no more tools than the server declares. *)
Theorem discoverTools_tools (name : string) (config : MCPServerConfig)
    (server : ServerBehaviour) :
  (forall tool, In tool (discoverTools name config server) ->
     tool_serverName tool = name
     /\ tool_timeout tool = match timeout config with
                            | Some t => t
                            | None => 600000%Z
                            end
     /\ tool_trust tool = trust config
     /\ hasValidTypes (tool_parameterSchema tool) = true)
  /\ (List.length (discoverTools name config server)
      <= match toolListing server with
         | FunctionDeclarations declarations => List.length declarations
         | _ => 0
         end)%nat.
Proof.
  unfold discoverTools. destruct (toolListing server) as [| |declarations].
  - split; [intros tool []|reflexivity].
  - split; [intros tool []|reflexivity].
  - split.
    + intros tool Hin. apply in_flat_map in Hin as [funcDecl [_ Hin]].
      unfold isEnabled, declarationHasValidTypes in Hin. cbn [negb] in Hin.
      destruct (parametersJsonSchema funcDecl) as [schema|] eqn:Es.
      * destruct (hasValidTypes schema) eqn:Ev; cbn [negb] in Hin; [|destruct Hin].
        destruct Hin as [<-|[]]. cbn. auto.
      * cbn [negb] in Hin. destruct Hin as [<-|[]]. cbn. repeat split.
    + induction declarations as [|d r IH]; [reflexivity|].
      cbn [flat_map]. rewrite List.length_app. cbn [List.length].
      destruct (negb (isEnabled d name config)); cbn [List.length]; [lia|].
      destruct (negb (declarationHasValidTypes d)); cbn [List.length]; lia.
Qed.

(** X7: [connectAndDiscover] registers tools only when it ends CONNECTED,
    and then exactly the tools [discoverTools] returned, in order; it
    closes the client exactly when the connection was made and neither
    prompts nor tools were returned; the listeners are left as they were. *)
Theorem connectAndDiscover_registers (name : string) (config : MCPServerConfig)
    (server : ServerBehaviour) (st : State) :
  let final := connectAndDiscover' name config server st in
  registeredTools final
  = registeredTools st
    ++ (match status name final with
        | CONNECTED => discoverTools name config server
        | _ => []
        end)
  /\ closedClients final
     = closedClients st
       ++ (match connectToMcpServer validURL name config server, status name final with
           | Some _, DISCONNECTED => [name]
           | _, _ => []
           end)
  /\ statusChangeListeners final = statusChangeListeners st.
Proof.
  assert (C : forall n (s : State),
             registeredTools (clientErrors PromptRegistry name n s) = registeredTools s
             /\ closedClients (clientErrors PromptRegistry name n s) = closedClients s
             /\ statusChangeListeners (clientErrors PromptRegistry name n s)
                = statusChangeListeners s).
  { induction n as [|n IH]; intros s; [auto|].
    cbn [clientErrors]. destruct (IH (update name DISCONNECTED s)) as [-> [-> ->]].
    auto. }
  cbv zeta. unfold connectAndDiscover.
  destruct (connectToMcpServer validURL name config server) as [client|].
  - destruct (discoverPrompts PromptRegistry registerPrompt getAllPrompts name server _)
      as [prompts registry].
    destruct ((List.length prompts =? 0)%nat
              && (List.length (discoverTools name config server) =? 0)%nat).
    + unfold getMCPServerStatus.
      cbn [updateMCPServerStatus closeClient serverStatuses registeredTools closedClients
             statusChangeListeners setPromptRegistry].
      rewrite lookup_insert_eq.
      destruct (C (errorsDuringTools server)
                  (setPromptRegistry PromptRegistry registry
                     (clientErrors PromptRegistry name (errorsDuringPrompts server)
                        (update name CONNECTING st)))) as [-> [-> ->]].
      cbn [setPromptRegistry registeredTools closedClients statusChangeListeners].
      destruct (C (errorsDuringPrompts server) (update name CONNECTING st))
        as [-> [-> ->]].
      cbn. rewrite app_nil_r. auto.
    + unfold getMCPServerStatus.
      cbn [registerTools updateMCPServerStatus serverStatuses registeredTools
             closedClients statusChangeListeners].
      rewrite lookup_insert_eq.
      destruct (C (errorsDuringTools server)
                  (setPromptRegistry PromptRegistry registry
                     (clientErrors PromptRegistry name (errorsDuringPrompts server)
                        (update name CONNECTING st)))) as [-> [-> ->]].
      cbn [setPromptRegistry registeredTools closedClients statusChangeListeners].
      destruct (C (errorsDuringPrompts server) (update name CONNECTING st))
        as [-> [-> ->]].
      cbn. rewrite app_nil_r. auto.
  - unfold getMCPServerStatus. cbn. rewrite lookup_insert_eq, !app_nil_r. auto.
Qed.

End ClientProps.

Section PopulateProps.
Variable parse : string -> list ParseEntry.
Variable validURL : string -> bool.

(** X9: [populateMcpServerCommand] changes no server but the one named
    [mcp]; without a command (absent or empty) it returns the servers as
    they are; with a command whose parse holds an entry that is not a
    word it throws; otherwise the server [mcp] is set (replacing one of
    that name) to the first word as command and the other words as
    arguments, for which [createTransport] makes a stdio transport when
    the first word is not empty. *)
Theorem populateMcpServerCommand_mcp (mcpServers : gmap string MCPServerConfig)
    (mcpServerCommand : option string) :
  match populateMcpServerCommand parse mcpServers mcpServerCommand with
  | Return servers =>
      (forall name, name <> "mcp" -> servers !! name = mcpServers !! name)
      /\ match mcpServerCommand with
         | None | Some "" => servers = mcpServers
         | Some cmd =>
             forallb isWord (parse cmd) = true
             /\ exists config,
                 servers !! "mcp" = Some config
                 /\ args config = Some (map wordOf (tl (parse cmd)))
                 /\ forall first rest,
                      parse cmd = Word first :: rest -> first <> "" ->
                      createTransport validURL "mcp" config
                      = Some (StdioClientTransport first (map wordOf rest))
         end
  | Throw e =>
      exists cmd, mcpServerCommand = Some cmd
                  /\ existsb (fun arg => negb (isWord arg)) (parse cmd) = true
                  /\ e = PlainError ("failed to parse mcpServerCommand: " ++ cmd)
  end.
Proof.
  unfold populateMcpServerCommand.
  destruct mcpServerCommand as [cmd|]; [|split; [reflexivity|reflexivity]].
  destruct (String.eqb_spec cmd "") as [->|Hne]; [split; reflexivity|].
  destruct (existsb (fun arg => negb (isWord arg)) (parse cmd)) eqn:E.
  - exists cmd. auto.
  - split.
    + intros name Hn. apply lookup_insert_ne. congruence.
    + destruct cmd as [|c cmd]; [congruence|]. split.
      * clear -E. induction (parse (String c cmd)) as [|x r IH]; [reflexivity|].
        cbn [existsb forallb] in *. apply orb_false_iff in E as [E1 E2].
        rewrite (IH E2). destruct (isWord x); [reflexivity|discriminate].
      * eexists. split; [apply lookup_insert_eq|]. split; [reflexivity|].
        intros first rest -> Hfirst. unfold createTransport, present.
        cbn [command args wordOf tl].
        destruct (String.eqb_spec first ""); [contradiction|reflexivity].
Qed.

End PopulateProps.

Lemma listeners_called_once_example :
  let st := exInitial [] in
  let st1 := removeMCPStatusChangeListener ListRegistry 1
               (addMCPStatusChangeListener ListRegistry 1 st) in
  map fst (map fst (notifications (updateMCPServerStatus ListRegistry "s" CONNECTED st1)))
  = [2; 1].
Proof. reflexivity. Qed.

End McpProps.

(* ===================================================================== *)
(** * The turn engine: what a run leaves in the turn and in its events *)
(* ===================================================================== *)

Module TurnEngineProps.
Import JS Core TurnEngine.

(** The tool-call requests among the events, in order. *)
Definition requestsOf (evs : list StreamEvent) : list ToolCallRequestInfo :=
  flat_map (fun e => match e with ToolCallRequest q => [q] | _ => [] end) evs.

(** The reason of the last [Finished] event, [init] when there is none. *)
Definition lastFinished (evs : list StreamEvent) (init : option FinishReason)
  : option FinishReason :=
  fold_left (fun acc e => match e with Finished v => Some v | _ => acc end) evs init.

(** The events that end a turn. *)
Definition isTerminalEvent (e : StreamEvent) : bool :=
  isErrorEvent e || isUserCancelled e.

Definition noStar (s : string) : bool :=
  forallb (fun c => negb (Ascii.eqb c star)) (list_ascii_of_string s).

Lemma requestsOf_app a b : requestsOf (a ++ b) = requestsOf a ++ requestsOf b.
Proof. unfold requestsOf. apply flat_map_app. Qed.

Lemma lastFinished_app a b init :
  lastFinished (a ++ b) init = lastFinished b (lastFinished a init).
Proof. unfold lastFinished. apply fold_left_app. Qed.

Lemma splitAtStars_noStar before rest :
  noStar before = true ->
  splitAtStars (before ++ String star (String star rest)) = Some (before, rest).
Proof.
  unfold noStar. induction before as [|c b IH]; intros H.
  - cbn. rewrite ?Ascii.eqb_refl. reflexivity.
  - cbn [list_ascii_of_string forallb] in H. apply andb_prop in H as [Hc Hb].
    apply negb_true_iff in Hc. specialize (IH Hb).
    change (String c b ++ String star (String star rest))%string
      with (String c (b ++ String star (String star rest))).
    destruct (b ++ String star (String star rest))%string as [|d r] eqn:E.
    + destruct b; discriminate.
    + cbn [splitAtStars]. rewrite Hc. cbn [andb].
      cbn [splitAtStars] in IH. rewrite IH. reflexivity.
Qed.

(** A text of the form [before**subject**after], where neither [before]
    nor [subject] holds an asterisk, is matched with [subject] as group. *)
Lemma matchBold_noStar before subject after :
  noStar before = true -> noStar subject = true ->
  matchBold (before ++ String star (String star
               (subject ++ String star (String star after))))
  = Some (before, subject, after).
Proof.
  intros Hb Hs. unfold matchBold.
  rewrite (splitAtStars_noStar before _ Hb), (splitAtStars_noStar subject _ Hs).
  reflexivity.
Qed.

(** A text without an asterisk holds no [**]. *)
Lemma splitAtStars_none s : noStar s = true -> splitAtStars s = None.
Proof.
  unfold noStar. induction s as [|c r IH]; intros H; [reflexivity|].
  cbn [list_ascii_of_string forallb] in H. apply andb_prop in H as [Hc Hr].
  apply negb_true_iff in Hc. specialize (IH Hr).
  destruct r as [|d r']; [reflexivity|].
  cbn [splitAtStars]. rewrite Hc. cbn [andb].
  cbn [splitAtStars] in IH. rewrite IH. reflexivity.
Qed.

(** The summary of a thought with the given text. *)
Definition thoughtSummary (rawText : string) : ThoughtSummary :=
  match matchBold rawText with
  | Some (before, group1, after) =>
      {| subject := trim group1; description := trim (before ++ after) |}
  | None => {| subject := ""; description := trim rawText |}
  end.

Section RunProps.
Variable toFriendlyError : Thrown -> Thrown.
Variable getErrorMessage : Thrown -> string.
Variable getResponseText : GenerateContentResponse -> option string.
Variable curatedHistory : list Content.
Variable maybeIncludeSchemaDepthContext : StructuredError -> StructuredError.
Variable synthesizeCallId : option string -> nat -> string.

Local Abbreviation run' :=
  (run toFriendlyError getErrorMessage getResponseText curatedHistory
     maybeIncludeSchemaDepthContext synthesizeCallId).
Local Abbreviation runLoop' :=
  (runLoop toFriendlyError getErrorMessage getResponseText curatedHistory
     maybeIncludeSchemaDepthContext synthesizeCallId).
Local Abbreviation processResponse' := (processResponse getResponseText synthesizeCallId).

(** What the requests of a turn have in common. *)
Definition requestOf (this : Turn) (q : ToolCallRequestInfo) : Prop :=
  isClientInitiated q = false
  /\ prompt_id q = turn_prompt_id this
  /\ tool_name q <> "".

(** What one step of a run keeps: the prompt id, and the agreement of the
    turn with the events emitted. *)
Definition mirrors (this this' : Turn) (evs : list StreamEvent) : Prop :=
  turn_prompt_id this' = turn_prompt_id this
  /\ pendingToolCalls this' = pendingToolCalls this ++ requestsOf evs
  /\ Forall (requestOf this) (requestsOf evs)
  /\ turnFinishReason this' = lastFinished evs (turnFinishReason this).

Lemma mirrors_refl this : mirrors this this [].
Proof. unfold mirrors. cbn. rewrite app_nil_r. auto. Qed.

Lemma mirrors_trans a b c u v :
  mirrors a b u -> mirrors b c v -> mirrors a c (u ++ v).
Proof.
  intros [P1 [Q1 [F1 R1]]] [P2 [Q2 [F2 R2]]]. unfold mirrors.
  rewrite requestsOf_app, lastFinished_app, P2, P1, Q2, Q1, R2, R1, app_assoc.
  repeat split. apply List.Forall_app. split; [exact F1|].
  eapply List.Forall_impl; [|exact F2]. unfold requestOf. rewrite P1. auto.
Qed.

Lemma handlePendingFunctionCall_mirrors this fnCall :
  mirrors this (fst (handlePendingFunctionCall synthesizeCallId this fnCall))
    [snd (handlePendingFunctionCall synthesizeCallId this fnCall)].
Proof.
  unfold mirrors, handlePendingFunctionCall, requestOf. cbn. repeat split.
  constructor; [|constructor]. cbn. repeat split.
  destruct (name fnCall) as [n|]; [|discriminate].
  destruct (String.eqb_spec n ""); [discriminate|assumption].
Qed.

Lemma handleFunctionCalls_mirrors calls : forall this,
  mirrors this (fst (handleFunctionCalls synthesizeCallId this calls))
    (snd (handleFunctionCalls synthesizeCallId this calls)).
Proof.
  induction calls as [|c r IH]; intros this; [apply mirrors_refl|].
  cbn [handleFunctionCalls].
  pose proof (handlePendingFunctionCall_mirrors this c) as H.
  destruct (handlePendingFunctionCall synthesizeCallId this c) as [this1 ev].
  specialize (IH this1).
  destruct (handleFunctionCalls synthesizeCallId this1 r) as [this2 more].
  cbn [fst snd] in *. exact (mirrors_trans _ _ _ [ev] more H IH).
Qed.

Lemma handleFunctionCalls_requests calls : forall this,
  forallb (fun e => negb (isTerminalEvent e))
    (snd (handleFunctionCalls synthesizeCallId this calls)) = true
  /\ debugResponses (fst (handleFunctionCalls synthesizeCallId this calls))
     = debugResponses this.
Proof.
  induction calls as [|c r IH]; intros this; [split; reflexivity|].
  cbn [handleFunctionCalls].
  destruct (handlePendingFunctionCall synthesizeCallId this c) as [this1 ev] eqn:E.
  specialize (IH this1).
  destruct (handleFunctionCalls synthesizeCallId this1 r) as [this2 more].
  unfold handlePendingFunctionCall in E. injection E as <- <-.
  cbn [fst snd forallb] in *. exact IH.
Qed.

Lemma processResponse_mirrors this resp :
  mirrors this (fst (processResponse' this resp)) (snd (processResponse' this resp))
  /\ forallb (fun e => negb (isTerminalEvent e)) (snd (processResponse' this resp)) = true
  /\ debugResponses (fst (processResponse' this resp)) = debugResponses this ++ [resp].
Proof.
  unfold processResponse.
  destruct (match firstPart resp with
            | Some thoughtPart => match thought thoughtPart with Some b => b | None => false end
            | None => false
            end).
  - cbn [fst snd]. split; [|split; reflexivity].
    unfold mirrors. cbn. rewrite app_nil_r. auto.
  - set (this0 := {| pendingToolCalls := pendingToolCalls this;
                     debugResponses := debugResponses this ++ [resp];
                     turnFinishReason := turnFinishReason this;
                     turn_prompt_id := turn_prompt_id this |}).
    set (contentEvents := match getResponseText resp with
                          | Some text => if text =? "" then [] else [Content_ text]
                          | None => []
                          end).
    assert (C : requestsOf contentEvents = []
                /\ (forall i, lastFinished contentEvents i = i)
                /\ forallb (fun e => negb (isTerminalEvent e)) contentEvents = true).
    { subst contentEvents. destruct (getResponseText resp) as [t|]; [|auto].
      destruct (t =? ""); auto. }
    destruct C as [Cq [Cf Ct]].
    assert (M0 : mirrors this this0 contentEvents).
    { unfold mirrors. rewrite Cq, Cf. cbn. rewrite app_nil_r. auto. }
    pose proof (handleFunctionCalls_mirrors
                  (match functionCalls resp with Some l => l | None => [] end) this0) as M1.
    pose proof (handleFunctionCalls_requests
                  (match functionCalls resp with Some l => l | None => [] end) this0)
      as [T1 D1].
    destruct (handleFunctionCalls synthesizeCallId this0
                (match functionCalls resp with Some l => l | None => [] end))
      as [this1 callEvents].
    cbn [fst snd] in *.
    pose proof (mirrors_trans _ _ _ _ _ M0 M1) as M.
    destruct (firstCandidate resp) as [[ps [fr|]]|]; cbn [fst snd].
    + split; [|split].
      * rewrite app_assoc.
        apply (mirrors_trans this this1 _ (contentEvents ++ callEvents) [Finished fr] M).
        unfold mirrors. cbn. rewrite app_nil_r. auto.
      * rewrite !forallb_app, Ct, T1. reflexivity.
      * exact D1.
    + split; [exact M|]. split; [|exact D1]. rewrite forallb_app, Ct, T1. reflexivity.
    + split; [exact M|]. split; [|exact D1]. rewrite forallb_app, Ct, T1. reflexivity.
Qed.

(** The responses of the items. *)
Definition responses (items : list StreamItem) : list GenerateContentResponse :=
  map resp items.

(** The items received before the cancellation signal is seen aborted. *)
Fixpoint received (items : list StreamItem) : list StreamItem :=
  match items with
  | [] => []
  | item :: rest => if abortedAtArrival item then [] else item :: received rest
  end.

(** X10: whatever the stream does, the turn a run leaves agrees with the
    events it emitted: its pending tool calls are those it had followed by
    the requests of the [ToolCallRequest] events, in order; every such
    request is marked as not client-initiated, carries the prompt id of
    the turn and a tool name that is not empty; its finish reason is that
    of the last [Finished] event (what it was when there is none); and its
    debug responses are extended by exactly the responses received before
    the cancellation signal was seen aborted. *)
Theorem run_turn_mirrors_events (this : Turn) (req : PartListUnion)
    (stream : ResponseStream) :
  let r := run' this req stream in
  pendingToolCalls (finalTurn r) = pendingToolCalls this ++ requestsOf (events r)
  /\ Forall (requestOf this) (requestsOf (events r))
  /\ turnFinishReason (finalTurn r) = lastFinished (events r) (turnFinishReason this)
  /\ debugResponses (finalTurn r)
     = debugResponses this ++ responses (received (items stream)).
Proof.
  cbv zeta. unfold run. destruct stream as [items ending]. cbn [TurnEngine.items TurnEngine.ending].
  assert (G : forall this,
             mirrors this (finalTurn (runLoop' this req items ending))
               (events (runLoop' this req items ending))
             /\ debugResponses (finalTurn (runLoop' this req items ending))
                = debugResponses this ++ responses (received items)).
  { clear this. induction items as [|item rest IH]; intros this.
    - cbn [runLoop received responses map]. rewrite app_nil_r.
      destruct ending as [|e aborted]; cbn [finalTurn events].
      + split; [apply mirrors_refl|reflexivity].
      + unfold catchBlock.
        destruct (isUnauthorizedError (toFriendlyError e)); [|destruct aborted];
          cbn [finalTurn events]; (split; [|reflexivity]);
          unfold mirrors; cbn; rewrite app_nil_r; auto.
    - cbn [runLoop received]. destruct (abortedAtArrival item).
      + cbn [finalTurn events responses map]. rewrite app_nil_r.
        split; [|reflexivity]. unfold mirrors. cbn. rewrite app_nil_r. auto.
      + pose proof (processResponse_mirrors this (resp item)) as [M [_ D]].
        destruct (processResponse' this (resp item)) as [this1 emitted].
        cbn [fst snd] in *. destruct (IH this1) as [M1 D1].
        cbn [finalTurn events responses map]. split.
        * exact (mirrors_trans _ _ _ _ _ M M1).
        * rewrite D1, D, <- app_assoc. reflexivity. }
  destruct (G this) as [[_ [Q [F R]]] D]. auto.
Qed.

(** X11: the events of a run hold at most one [UserCancelled] or [Error]
    event, and it is the last one: a run emits nothing after it has
    reported a cancellation or an error.  A run that re-raises emits
    neither. *)
Theorem run_terminal_event_last (this : Turn) (req : PartListUnion)
    (stream : ResponseStream) :
  let r := run' this req stream in
  exists body tail,
    events r = body ++ tail
    /\ forallb (fun e => negb (isTerminalEvent e)) body = true
    /\ match completion r with
       | Returned => tail = [] \/ tail = [UserCancelled] \/ exists e, tail = [Error_ e]
       | Rethrown _ => tail = []
       end.
Proof.
  cbv zeta. unfold run. destruct stream as [items ending].
  cbn [TurnEngine.items TurnEngine.ending].
  revert this. induction items as [|item rest IH]; intros this.
  - cbn [runLoop]. destruct ending as [|e aborted].
    + exists [], []. cbn. auto.
    + unfold catchBlock. destruct (isUnauthorizedError (toFriendlyError e)).
      * exists [], []. cbn. auto.
      * destruct aborted.
        -- exists [], [UserCancelled]. cbn. auto.
        -- exists [], [Error_ (maybeIncludeSchemaDepthContext
                                 {| message := getErrorMessage (toFriendlyError e);
                                    status := match thrownStatus (toFriendlyError e) with
                                              | Some (JNum n) => Some n
                                              | _ => None
                                              end |})].
           cbn. repeat split. right. right. eexists. reflexivity.
  - cbn [runLoop]. destruct (abortedAtArrival item).
    + exists [], [UserCancelled]. cbn. auto.
    + pose proof (processResponse_mirrors this (resp item)) as [_ [T _]].
      destruct (processResponse' this (resp item)) as [this1 emitted].
      cbn [snd] in T. destruct (IH this1) as [body [tail [E [B C]]]].
      exists (emitted ++ body), tail. cbn [events completion].
      rewrite E, app_assoc, forallb_app, T, B. auto.
Qed.

(** X12: when a response arrives while the cancellation signal is aborted,
    the run emits [UserCancelled] after the events of the responses
    received before it, and returns: that response and those after it are
    not processed (no event, no pending tool call, no debug response),
    and how the stream would have ended does not matter. *)
Theorem run_cancelled_on_arrival (this : Turn) (req : PartListUnion)
    (before after : list StreamItem) (item : StreamItem) (ending : StreamEnd) :
  forallb (fun i => negb (abortedAtArrival i)) before = true ->
  abortedAtArrival item = true ->
  let r := run' this req {| items := before ++ item :: after; ending := ending |} in
  let n := run' this req {| items := before; ending := StreamDone |} in
  events r = events n ++ [UserCancelled]
  /\ completion r = Returned
  /\ finalTurn r = finalTurn n
  /\ reports r = [].
Proof.
  intros Hb Hi. cbv zeta. unfold run. cbn [TurnEngine.items TurnEngine.ending].
  revert this. induction before as [|b rest IH]; intros this.
  - cbn [app runLoop]. rewrite Hi. cbn. auto.
  - cbn [forallb] in Hb. apply andb_prop in Hb as [Hb1 Hb2].
    apply negb_true_iff in Hb1.
    change ((b :: rest) ++ item :: after) with (b :: (rest ++ item :: after)).
    cbn [runLoop]. rewrite Hb1.
    destruct (processResponse' this (resp b)) as [this1 emitted].
    destruct (IH Hb2 this1) as [E [C [F R]]].
    cbn [events completion finalTurn reports]. rewrite E, app_assoc. auto.
Qed.

(** X13: every response whose first part is a thought yields exactly one
    [Thought] event and nothing else, whatever its text: its function
    calls and its finish reason are not looked at, so the turn keeps its
    pending tool calls and its finish reason, and only records the
    response.  The event carries the summary of the text of that part
    (the empty text when it has none): for a text
    [before**subject**after], in which neither [before] nor [subject]
    holds an asterisk, the subject is [subject] trimmed and the
    description is [before] followed by [after], trimmed; for a text
    without an asterisk, and for a text with a single [**], the subject is
    empty and the description is the whole text, trimmed. *)
Theorem processResponse_thought (this : Turn) (resp : GenerateContentResponse)
    (thoughtPart : Part) :
  firstPart resp = Some thoughtPart ->
  thought thoughtPart = Some true ->
  let rawText := match text thoughtPart with Some t => t | None => "" end in
  processResponse' this resp
  = ({| pendingToolCalls := pendingToolCalls this;
        debugResponses := debugResponses this ++ [resp];
        turnFinishReason := turnFinishReason this;
        turn_prompt_id := turn_prompt_id this |},
     [Thought (thoughtSummary rawText)])
  /\ (forall before subject after,
        rawText = (before ++ String star (String star
                     (subject ++ String star (String star after))))%string ->
        noStar before = true ->
        noStar subject = true ->
        thoughtSummary rawText
        = {| Core.subject := trim subject; description := trim (before ++ after) |})
  /\ (noStar rawText = true ->
        thoughtSummary rawText = {| Core.subject := ""; description := trim rawText |})
  /\ (forall before rest,
        rawText = (before ++ String star (String star rest))%string ->
        noStar before = true ->
        noStar rest = true ->
        thoughtSummary rawText = {| Core.subject := ""; description := trim rawText |}).
Proof.
  intros Hp Ht. cbv zeta. split; [|split; [|split]].
  - unfold processResponse, thoughtSummary. rewrite Hp, Ht.
    destruct (matchBold (match text thoughtPart with Some t => t | None => "" end))
      as [[[before group1] after]|]; reflexivity.
  - intros before subject after -> Hb Hs. unfold thoughtSummary.
    rewrite (matchBold_noStar before subject after Hb Hs). reflexivity.
  - intros Hn. unfold thoughtSummary, matchBold.
    rewrite (splitAtStars_none _ Hn). reflexivity.
  - intros before rest -> Hb Hr. unfold thoughtSummary, matchBold.
    rewrite (splitAtStars_noStar before rest Hb), (splitAtStars_none _ Hr). reflexivity.
Qed.

End RunProps.

(** A thought with a function call and a finish reason. *)
Definition exThought : GenerateContentResponse :=
  {| candidates :=
       Some [{| content_parts :=
                  Some [{| text := Some " **Reading files** I will open a.ts. ";
                           thought := Some true; functionCall := None;
                           functionResponse := None |}];
                finishReason := Some STOP |}];
     functionCalls := Some [{| id := Some "c1"; name := Some "read_file";
                               args := None |}] |}.

(** A thought without a subject in bold. *)
Definition exPlainThought : GenerateContentResponse :=
  {| candidates :=
       Some [{| content_parts :=
                  Some [{| text := Some " Looking at the files. ";
                           thought := Some true; functionCall := None;
                           functionResponse := None |}];
                finishReason := None |}];
     functionCalls := None |}.

Lemma processResponse_thought_witness :
  snd (processResponse exResponseText exCallId exTurn exThought)
  = [Thought {| subject := "Reading files"; description := "I will open a.ts." |}]
  /\ snd (processResponse exResponseText exCallId exTurn exPlainThought)
     = [Thought {| subject := ""; description := "Looking at the files." |}].
Proof.
  split.
  - destruct (processResponse_thought exResponseText exCallId exTurn exThought
                {| text := Some " **Reading files** I will open a.ts. ";
                   thought := Some true; functionCall := None;
                   functionResponse := None |} eq_refl eq_refl) as [E [B _]].
    cbv zeta in E, B. rewrite E. cbn [snd].
    rewrite (B " " "Reading files" " I will open a.ts. " eq_refl eq_refl eq_refl).
    reflexivity.
  - destruct (processResponse_thought exResponseText exCallId exTurn exPlainThought
                {| text := Some " Looking at the files. ";
                   thought := Some true; functionCall := None;
                   functionResponse := None |} eq_refl eq_refl) as [E [_ [N _]]].
    cbv zeta in E, N. rewrite E. cbn [snd]. rewrite (N eq_refl). reflexivity.
Defined.

Lemma run_cancelled_on_arrival_witness :
  events (run (fun e => e) detail exResponseText [] (fun s => s) exCallId exTurn
            (PLOne (PUString "hi"))
            {| items := [{| abortedAtArrival := false; resp := exHello |};
                         {| abortedAtArrival := true; resp := exThought |};
                         {| abortedAtArrival := false; resp := exHello |}];
               ending := StreamThrows exQuota false |})
  = [Content_ "Hello"; UserCancelled].
Proof.
  exact (proj1 (run_cancelled_on_arrival (fun e => e) detail exResponseText []
                  (fun s => s) exCallId exTurn (PLOne (PUString "hi"))
                  [{| abortedAtArrival := false; resp := exHello |}]
                  [{| abortedAtArrival := false; resp := exHello |}]
                  {| abortedAtArrival := true; resp := exThought |}
                  (StreamThrows exQuota false) eq_refl eq_refl)).
Defined.

End TurnEngineProps.

(* ===================================================================== *)
(** * The OpenRouter client: requests, conversion, chunks *)
(* ===================================================================== *)

Module OpenRouterProps.
Import JS OpenRouter OpenRouterRequest.
Import OpenRouterFacts.

(** The function calls among the parts, in order. *)
Definition functionCallsIn (ps : list Part) : list FunctionCall :=
  flat_map (fun p => match p with
                     | FunctionCallPart fc => [fc]
                     | TextPart _ => []
                     end) ps.

(** The texts among the parts, in order. *)
Definition textsIn (ps : list Part) : list Json :=
  flat_map (fun p => match p with
                     | FunctionCallPart _ => []
                     | TextPart t => [t]
                     end) ps.

(** [data.choices?.[0]?.delta?.content] *)
Definition deltaContent (data : Json) : option Json :=
  optProp (optProp (optIndex0 (prop data "choices")) "delta") "content".

Lemma functionCallsIn_calls calls :
  functionCallsIn (map FunctionCallPart calls) = calls
  /\ textsIn (map FunctionCallPart calls) = [].
Proof.
  induction calls as [|c r [IH1 IH2]]; [split; reflexivity|].
  cbn. unfold functionCallsIn, textsIn in *. rewrite IH1, IH2. split; reflexivity.
Qed.

Lemma functionCallsIn_app a b :
  functionCallsIn (a ++ b) = functionCallsIn a ++ functionCallsIn b.
Proof. unfold functionCallsIn. apply flat_map_app. Qed.

Lemma textsIn_app a b : textsIn (a ++ b) = textsIn a ++ textsIn b.
Proof. unfold textsIn. apply flat_map_app. Qed.

Section ClientProps.
Variable JSON_parse : Json -> option Json.
Variable toNumberPositive : Json -> bool.

Local Abbreviation convert := (convertFromOpenRouterFormat JSON_parse toNumberPositive).

(** X14: in both modes, a converted response has exactly one candidate,
    of role [model]; its [functionCalls] member lists exactly the function
    calls of the candidate's parts, in order; and every text part of the
    candidate holds the response's [text], of which there is at most
    one, after the function calls. *)
Theorem convertFromOpenRouterFormat_consistent (data : Json) (isStreaming : bool) :
  match convert data isStreaming with
  | Return (Some r) =>
      exists c,
        candidates r = [c]
        /\ role c = "model"
        /\ functionCallsIn (parts c) = functionCalls r
        /\ parts c = map FunctionCallPart (functionCalls r)
                     ++ map TextPart (textsIn (parts c))
        /\ (textsIn (parts c) = [] \/ textsIn (parts c) = [responseText r])
  | _ => True
  end.
Proof.
  unfold convertFromOpenRouterFormat. destruct isStreaming.
  - destruct (getProp data "choices") as [choices|e]; [|exact I]. cbn [bindOutcome].
    set (delta := optProp (optIndex0 choices) "delta").
    destruct (truthy' (optProp delta "tool_calls")).
    + destruct (optProp delta "tool_calls") as [[| | | |tc|]|]; try exact I.
      destruct (mapOutcome (convertToolCall JSON_parse) tc) as [calls|e]; [|exact I].
      cbn [bindOutcome]. eexists. split; [reflexivity|].
      cbn [role parts functionCalls responseText].
      destruct (functionCallsIn_calls calls) as [-> ->].
      cbn [map]. rewrite app_nil_r. auto.
    + destruct (truthy' (optProp delta "content")); [|exact I].
      eexists. split; [reflexivity|]. cbn. auto.
  - destruct (getProp data "choices") as [choices|e]; [|exact I]. cbn [bindOutcome].
    set (message := optProp (optIndex0 choices) "message").
    set (content := orElse (optProp message "content") (JStr "")).
    destruct (match optProp message "tool_calls" with
              | Some tool_calls =>
                  if truthy tool_calls && lengthPositive toNumberPositive tool_calls
                  then forOfToolCalls JSON_parse tool_calls
                  else Return []
              | None => Return []
              end) as [calls|e]; [|exact I].
    cbn [bindOutcome]. eexists. split; [reflexivity|].
    cbn [role parts functionCalls responseText].
    destruct (functionCallsIn_calls calls) as [Hc Ht].
    destruct (truthy content).
    + assert (E : match map FunctionCallPart calls ++ [TextPart content] with
                  | [] => [TextPart content]
                  | _ :: _ => map FunctionCallPart calls ++ [TextPart content]
                  end = map FunctionCallPart calls ++ [TextPart content])
        by (destruct calls; reflexivity).
      rewrite E, functionCallsIn_app, textsIn_app, Hc, Ht. cbn. rewrite app_nil_r. auto.
    + destruct calls as [|c0 r0].
      * cbn. auto.
      * change (match map FunctionCallPart (c0 :: r0) with
                | [] => [TextPart content]
                | _ :: _ => map FunctionCallPart (c0 :: r0)
                end) with (map FunctionCallPart (c0 :: r0)).
        rewrite Hc, Ht. cbn [map]. rewrite app_nil_r. auto.
Qed.

(** A streaming chunk whose delta has no truthy [tool_calls] yields a
    response exactly when the delta's [content] is truthy, and the response
    then holds one candidate with the content as its only part, the
    content as [text], and no function call; a chunk with neither yields
    nothing (the conversion returns null), whatever else it carries (a
    finish reason, usage). *)
Theorem convertFromOpenRouterFormat_streaming_text (data : Json) :
  data <> JNull ->
  truthy' (deltaToolCalls data) = false ->
  convert data true
  = Return
      (match deltaContent data with
       | Some content =>
           if truthy content then
             Some {| candidates :=
                       [{| parts := [TextPart content];
                           role := "model";
                           finishReason :=
                             orUndefined
                               (optProp (optIndex0 (prop data "choices"))
                                  "finish_reason") |}];
                     usageMetadata := None;
                     responseText := content;
                     functionCalls := [] |}
           else None
       | None => None
       end).
Proof.
  intros Hn Ht. unfold convertFromOpenRouterFormat, deltaToolCalls, deltaContent in *.
  assert (G : getProp data "choices" = Return (prop data "choices"))
    by (destruct data; [congruence|reflexivity..]).
  rewrite G. cbn [bindOutcome]. rewrite Ht.
  destruct (optProp (optProp (optIndex0 (prop data "choices")) "delta") "content")
    as [content|]; [|reflexivity].
  cbn [truthy' orElse]. destruct (truthy content); reflexivity.
Qed.

Local Abbreviation generateContent' := (generateContent JSON_parse toNumberPositive).

(** X15: [generateContent] never fails with "Failed to convert OpenRouter
    response": it throws only for a response that is not ok, a body that
    is not JSON, or an exception of the conversion; and a response it
    returns has one candidate with at least one part, a finish reason
    ([STOP] when the choice gives none) and usage metadata. *)
Theorem generateContent_result (response : FetchResponse) (data : option Json) :
  match generateContent' response data with
  | Return r =>
      ok response = true
      /\ exists c usage,
           candidates r = [c] /\ parts c <> []
           /\ (exists reason, finishReason c = Some reason /\ truthy reason = true)
           /\ usageMetadata r = Some usage
  | Throw e => e <> PlainError "Failed to convert OpenRouter response"
  end.
Proof.
  unfold generateContent. destruct (ok response); cbn [negb]; [|discriminate].
  destruct data as [data|]; [|discriminate].
  unfold convertFromOpenRouterFormat.
  destruct (getProp data "choices") as [choices|e] eqn:G.
  - cbn [bindOutcome].
    set (message := optProp (optIndex0 choices) "message").
    set (content := orElse (optProp message "content") (JStr "")).
    destruct (match optProp message "tool_calls" with
              | Some tool_calls =>
                  if truthy tool_calls && lengthPositive toNumberPositive tool_calls
                  then forOfToolCalls JSON_parse tool_calls
                  else Return []
              | None => Return []
              end) as [calls|e] eqn:C.
    + cbn [bindOutcome]. split; [reflexivity|]. eexists. eexists.
      split; [reflexivity|]. cbn [parts finishReason usageMetadata].
      split; [|split; [|reflexivity]].
      * destruct (truthy content); destruct calls; discriminate.
      * eexists. split; [reflexivity|]. unfold orElse.
        destruct (optProp (optIndex0 choices) "finish_reason") as [fr|]; [|reflexivity].
        destruct (truthy fr) eqn:E; [exact E|reflexivity].
    + cbn [bindOutcome].
      clear -C. destruct (optProp message "tool_calls") as [tc|]; [|discriminate].
      destruct (truthy tc && lengthPositive toNumberPositive tc); [|discriminate].
      unfold forOfToolCalls in C.
      assert (M : forall l, mapOutcome (convertToolCall JSON_parse) l = Throw e ->
                            e <> PlainError "Failed to convert OpenRouter response").
      { induction l as [|x r IH]; [discriminate|]. cbn [mapOutcome].
        unfold convertToolCall at 1.
        destruct (getProp x "function") as [f|e1] eqn:Gx; cbn [bindOutcome].
        - destruct (JSON_parse _); cbn [bindOutcome].
          + destruct (mapOutcome (convertToolCall JSON_parse) r) as [ys|e2];
              cbn [bindOutcome]; [discriminate|].
            intros [= ->]. apply IH. reflexivity.
          + intros [= <-]. discriminate.
        - intros [= <-]. destruct x; try discriminate. injection Gx as <-. discriminate. }
      destruct tc; try (injection C as <-; discriminate); eapply M; exact C.
  - cbn [bindOutcome]. destruct data; try discriminate. injection G as <-. discriminate.
Qed.

(** X16: the generator's output depends on the text of the body only, not
    on how the body is cut into chunks: two bodies with the same text
    yield the same responses.  And the text that follows the last newline
    character is never processed: a body whose text is that of another
    followed by text without a newline (a last line that is not
    terminated) yields what the other yields. *)
Theorem createStreamGenerator_unterminated (status : Z) (statusText : string)
    (errorData : option Json) (chunks chunks' : list string) (tail : string) :
  let generate body :=
    createStreamGenerator JSON_parse toNumberPositive
      {| ok := true; status := status; statusText := statusText;
         errorData := errorData; body := Some body |} in
  (joinChunks chunks' = joinChunks chunks -> generate chunks' = generate chunks)
  /\ (noNewline tail = true ->
      joinChunks chunks' = (joinChunks chunks ++ tail)%string ->
      generate chunks' = generate chunks).
Proof.
  cbv zeta.
  assert (G : forall t, noNewline t = true ->
                joinChunks chunks' = (joinChunks chunks ++ t)%string ->
                createStreamGenerator JSON_parse toNumberPositive
                  {| ok := true; status := status; statusText := statusText;
                     errorData := errorData; body := Some chunks' |}
                = createStreamGenerator JSON_parse toNumberPositive
                    {| ok := true; status := status; statusText := statusText;
                       errorData := errorData; body := Some chunks |}).
  { intros t Ht Hj. unfold createStreamGenerator. cbn [ok negb body].
    rewrite !(readLoop_frames JSON_parse toNumberPositive _ "" eq_refl).
    assert (E0 : forall s, ("" ++ s)%string = s) by reflexivity.
    rewrite !E0.
    assert (N : forall a b, noNewline a = true -> noNewline b = true ->
                            noNewline (a ++ b)%string = true).
    { induction a as [|x r IH]; intros b Ha Hb; [exact Hb|].
      rewrite append_cons. cbn [noNewline] in *. apply andb_prop in Ha as [-> Hr].
      rewrite (IH b Hr Hb). reflexivity. }
    rewrite Hj, completeLines_app.
    unfold completeLines at 2.
    rewrite (splitLines_noNewline _
               (N _ _ (last_splitLines_noNewline (joinChunks chunks)) Ht)).
    cbn [List.removelast]. rewrite app_nil_r. reflexivity. }
  split.
  - intros Hj. apply (G "" eq_refl). rewrite append_empty_r. exact Hj.
  - exact (G tail).
Qed.

End ClientProps.

(** ** The request *)




(** The number of function declarations of the tools. *)
Definition declarationCount (tools : option (list Tool)) : nat :=
  match tools with
  | Some tools =>
      list_sum (map (fun tool => match functionDeclarations tool with
                                 | Some declarations => List.length declarations
                                 | None => 0
                                 end) tools)
  | None => 0
  end.

(** The names of the function declarations of the tools, in order. *)
Definition declarationNames (tools : option (list Tool)) : list (option string) :=
  match tools with
  | Some tools =>
      flat_map (fun tool => match functionDeclarations tool with
                            | Some declarations => map fd_name declarations
                            | None => []
                            end) tools
  | None => []
  end.

(** X18: the request carries one tool for every function declaration of
    the request's tools, in order and under the same name, each with a
    description (empty when the declaration has none) and parameters that
    are truthy (the empty object when the declaration has none); and the
    [tools] member of the body is set exactly when there is at least one
    function declaration. *)
Theorem requestBody_tools (model : string) (request : GenerateContentParameters)
    (stream : bool) :
  let converted := convertToolsToOpenRouterFormat (tools request) in
  map fn_name converted = declarationNames (tools request)
  /\ List.length converted = declarationCount (tools request)
  /\ (forall tool, In tool converted -> truthy (fn_parameters tool) = true)
  /\ body_tools (requestBody model request stream)
     = (if (declarationCount (tools request) =? 0)%nat then None else Some converted)
  /\ body_messages (requestBody model request stream) = convertToOpenRouterFormat request
  /\ body_stream (requestBody model request stream) = stream.
Proof.
  cbv zeta.
  assert (A : convertToolsToOpenRouterFormat (tools request)
              = flat_map
                  (fun tool =>
                     match functionDeclarations tool with
                     | Some declarations =>
                         map (fun funcDecl =>
                                {| fn_name := fd_name funcDecl;
                                   fn_description :=
                                     match fd_description funcDecl with
                                     | Some d => d
                                     | None => ""
                                     end;
                                   fn_parameters :=
                                     match fd_parameters funcDecl with
                                     | Some p => if truthy p then p else JObj []
                                     | None => JObj []
                                     end |})
                           declarations
                     | None => []
                     end)
                  (match tools request with Some l => l | None => [] end)).
  { unfold convertToolsToOpenRouterFormat. destruct (tools request) as [[|t r]|]; reflexivity. }
  assert (N : map fn_name (convertToolsToOpenRouterFormat (tools request))
              = declarationNames (tools request)).
  { rewrite A. clear A. unfold declarationNames.
    destruct (tools request) as [l|]; [|reflexivity].
    induction l as [|t r IH]; [reflexivity|].
    cbn [flat_map]. rewrite map_app, IH.
    destruct (functionDeclarations t) as [ds|]; [|reflexivity].
    rewrite List.map_map. reflexivity. }
  assert (L : List.length (convertToolsToOpenRouterFormat (tools request))
              = declarationCount (tools request)).
  { rewrite A. clear A N. unfold declarationCount.
    destruct (tools request) as [l|]; [|reflexivity].
    induction l as [|t r IH]; [reflexivity|].
    cbn [flat_map map list_sum]. rewrite List.length_app, IH.
    destruct (functionDeclarations t) as [ds|]; [|reflexivity].
    rewrite List.length_map. reflexivity. }
  split; [exact N|]. split; [exact L|]. split; [|split; [|split; reflexivity]].
  - rewrite A. intros tool Hin. apply in_flat_map in Hin as [t [_ Hin]].
    destruct (functionDeclarations t) as [ds|]; [|destruct Hin].
    apply in_map_iff in Hin as [d [<- _]]. cbn [fn_parameters].
    destruct (fd_parameters d) as [p|]; [|reflexivity].
    destruct (truthy p) eqn:E; [exact E|reflexivity].
  - unfold requestBody. cbn [body_tools]. rewrite <- L.
    destruct (convertToolsToOpenRouterFormat (tools request)); reflexivity.
Qed.

(** ** Examples *)

Example convertToOpenRouterFormat_chat :
  convertToOpenRouterFormat exChatRequest
  = [{| msg_role := "system"; msg_content := "Be brief." |};
     {| msg_role := "user"; msg_content := "Say hello." |};
     {| msg_role := "assistant";
        msg_content := String.append "Hello" (String newline "world") |}].
Proof. reflexivity. Qed.

(** A history that holds only a function call and its response is sent as
    the message [Hello]. *)
Example convertToOpenRouterFormat_tool_only :
  convertToOpenRouterFormat exToolOnlyRequest
  = [{| msg_role := "user"; msg_content := "Hello" |}].
Proof. reflexivity. Qed.

Lemma convertFromOpenRouterFormat_streaming_text_witness :
  convertFromOpenRouterFormat exParse exToNumberPositive exDeltaHello true
  = Return
      (Some {| candidates := [{| parts := [TextPart (JStr "Hello")]; role := "model";
                                 finishReason := None |}];
               usageMetadata := None;
               responseText := JStr "Hello";
               functionCalls := [] |}).
Proof.
  refine (convertFromOpenRouterFormat_streaming_text exParse exToNumberPositive
            exDeltaHello _ eq_refl).
  discriminate.
Defined.

Lemma createStreamGenerator_unterminated_witness :
  map (fun r => flat_map parts (candidates r))
    (fst (createStreamGenerator exParse exToNumberPositive
            {| ok := true; status := 200; statusText := "OK"; errorData := None;
               body := Some ["da"; ("ta: " ++ exDeltaHelloText)%string;
                             String newline "data: {"] |}))
  = [[TextPart (JStr "Hello")]]
  /\ createStreamGenerator exParse exToNumberPositive
       {| ok := true; status := 200; statusText := "OK"; errorData := None;
          body := Some ["data: "; (exDeltaHelloText ++ String newline "")%string] |}
     = createStreamGenerator exParse exToNumberPositive
         {| ok := true; status := 200; statusText := "OK"; errorData := None;
            body := Some [("data: " ++ exDeltaHelloText ++ String newline "")%string] |}.
Proof.
  split.
  - rewrite (proj2 (createStreamGenerator_unterminated exParse exToNumberPositive 200 "OK"
                      None [("data: " ++ exDeltaHelloText ++ String newline "")%string]
                      ["da"; ("ta: " ++ exDeltaHelloText)%string; String newline "data: {"]
                      "data: {") eq_refl eq_refl).
    vm_compute. reflexivity.
  - exact (proj1 (createStreamGenerator_unterminated exParse exToNumberPositive 200 "OK"
                    None [("data: " ++ exDeltaHelloText ++ String newline "")%string]
                    ["data: "; (exDeltaHelloText ++ String newline "")%string] "")
             eq_refl).
Defined.

End OpenRouterProps.

(* ===================================================================== *)
(** * The content generator: which key and which model are used *)
(* ===================================================================== *)

Module ContentGeneratorProps.
Import ContentGenerator.

(** X19: the configuration always names a model: the configured one, or,
    when none is configured, the OpenRouter default for OpenRouter and the
    default model otherwise.  It carries an API key only when the auth
    type is one that uses a key and the environment variable of that very
    provider is set and not empty, and the key is then the value of that
    variable: never the key of another provider.  [vertexai] is true only
    for Vertex AI. *)
Theorem createContentGeneratorConfig_key (env : ProcessEnv) (config : Config)
    (authType : option AuthType) :
  let c := createContentGeneratorConfig env config authType in
  model c <> ""
  /\ model c = (if getModel config =? ""
                then if isAuthType authType USE_OPENROUTER
                     then OPENROUTER_DEFAULT_MODEL else DEFAULT_casualresearch_MODEL
                else getModel config)
  /\ ContentGenerator.authType c = authType
  /\ proxy c = getProxy config
  /\ match apiKey c with
     | Some key =>
         key <> ""
         /\ ((authType = Some USE_casualresearch /\ casualresearch_API_KEY env = Some key)
             \/ (authType = Some USE_OPENROUTER /\ OPENROUTER_API_KEY env = Some key)
             \/ (authType = Some USE_VERTEX_AI /\ GOOGLE_API_KEY env = Some key))
     | None => True
     end
  /\ (vertexai c = Some true -> authType = Some USE_VERTEX_AI).
Proof.
  assert (U : forall v key, orUndefined v = Some key -> v = Some key /\ key <> "").
  { intros [s|] key; [|discriminate]. unfold orUndefined.
    destruct (String.eqb_spec s ""); [discriminate|]. intros [= <-]. auto. }
  cbv zeta. unfold createContentGeneratorConfig.
  assert (M : (if isAuthType authType USE_OPENROUTER
               then if getModel config =? "" then OPENROUTER_DEFAULT_MODEL
                    else getModel config
               else if getModel config =? "" then DEFAULT_casualresearch_MODEL
                    else getModel config) <> "").
  { destruct (isAuthType authType USE_OPENROUTER);
      destruct (String.eqb_spec (getModel config) ""); try assumption; discriminate. }
  assert (E : (if isAuthType authType USE_OPENROUTER
               then if getModel config =? "" then OPENROUTER_DEFAULT_MODEL
                    else getModel config
               else if getModel config =? "" then DEFAULT_casualresearch_MODEL
                    else getModel config)
              = (if getModel config =? ""
                 then if isAuthType authType USE_OPENROUTER
                      then OPENROUTER_DEFAULT_MODEL else DEFAULT_casualresearch_MODEL
                 else getModel config)).
  { destruct (isAuthType authType USE_OPENROUTER), (getModel config =? ""); reflexivity. }
  destruct authType as [[]|]; cbn [isAuthType authTypeEqb orb andb] in *;
    try (cbn; repeat split; try assumption; try discriminate; fail).
  - destruct (orUndefined (casualresearch_API_KEY env)) as [key|] eqn:K;
      cbn [model apiKey vertexai ContentGenerator.authType proxy];
      repeat split; try assumption; try discriminate.
    + apply (U _ _ K).
    + left. split; [reflexivity|]. apply (U _ _ K).
  - destruct (orUndefined (GOOGLE_API_KEY env)) as [key|] eqn:K.
    + cbn [model apiKey vertexai ContentGenerator.authType proxy].
      repeat split; try assumption.
      * apply (U _ _ K).
      * right. right. split; [reflexivity|]. apply (U _ _ K).
    + destruct (orUndefined (GOOGLE_CLOUD_PROJECT env)),
        (orUndefined (GOOGLE_CLOUD_LOCATION env));
        cbn [model apiKey vertexai ContentGenerator.authType proxy];
        repeat split; try assumption; try discriminate.
  - destruct (orUndefined (OPENROUTER_API_KEY env)) as [key|] eqn:K;
      cbn [model apiKey vertexai ContentGenerator.authType proxy];
      repeat split; try assumption; try discriminate.
    + apply (U _ _ K).
    + right. left. split; [reflexivity|]. apply (U _ _ K).
Qed.

Section CreateProps.
Variable CodeAssist : Type.
Variable createCodeAssistContentGenerator : AuthType -> Outcome CodeAssist.

Local Abbreviation create :=
  (createContentGenerator CodeAssist createCodeAssistContentGenerator).

(** X20: for OpenRouter, the generator made from the configuration of
    [createContentGeneratorConfig] is an OpenRouter client, wrapped for
    logging, that holds the value of [OPENROUTER_API_KEY] and the
    configured model ([anthropic/claude-3.5-sonnet] when none is
    configured); when that variable is not set, or empty, the creation
    throws "OpenRouter API key is required", whatever other keys the
    environment holds.  Without an auth type the creation throws. *)
Theorem createContentGenerator_openrouter (env : ProcessEnv) (config : Config) :
  create (createContentGeneratorConfig env config (Some USE_OPENROUTER))
  = match orUndefined (OPENROUTER_API_KEY env) with
    | Some key =>
        Return (LoggingContentGenerator
                  (OpenRouterClient key
                     (if getModel config =? "" then "anthropic/claude-3.5-sonnet"
                      else getModel config)))
    | None => Throw (PlainError "OpenRouter API key is required")
    end
  /\ create (createContentGeneratorConfig env config None)
     = Throw (PlainError
                "Error creating contentGenerator: Unsupported authType: undefined").
Proof.
  unfold createContentGenerator, createContentGeneratorConfig.
  cbn [isAuthType authTypeEqb orb andb]. split.
  - destruct (orUndefined (OPENROUTER_API_KEY env)) as [key|] eqn:K.
    + cbn [authType apiKey model]. unfold orUndefined in *.
      destruct (OPENROUTER_API_KEY env) as [s|]; [|discriminate].
      destruct (s =? "") eqn:E; [discriminate|]. injection K as <-. rewrite E.
      reflexivity.
    + reflexivity.
  - reflexivity.
Qed.

End CreateProps.

Example createContentGenerator_default_model :
  createContentGenerator unit (fun _ => Return tt)
    (createContentGeneratorConfig exEnv exConfig (Some USE_OPENROUTER))
  = Return (LoggingContentGenerator
              (OpenRouterClient "or-key" "anthropic/claude-3.5-sonnet")).
Proof. reflexivity. Qed.

End ContentGeneratorProps.

(* ===================================================================== *)
(** * The stream orchestrator: state, cancellation, text, checkpoints *)
(* ===================================================================== *)

Module OrchestratorProps.
Import JS Core Orchestrator.
Import OrchestratorFacts.

(** A call that no longer keeps the orchestrator busy: it is terminal and
    its response was submitted. *)
Definition settled (tc : TrackedToolCall) : bool :=
  isTerminalState (status tc) && responseSubmittedTocasualresearch tc.

Definition awaitsApproval (tc : TrackedToolCall) : bool :=
  match status tc with awaiting_approval => true | _ => false end.

(** X21: the streaming state is WaitingForConfirmation exactly when some
    tool call awaits approval (whether or not a response is being
    streamed); it is Idle exactly when no response is being streamed and
    every tool call is terminal with its response submitted; it is
    Responding in every other case. *)
Theorem streamingState_cases (st : State) :
  (streamingState st = WaitingForConfirmation
   <-> existsb awaitsApproval (toolCalls st) = true)
  /\ (streamingState st = Idle
      <-> isResponding st = false /\ forallb settled (toolCalls st) = true)
  /\ (streamingState st = Responding
      <-> existsb awaitsApproval (toolCalls st) = false
          /\ (isResponding st = true \/ forallb settled (toolCalls st) = false)).
Proof.
  unfold streamingState. fold awaitsApproval.
  set (busyCall := fun tc : TrackedToolCall =>
                     match status tc with
                     | executing | scheduled | validating => true
                     | success | error | cancelled =>
                         negb (responseSubmittedTocasualresearch tc)
                     | awaiting_approval => false
                     end).
  assert (S : existsb awaitsApproval (toolCalls st) = false ->
              existsb busyCall (toolCalls st) = negb (forallb settled (toolCalls st))).
  { assert (P : forall tc, awaitsApproval tc = false -> busyCall tc = negb (settled tc)).
    { intros tc. unfold awaitsApproval, settled. subst busyCall. cbv beta.
      destruct (status tc), (responseSubmittedTocasualresearch tc);
        intros H; try discriminate; reflexivity. }
    induction (toolCalls st) as [|tc r IH]; [reflexivity|].
    cbn [existsb forallb]. intros H. apply orb_false_iff in H as [Ha Hr].
    rewrite (IH Hr), (P tc Ha), negb_andb. reflexivity. }
  assert (W : existsb awaitsApproval (toolCalls st) = true ->
              forallb settled (toolCalls st) = false).
  { clear S. induction (toolCalls st) as [|tc r IH]; [discriminate|].
    cbn [existsb forallb]. intros H. apply orb_true_iff in H as [Ha|Hr].
    - unfold awaitsApproval in Ha. unfold settled at 1.
      destruct (status tc); try discriminate. reflexivity.
    - rewrite (IH Hr). apply andb_false_r. }
  destruct (existsb awaitsApproval (toolCalls st)) eqn:Ea.
  - specialize (W eq_refl). intuition congruence.
  - rewrite (S eq_refl).
    destruct (isResponding st), (forallb settled (toolCalls st)); cbn [orb negb];
      intuition congruence.
Qed.

(** X22: the Escape key acts only while the streaming state is Responding
    and the turn is not cancelled yet.  It then marks the turn cancelled,
    aborts the request, moves the pending item to the history followed by
    the item "Request cancelled.", calls [onCancelSubmit] once and ends
    the response.  A second press changes nothing: pressing Escape is
    idempotent. *)
Theorem escapeKey_idempotent (t1 t2 : Z) (st : State) :
  escapeKey t2 (escapeKey t1 st) = escapeKey t1 st
  /\ (streamingState st <> Responding \/ turnCancelledRef st = true ->
      escapeKey t1 st = st)
  /\ (streamingState st = Responding -> turnCancelledRef st = false ->
      let st' := escapeKey t1 st in
      turnCancelledRef st' = true
      /\ isResponding st' = false
      /\ pendingHistoryItemRef st' = None
      /\ abortControllerRef st'
         = match abortControllerRef st with
           | Some _ => Some {| aborted := true |}
           | None => None
           end
      /\ history st'
         = history st
           ++ match pendingHistoryItemRef st with
              | Some pending => [(pending, t1)]
              | None => []
              end
           ++ [(InfoItem RequestCancelled, t1)]
      /\ effects st' = effects st ++ [OnCancelSubmit]
      /\ toolCalls st' = toolCalls st).
Proof.
  assert (N : forall t s, streamingState s <> Responding \/ turnCancelledRef s = true ->
                          escapeKey t s = s).
  { intros t s. unfold escapeKey. intros [H|H].
    - destruct (streamingState s); congruence.
    - rewrite H. destruct (streamingState s); reflexivity. }
  assert (A : streamingState st = Responding -> turnCancelledRef st = false ->
              let st' := escapeKey t1 st in
              turnCancelledRef st' = true
              /\ isResponding st' = false
              /\ pendingHistoryItemRef st' = None
              /\ abortControllerRef st'
                 = match abortControllerRef st with
                   | Some _ => Some {| aborted := true |}
                   | None => None
                   end
              /\ history st'
                 = history st
                   ++ match pendingHistoryItemRef st with
                      | Some pending => [(pending, t1)]
                      | None => []
                      end
                   ++ [(InfoItem RequestCancelled, t1)]
              /\ effects st' = effects st ++ [OnCancelSubmit]
              /\ toolCalls st' = toolCalls st).
  { intros Es Ec. cbv zeta. unfold escapeKey. rewrite Es, Ec.
    destruct (abortControllerRef st) eqn:Ea, (pendingHistoryItemRef st) eqn:Ep;
      repeat (progress (cbn; rewrite ?Ea, ?Ep)); rewrite <- ?app_assoc; repeat split. }
  split; [|split; [apply N|exact A]].
  destruct (streamingState st) eqn:Es;
    try (rewrite (N t1 st) by (left; congruence); apply N; left; congruence).
  destruct (turnCancelledRef st) eqn:Ec.
  - rewrite (N t1 st) by (right; exact Ec). apply N. right. exact Ec.
  - apply N. right. exact (proj1 (A eq_refl eq_refl)).
Qed.

Section HookProps.
Variable findLastSafeSplitPoint : string -> nat.

Local Abbreviation handleContentEvent' := (handleContentEvent findLastSafeSplitPoint).
Local Abbreviation processEvents' := (processEvents findLastSafeSplitPoint).
Local Abbreviation acceptedSubmission' := (acceptedSubmission findLastSafeSplitPoint).
Local Abbreviation submitQuery' := (submitQuery findLastSafeSplitPoint).

(** Text and cancellation events. *)
Definition isContentOrCancel (e : StreamEvent) : bool :=
  match e with
  | Content_ _ | UserCancelled => true
  | _ => false
  end.

(** X23: once the turn is marked cancelled (the Escape key), the text and
    the cancellation events that still arrive from the stream are dropped:
    they change nothing, neither the history nor the pending item. *)
Theorem processEvents_cancelled (events : list StreamEvent) (env : SubmitEnv)
    (buffer : string) (requests : list ToolCallRequestInfo) (st : State) :
  turnCancelledRef st = true ->
  forallb isContentOrCancel events = true ->
  processEvents' events env buffer requests st = (st, requests).
Proof.
  intros Hc. revert buffer. induction events as [|e rest IH]; intros buffer He;
    [reflexivity|].
  cbn [forallb] in He. apply andb_prop in He as [H1 H2].
  destruct e; try discriminate; cbn [processEvents].
  - unfold handleContentEvent. rewrite Hc. apply IH. exact H2.
  - unfold handleUserCancelledEvent. rewrite Hc. apply IH. exact H2.
Qed.

(** X24: a submission of a text that is empty once trimmed ends in its
    first part, before a prompt is started: it adds no item to the
    history, sends nothing to the backend, calls no other collaborator,
    schedules no tool and leaves [isResponding] as it was.  It is not
    without effect, though: unless the guard stops it (a call that is not
    a continuation, through a callback that holds Responding or
    WaitingForConfirmation), the resets that precede the test have been
    made: the turn is marked as not cancelled, the abort controller is
    replaced by a fresh one, and, for a submission that is not a
    continuation, both quota flags are cleared. *)
Theorem submitQuery_blank (rendered : StreamingState) (s : string)
    (options : option bool) (prompt_id : option string) (env : SubmitEnv) (st : State) :
  trim s = "" ->
  let st' := submitQuery' rendered (PLOne (PUString s)) options prompt_id env st in
  snd (beginSubmission rendered (PLOne (PUString s)) options prompt_id env st) = None
  /\ (history st' = history st
      /\ effects st' = effects st
      /\ promptCount st' = promptCount st
      /\ toolCalls st' = toolCalls st
      /\ clientHistory st' = clientHistory st
      /\ isResponding st' = isResponding st
      /\ pendingHistoryItemRef st' = pendingHistoryItemRef st
      /\ thought st' = thought st
      /\ processedMemoryToolsRef st' = processedMemoryToolsRef st
      /\ loopDetectedRef st' = loopDetectedRef st)
  /\ match rendered, isContinuation options with
     | Responding, false | WaitingForConfirmation, false => st' = st
     | _, continuation =>
         turnCancelledRef st' = false
         /\ abortControllerRef st' = Some {| aborted := false |}
         /\ modelSwitchedFromQuotaError st'
            = (if continuation then modelSwitchedFromQuotaError st else false)
         /\ quotaErrorOccurred st'
            = (if continuation then quotaErrorOccurred st else false)
     end.
Proof.
  intros Ht. cbv zeta.
  assert (E : acceptedSubmission' (PLOne (PUString s)) options prompt_id env st
              = resetForSubmission options st).
  { unfold acceptedSubmission, prepareSubmission, prepareQueryForcasualresearch,
      resetForSubmission.
    cbn [turnCancelledRef set_turnCancelledRef asString]. rewrite Ht. reflexivity. }
  assert (B : snd (prepareSubmission (PLOne (PUString s)) options prompt_id env st)
              = (effectivePromptId prompt_id env (resetForSubmission options st), None)).
  { unfold prepareSubmission, prepareQueryForcasualresearch, resetForSubmission.
    cbn [turnCancelledRef set_turnCancelledRef asString]. rewrite Ht. reflexivity. }
  split; [|rewrite submitQuery_unfold, E; split].
  - unfold beginSubmission.
    destruct (prepareSubmission (PLOne (PUString s)) options prompt_id env st)
      as [st1 [id sent]].
    cbn [snd] in B. injection B as _ ->.
    destruct rendered, (isContinuation options); reflexivity.
  - unfold resetForSubmission.
    destruct (busy rendered && negb (isContinuation options)),
      (isContinuation options); cbn; repeat split.
  - unfold resetForSubmission.
    destruct rendered, (isContinuation options); cbn; repeat split.
Qed.

End HookProps.

Lemma processEvents_cancelled_witness :
  processEvents exSplitPoint [Content_ "late text"; UserCancelled] (exEnv []) "" []
    (set_turnCancelledRef true initialState)
  = (set_turnCancelledRef true initialState, []).
Proof.
  exact (processEvents_cancelled exSplitPoint [Content_ "late text"; UserCancelled]
           (exEnv []) "" [] (set_turnCancelledRef true initialState) eq_refl eq_refl).
Defined.

Lemma submitQuery_blank_witness :
  history (submitQuery exSplitPoint Idle (PLOne (PUString "   ")) None None (exEnv [])
             (set_turnCancelledRef true initialState)) = []
  /\ effects (submitQuery exSplitPoint Idle (PLOne (PUString "   ")) None None (exEnv [])
                (set_turnCancelledRef true initialState)) = []
  /\ turnCancelledRef
       (submitQuery exSplitPoint Idle (PLOne (PUString "   ")) None None (exEnv [])
          (set_turnCancelledRef true initialState)) = false
  /\ abortControllerRef
       (submitQuery exSplitPoint Idle (PLOne (PUString "   ")) None None (exEnv [])
          (set_turnCancelledRef true initialState)) = Some {| aborted := false |}.
Proof.
  pose proof (submitQuery_blank exSplitPoint Idle "   " None None (exEnv [])
                (set_turnCancelledRef true initialState) eq_refl) as H.
  cbv zeta in H. destruct H as [_ [[Hh [He _]] H]].
  cbn [isContinuation] in H. destruct H as [Hc [Ha _]].
  split; [exact Hh|]. split; [exact He|]. split; [exact Hc|exact Ha].
Defined.

End OrchestratorProps.

(* ===================================================================== *)
(** * The stream orchestrator: the text shown, the calls made *)
(* ===================================================================== *)

Module OrchestratorText.
Import JS Core Orchestrator.
Import OrchestratorFacts.

(** The text of an item that shows a part of the model's answer. *)
Definition itemText (item : HistoryItemWithoutId) : string :=
  match item with
  | ModelItem t | ModelContentItem t => t
  | _ => ""
  end.

(** The model's answer as the history shows it: the texts of its model
    items, in order. *)
Fixpoint modelText (h : list (HistoryItemWithoutId * Z)) : string :=
  match h with
  | [] => ""
  | (item, _) :: rest => (itemText item ++ modelText rest)%string
  end.

(** The texts of the [Content] events, in order. *)
Definition streamedText (values : list string) : string :=
  fold_right String.append "" values.

(** The pending item holds the message buffer. *)
Definition holdsBuffer (st : State) (buffer : string) : Prop :=
  match pendingHistoryItemRef st with
  | Some (ModelItem t) | Some (ModelContentItem t) => t = buffer
  | Some _ => False
  | None => buffer = ""
  end.

Lemma append_nil_l s : ("" ++ s)%string = s.
Proof. reflexivity. Qed.

Lemma append_nil_r s : (s ++ "")%string = s.
Proof. apply OpenRouterFacts.append_empty_r. Qed.

Lemma append_assoc a b c : ((a ++ b) ++ c)%string = (a ++ (b ++ c))%string.
Proof. apply OpenRouterFacts.append_assoc_r. Qed.

Lemma modelText_app a b : modelText (a ++ b) = (modelText a ++ modelText b)%string.
Proof.
  induction a as [|[item ts] r IH]; [reflexivity|].
  cbn [app modelText]. rewrite IH, append_assoc. reflexivity.
Qed.

Lemma substringTo_slice n : forall s, (substringTo n s ++ slice n s)%string = s.
Proof.
  induction n as [|n IH]; intros s; [destruct s; reflexivity|].
  destruct s as [|c r]; [reflexivity|]. cbn [substringTo slice].
  change (String c (substringTo n r) ++ slice n r)%string
    with (String c (substringTo n r ++ slice n r)).
  rewrite IH. reflexivity.
Qed.

Section TextProps.
Variable findLastSafeSplitPoint : string -> nat.

Local Abbreviation handleContentEvent' := (handleContentEvent findLastSafeSplitPoint).
Local Abbreviation processEvents' := (processEvents findLastSafeSplitPoint).
Local Abbreviation acceptedSubmission' := (acceptedSubmission findLastSafeSplitPoint).

Local Abbreviation submitQuery' := (submitQuery findLastSafeSplitPoint).

(** A submission through a callback that holds Idle, or made as a
    continuation, passes the guard of [submitQuery]. *)
Lemma submitQuery_accepted rendered query options prompt_id env st :
  rendered = Idle \/ isContinuation options = true ->
  submitQuery' rendered query options prompt_id env st
  = acceptedSubmission' query options prompt_id env st.
Proof.
  intros H. rewrite submitQuery_unfold.
  destruct H as [H|H]; rewrite H; [|rewrite andb_false_r]; reflexivity.
Qed.

(** One [Content] event: the text shown by the history, followed by the
    buffer, grows by the text of the event, wherever the buffer is split. *)
Lemma handleContentEvent_text value buffer ts st :
  turnCancelledRef st = false ->
  holdsBuffer st buffer ->
  let st' := fst (handleContentEvent' value buffer ts st) in
  let buffer' := snd (handleContentEvent' value buffer ts st) in
  turnCancelledRef st' = false
  /\ holdsBuffer st' buffer'
  /\ (modelText (history st') ++ buffer')%string
     = (modelText (history st) ++ buffer ++ value)%string
  /\ loopDetectedRef st' = loopDetectedRef st.
Proof.
  intros Hc Hb. cbv zeta. unfold handleContentEvent. rewrite Hc.
  unfold holdsBuffer in Hb.
  destruct (pendingHistoryItemRef st) as [[u|t|t|g|i|e|p]|] eqn:Ep; try contradiction;
    subst; cbn [fst snd pendingHistoryItemRef set_pendingHistoryItemRef];
    match goal with
    | |- context [if (?a =? ?b)%nat then _ else _] => destruct (a =? b)%nat
    end;
    cbn [fst snd]; unfold holdsBuffer;
    cbn [pendingHistoryItemRef set_pendingHistoryItemRef addItem set_history history
           turnCancelledRef loopDetectedRef];
    rewrite ?Ep; cbn iota;
    rewrite ?modelText_app; cbn [modelText itemText];
    rewrite ?append_nil_l, ?append_nil_r, ?append_assoc, ?substringTo_slice;
    repeat split; try assumption; reflexivity.
Qed.

Lemma processEvents_text values env : forall buffer requests st,
  turnCancelledRef st = false ->
  holdsBuffer st buffer ->
  let r := processEvents' (map Content_ values) env buffer requests st in
  exists buffer',
    holdsBuffer (fst r) buffer'
    /\ (modelText (history (fst r)) ++ buffer')%string
       = (modelText (history st) ++ buffer ++ streamedText values)%string
    /\ snd r = requests
    /\ loopDetectedRef (fst r) = loopDetectedRef st.
Proof.
  induction values as [|v rest IH]; intros buffer requests st Hc Hb; cbv zeta.
  - exists buffer. cbn. rewrite append_nil_r. auto.
  - cbn [map processEvents].
    pose proof (handleContentEvent_text v buffer (now env) st Hc Hb) as H.
    cbv zeta in H.
    destruct (handleContentEvent' v buffer (now env) st) as [st1 buffer1].
    cbn [fst snd] in H. destruct H as [Hc1 [Hb1 [Ht1 Hl1]]].
    destruct (IH buffer1 requests st1 Hc1 Hb1) as [b' [Hb' [Ht' [Hr' Hl']]]].
    exists b'. split; [exact Hb'|]. split; [|split; [exact Hr'|congruence]].
    rewrite Ht'. cbn [streamedText fold_right].
    rewrite <- !append_assoc, Ht1, !append_assoc. reflexivity.
Qed.

(** X25: for a submission that passes the guard (its callback holds the
    Idle state, or it is a continuation) and is sent as it is (a list of
    parts), made when no item is pending, whose stream yields text only
    and ends normally: once the submission returns, the history shows
    exactly the text that was streamed, in order and without loss, after
    what it showed before, however the text was cut into events and
    wherever the message was split into items; and no item is left
    pending. *)
Theorem submitQuery_text (rendered : StreamingState) (query : PartListUnion)
    (options : option bool) (prompt_id : option string) (env : SubmitEnv) (st : State)
    (values : list string) :
  rendered = Idle \/ isContinuation options = true ->
  asString query = None ->
  pendingHistoryItemRef st = None ->
  streamEvents env = map Content_ values ->
  streamError env = None ->
  let st' := submitQuery' rendered query options prompt_id env st in
  modelText (history st') = (modelText (history st) ++ streamedText values)%string
  /\ pendingHistoryItemRef st' = None.
Proof.
  intros Hg Hq Hp He Hx. cbv zeta. rewrite (submitQuery_accepted _ _ _ _ _ _ Hg).
  unfold acceptedSubmission, prepareSubmission, completeSubmission,
    prepareQueryForcasualresearch.
  cbn [turnCancelledRef set_turnCancelledRef]. rewrite Hq.
  unfold processcasualresearchStreamEvents. rewrite He, Hx.
  match goal with
  | |- context [processEvents findLastSafeSplitPoint (map Content_ values) env "" [] ?s] =>
      set (st4 := s)
  end.
  assert (H4 : turnCancelledRef st4 = false /\ pendingHistoryItemRef st4 = None
               /\ modelText (history st4) = modelText (history st)).
  { subst st4.
    destruct (isContinuation options), (logSystemPrompt env), (systemPrompt env) as [t|];
      cbn; try destruct (t =? ""); cbn; rewrite ?Hp, ?modelText_app; cbn;
      rewrite ?append_nil_r; auto. }
  destruct H4 as [Hc4 [Hp4 Ht4]].
  assert (Hb4 : holdsBuffer st4 "") by (unfold holdsBuffer; rewrite Hp4; reflexivity).
  destruct (processEvents_text values env "" [] st4 Hc4 Hb4) as [b [Hb [Ht [Hr _]]]].
  destruct (processEvents findLastSafeSplitPoint (map Content_ values) env "" [] st4)
    as [st5 requests].
  cbn [fst snd] in *. subst requests. rewrite Ht4, append_nil_l in Ht.
  unfold holdsBuffer in Hb.
  destruct (pendingHistoryItemRef st5) as [[u|t|t|g|i|e|p]|] eqn:Ep; try contradiction;
    subst;
    destruct (loopDetectedRef
                (set_pendingHistoryItemRef None _)) eqn:El ||
    destruct (loopDetectedRef st5) eqn:El;
    cbn; rewrite ?modelText_app; cbn; rewrite ?append_nil_r;
    try rewrite Ht; rewrite ?append_nil_r in *; auto.
Qed.

(** X26: a submission that passes the guard (its callback holds the Idle
    state, or it is a continuation) and is sent as it is (a list of parts)
    calls the backend exactly once, with that query and the prompt id of
    the submission; it signals an authentication error (once) exactly when
    the stream fails with an [UnauthorizedError]; it makes no other call
    to the backend, to the authentication, cancellation, memory or debug
    callbacks, or to the file system; and whatever the stream does, the
    submission leaves [isResponding] false and a fresh abort controller
    that is not aborted. *)
Theorem submitQuery_effects (rendered : StreamingState) (query : PartListUnion)
    (options : option bool) (prompt_id : option string) (env : SubmitEnv) (st : State) :
  rendered = Idle \/ isContinuation options = true ->
  asString query = None ->
  let st' := submitQuery' rendered query options prompt_id env st in
  effects st'
  = effects st
    ++ [SendMessageStream query (effectivePromptId prompt_id env st)]
    ++ match streamError env with
       | Some e => if isUnauthorizedError e then [OnAuthError] else []
       | None => []
       end
  /\ isResponding st' = false
  /\ abortControllerRef st' = Some {| aborted := false |}.
Proof.
  intros Hg Hq. cbv zeta. rewrite (submitQuery_accepted _ _ _ _ _ _ Hg).
  unfold acceptedSubmission, prepareSubmission, completeSubmission,
    prepareQueryForcasualresearch.
  cbn [turnCancelledRef set_turnCancelledRef]. rewrite Hq.
  match goal with
  | |- context [processcasualresearchStreamEvents findLastSafeSplitPoint env ?s] =>
      set (st4 := s)
  end.
  assert (H4 : effects st4
               = effects st ++ [SendMessageStream query (effectivePromptId prompt_id env st)]
               /\ abortControllerRef st4 = Some {| aborted := false |}).
  { subst st4. unfold effectivePromptId, getPromptCount.
    destruct (isContinuation options), (logSystemPrompt env), (systemPrompt env) as [t|];
      cbn; try destruct (t =? ""); cbn; auto. }
  destruct H4 as [He4 Ha4].
  assert (A : forall events buffer requests s,
             abortControllerRef
               (fst (processEvents findLastSafeSplitPoint events env buffer requests s))
             = abortControllerRef s).
  { induction events as [|ev rest IH]; intros buffer requests s; [reflexivity|].
    destruct ev; cbn [processEvents]; rewrite ?IH; try reflexivity.
    - unfold handleContentEvent.
      destruct (turnCancelledRef s); [apply IH|].
      split_cases; cbn [fst snd]; rewrite IH; reflexivity.
    - unfold handleUserCancelledEvent. split_cases; reflexivity.
    - unfold handleErrorEvent. split_cases; reflexivity.
    - unfold handleFinishedEvent. split_cases; reflexivity. }
  pose proof (processStream_frame findLastSafeSplitPoint env st4) as S.
  assert (A5 : abortControllerRef
                 (fst (processcasualresearchStreamEvents findLastSafeSplitPoint env st4))
               = abortControllerRef st4).
  { unfold processcasualresearchStreamEvents.
    pose proof (A (streamEvents env) "" [] st4) as A'.
    destruct (processEvents findLastSafeSplitPoint (streamEvents env) env "" [] st4)
      as [s5 rq]. cbn [fst] in A'.
    destruct (streamError env); cbn [fst]; [exact A'|].
    destruct rq; [exact A'|]. exact A'. }
  unfold processcasualresearchStreamEvents in *.
  destruct (processEvents findLastSafeSplitPoint (streamEvents env) env "" [] st4)
    as [st5 requests].
  destruct (streamError env) as [e|]; cbn [fst] in *.
  - destruct S as [_ [_ [Se _]]].
    destruct (isUnauthorizedError e); [|destruct (isAbortError e)];
      cbn; rewrite Se, He4, A5, Ha4, <- ?app_assoc, ?app_nil_r; auto.
  - destruct S as [_ [_ [Se _]]].
    assert (Se' : effects st5 = effects st4).
    { destruct requests; exact Se. }
    assert (A5' : abortControllerRef st5 = abortControllerRef st4).
    { destruct requests; exact A5. }
    destruct requests;
      destruct (pendingHistoryItemRef _) eqn:Ep;
      destruct (loopDetectedRef _) eqn:El;
      cbn; rewrite ?Se', ?He4, ?A5', ?Ha4, ?app_nil_r; auto.
Qed.

End TextProps.

(** A split point after the last newline character of the text (none when
    the text holds no newline). *)
Fixpoint exLastNewline (s : string) : nat :=
  match s with
  | EmptyString => 0
  | String c r =>
      if existsb (Ascii.eqb newline) (list_ascii_of_string r) then S (exLastNewline r)
      else if Ascii.eqb c newline then 1 else String.length s
  end.

Definition exTextEnv (values : list string) : SubmitEnv := exEnv (map Content_ values).

Lemma submitQuery_text_witness :
  modelText
    (history
       (submitQuery exLastNewline Responding (PLMany [PUPart exResponsePart]) (Some true)
          (Some "p") (exTextEnv ["Hel"; String.append "lo" (String newline "wor"); "ld"])
          initialState))
  = String.append "Hello" (String newline "world").
Proof.
  exact (proj1 (submitQuery_text exLastNewline Responding
                  (PLMany [PUPart exResponsePart]) (Some true) (Some "p")
                  (exTextEnv ["Hel"; String.append "lo" (String newline "wor"); "ld"])
                  initialState
                  ["Hel"; String.append "lo" (String newline "wor"); "ld"]
                  (or_intror eq_refl) eq_refl eq_refl eq_refl eq_refl)).
Defined.

Lemma submitQuery_effects_witness :
  effects (submitQuery exSplitPoint Idle (PLMany [PUPart exResponsePart]) None
             (Some "p") (exEnv []) initialState)
  = [SendMessageStream (PLMany [PUPart exResponsePart]) "p"].
Proof.
  exact (proj1 (submitQuery_effects exSplitPoint Idle (PLMany [PUPart exResponsePart])
                  None (Some "p") (exEnv []) initialState
                  (or_introl eq_refl) eq_refl)).
Defined.

(** With the split point after the last newline, the answer is shown as
    two items. *)
Example submitQuery_split_items :
  map fst
    (history
       (submitQuery exLastNewline Responding (PLMany [PUPart exResponsePart]) (Some true)
          (Some "p") (exTextEnv ["Hel"; String.append "lo" (String newline "wor"); "ld"])
          initialState))
  = [ModelItem (String.append "Hello" (String newline "")); ModelContentItem "world"].
Proof. vm_compute. reflexivity. Qed.

End OrchestratorText.

(* ===================================================================== *)
(** * The stream orchestrator: completed tools, memory, checkpoints *)
(* ===================================================================== *)

Module OrchestratorTools.
Import JS Core Orchestrator.
Import OrchestratorFacts.

(** The number of memory refreshes among the calls made. *)
Definition memoryRefreshes (st : State) : nat :=
  List.length (List.filter (fun e => match e with
                                     | PerformMemoryRefresh => true
                                     | _ => false
                                     end) (effects st)).

(** A completed call that saved to memory. *)
Definition savedMemory (t : TrackedToolCall) : bool :=
  (tool_name (request t) =? "save_memory")
  && match status t with success => true | _ => false end.

Lemma fold_union_elem (l : list TrackedToolCall) : forall (s : gset string) x,
  x ∈ fold_left (fun s t => s ∪ {[ callId (request t) ]}) l s
  <-> x ∈ s \/ In x (map (fun t => callId (request t)) l).
Proof.
  induction l as [|t r IH]; intros s x; cbn [fold_left map In].
  - tauto.
  - rewrite IH. rewrite elem_of_union, elem_of_singleton.
    intuition congruence.
Qed.

Lemma filter_nil {A} (f : A -> bool) (l : list A) :
  (forall x, In x l -> f x = false) -> List.filter f l = [].
Proof.
  induction l as [|x r IH]; intros H; [reflexivity|].
  cbn [List.filter]. rewrite (H x (or_introl eq_refl)).
  apply IH. intros y Hy. apply H. right. exact Hy.
Qed.

Lemma filter_all {A} (f : A -> bool) (l : list A) :
  List.filter (fun x => negb (f x)) l = [] -> List.filter f l = l.
Proof.
  induction l as [|x r IH]; [reflexivity|].
  cbn [List.filter]. destruct (f x); cbn [negb]; [|discriminate].
  intros H. rewrite (IH H). reflexivity.
Qed.

(** X27: the completion callback refreshes the memory at most once per
    batch, and only for a successful [save_memory] call it has not seen
    before: after it, every such call of the batch is recorded as
    processed, so that handling the same batch again refreshes nothing
    and makes no call to a collaborator. *)
Theorem finalizeClientAndMemoryTools_once (completed : list TrackedToolCall)
    (st : State) :
  let st1 := finalizeClientAndMemoryTools completed st in
  (effects st1 = effects st \/ effects st1 = effects st ++ [PerformMemoryRefresh])
  /\ (effects st1 = effects st ++ [PerformMemoryRefresh]
      <-> exists t, In t (completedAndReadyToSubmitTools completed)
                    /\ savedMemory t = true
                    /\ callId (request t) ∉ processedMemoryToolsRef st)
  /\ (forall t, In t (completedAndReadyToSubmitTools completed) ->
                savedMemory t = true ->
                callId (request t) ∈ processedMemoryToolsRef st1)
  /\ effects (finalizeClientAndMemoryTools completed st1) = effects st1.
Proof.
  cbv zeta.
  set (ready := completedAndReadyToSubmitTools completed).
  set (news := fun s : State =>
                 List.filter
                   (fun t => (tool_name (request t) =? "save_memory")
                             && match status t with success => true | _ => false end
                             && negb (bool_decide
                                        (callId (request t) ∈ processedMemoryToolsRef s)))
                   ready).
  set (marked := fun s : State =>
                   match List.filter (fun t => isClientInitiated (request t)) ready with
                   | [] => s
                   | _ :: _ =>
                       markToolsAsSubmitted
                         (map (fun t => callId (request t))
                            (List.filter (fun t => isClientInitiated (request t)) ready))
                         s
                   end).
  assert (M : forall s, effects (marked s) = effects s
                        /\ processedMemoryToolsRef (marked s) = processedMemoryToolsRef s).
  { intros s. subst marked. cbv beta.
    destruct (List.filter (fun t => isClientInitiated (request t)) ready); auto. }
  assert (F : forall s,
             finalizeClientAndMemoryTools completed s
             = match news (marked s) with
               | [] => marked s
               | _ :: _ =>
                   set_processedMemoryToolsRef
                     (fold_left (fun p t => p ∪ {[ callId (request t) ]}) (news (marked s))
                        (processedMemoryToolsRef (effect PerformMemoryRefresh (marked s))))
                     (effect PerformMemoryRefresh (marked s))
               end) by reflexivity.
  assert (N : forall s t, In t (news s)
                          <-> In t ready /\ savedMemory t = true
                              /\ callId (request t) ∉ processedMemoryToolsRef s).
  { intros s t. subst news. cbv beta. rewrite List.filter_In. unfold savedMemory.
    rewrite andb_true_iff, negb_true_iff, bool_decide_eq_false. tauto. }
  assert (P : forall t, In t ready -> savedMemory t = true ->
                        callId (request t)
                          ∈ processedMemoryToolsRef (finalizeClientAndMemoryTools completed st)).
  { intros t Hin Hs. rewrite F.
    destruct (decide (callId (request t) ∈ processedMemoryToolsRef (marked st)))
      as [Hp|Hp].
    - destruct (news (marked st)); [exact Hp|].
      cbn [processedMemoryToolsRef set_processedMemoryToolsRef effect set_effects].
      apply fold_union_elem. left. exact Hp.
    - assert (Hn : In t (news (marked st))) by (apply N; auto).
      destruct (news (marked st)) as [|t0 r] eqn:En; [destruct Hn|].
      cbn [processedMemoryToolsRef set_processedMemoryToolsRef effect set_effects].
      apply fold_union_elem. right.
      exact (List.in_map (fun t => callId (request t)) _ t Hn). }
  assert (E1 : effects (finalizeClientAndMemoryTools completed st)
               = effects st ++ match news (marked st) with
                               | [] => []
                               | _ :: _ => [PerformMemoryRefresh]
                               end).
  { rewrite F. destruct (news (marked st)).
    - rewrite app_nil_r. apply M.
    - cbn [effects set_processedMemoryToolsRef effect set_effects].
      rewrite (proj1 (M st)). reflexivity. }
  split; [|split; [|split]].
  - rewrite E1. destruct (news (marked st)); [left; apply app_nil_r|right; reflexivity].
  - rewrite E1. split.
    + destruct (news (marked st)) as [|t0 r] eqn:En.
      * rewrite app_nil_r. intros H.
        apply (f_equal (@List.length Effect)) in H. rewrite List.length_app in H.
        cbn in H. lia.
      * intros _. exists t0.
        assert (Hn : In t0 (news (marked st))) by (rewrite En; left; reflexivity).
        apply N in Hn. rewrite (proj2 (M st)) in Hn. exact Hn.
    + intros [t [Hin [Hs Hp]]].
      assert (Hn : In t (news (marked st)))
        by (apply N; rewrite (proj2 (M st)); auto).
      destruct (news (marked st)); [destruct Hn|reflexivity].
  - exact P.
  - rewrite (F (finalizeClientAndMemoryTools completed st)).
    assert (Z0 : news (marked (finalizeClientAndMemoryTools completed st)) = []).
    { apply filter_nil. intros t Hin.
      destruct ((tool_name (request t) =? "save_memory")
                && match status t with success => true | _ => false end) eqn:Es;
        [|reflexivity].
      cbn [andb]. apply negb_false_iff, bool_decide_eq_true.
      rewrite (proj2 (M _)). apply P; assumption. }
    rewrite Z0. apply M.
Qed.

Section ToolsProps.
Variable findLastSafeSplitPoint : string -> nat.
Variable basename : string -> string.
Variable pathJoin : string -> string -> string.

Local Abbreviation handleCompletedTools' := (handleCompletedTools findLastSafeSplitPoint).
Local Abbreviation saveOne := (saveRestorableToolCall basename pathJoin).
Local Abbreviation saveLoop := (saveRestorableLoop basename pathJoin).
Local Abbreviation saveAll := (saveRestorableToolCalls basename pathJoin).

(** X28: when the batch holds no call of the model that is ready to be
    submitted (its ready calls were all started by the client, a slash
    command for instance), the completion callback sends nothing to the
    backend and adds nothing to the conversation history: the responses
    of client-initiated calls are never echoed to the model.  The ready
    calls are marked as submitted. *)
Theorem handleCompletedTools_client_only (completed : list TrackedToolCall)
    (env : SubmitEnv) (st : State) :
  casualresearchTools completed = [] ->
  let st' := handleCompletedTools' completed env st in
  backendCalls st' = backendCalls st
  /\ clientHistory st' = clientHistory st
  /\ promptCount st' = promptCount st
  /\ (isResponding st = false ->
      forall tc, In tc (toolCalls st') ->
        In (callId (request tc))
          (map (fun t => callId (request t)) (completedAndReadyToSubmitTools completed)) ->
        responseSubmittedTocasualresearch tc = true).
Proof.
  intros Hnone. cbv zeta. unfold handleCompletedTools. rewrite Hnone.
  destruct (isResponding st) eqn:Er.
  - repeat split. discriminate.
  - destruct (finalize_frame completed st) as [Hp [Hb [Hc _]]].
    split; [exact Hb|]. split; [exact Hc|]. split; [exact Hp|].
    intros _ tc Hin Hid.
    assert (A : List.filter (fun t => isClientInitiated (request t))
                  (completedAndReadyToSubmitTools completed)
                = completedAndReadyToSubmitTools completed).
    { apply filter_all. exact Hnone. }
    unfold finalizeClientAndMemoryTools in Hin. rewrite A in Hin.
    destruct (completedAndReadyToSubmitTools completed) as [|t0 r0] eqn:Ec;
      [destruct Hid|].
    match type of Hin with
    | In tc (toolCalls match ?l with [] => ?a | _ :: _ => ?b end) =>
        assert (T : toolCalls match l with [] => a | _ :: _ => b end = toolCalls a)
          by (destruct l; reflexivity)
    end.
    rewrite T in Hin. exact (markToolsAsSubmitted_marks _ _ tc Hin Hid).
Qed.

(** What the loop body does for one call: one call to a collaborator,
    which is a debug message or the writing of a checkpoint for that
    call. *)
Lemma saveRestorableToolCall_effect config dir env h toolCall st :
  exists e,
    effects (saveOne config dir env h toolCall st) = effects st ++ [e]
    /\ clientHistory (saveOne config dir env h toolCall st) = clientHistory st
    /\ forall path cp, e = WriteFile path cp ->
         tool_args (request toolCall) !! "file_path" = Some (JStr (cp_filePath cp))
         /\ cp_filePath cp <> ""
         /\ cp_commitHash cp <> ""
         /\ cp_toolCall cp = (tool_name (request toolCall), tool_args (request toolCall))
         /\ cp_history cp = h
         /\ cp_clientHistory cp = clientHistory st
         /\ writeFileThrows env = false
         /\ exists name, path = pathJoin dir name.
Proof.
  assert (T : forall o c, truthyHash o = Some c -> c <> "").
  { intros [s|] c; [|discriminate]. unfold truthyHash.
    destruct (String.eqb_spec s ""); [discriminate|]. intros [= <-]. assumption. }
  unfold saveRestorableToolCall.
  destruct (tool_args (request toolCall) !! "file_path") as [filePath|] eqn:Ef;
    [|eexists; split; [reflexivity|]; split; [reflexivity|]; discriminate].
  destruct (truthy filePath) eqn:Et; cbn [negb];
    [|eexists; split; [reflexivity|]; split; [reflexivity|]; discriminate].
  assert (W : forall c, c <> "" ->
             exists e,
               effects
                 match filePath with
                 | JStr filePath0 =>
                     if writeFileThrows env
                     then effect (OnDebugMessage FailedToWriteFile) st
                     else
                       effect
                         (WriteFile
                            (pathJoin dir
                               (replaceAll dot underscore
                                  (replaceAll colon dash (isoTimestamp env))
                                ++ "-" ++ basename filePath0 ++ "-"
                                ++ tool_name (request toolCall) ++ ".json")%string)
                            {| cp_history := h;
                               cp_clientHistory := clientHistory st;
                               cp_toolCall :=
                                 (tool_name (request toolCall),
                                  tool_args (request toolCall));
                               cp_commitHash := c;
                               cp_filePath := filePath0 |}) st
                 | _ => effect (OnDebugMessage FailedToWriteFile) st
                 end = effects st ++ [e]
               /\ clientHistory
                    match filePath with
                    | JStr filePath0 =>
                        if writeFileThrows env
                        then effect (OnDebugMessage FailedToWriteFile) st
                        else
                          effect
                            (WriteFile
                               (pathJoin dir
                                  (replaceAll dot underscore
                                     (replaceAll colon dash (isoTimestamp env))
                                   ++ "-" ++ basename filePath0 ++ "-"
                                   ++ tool_name (request toolCall) ++ ".json")%string)
                               {| cp_history := h;
                                  cp_clientHistory := clientHistory st;
                                  cp_toolCall :=
                                    (tool_name (request toolCall),
                                     tool_args (request toolCall));
                                  cp_commitHash := c;
                                  cp_filePath := filePath0 |}) st
                    | _ => effect (OnDebugMessage FailedToWriteFile) st
                    end = clientHistory st
               /\ forall path cp, e = WriteFile path cp ->
                    Some filePath = Some (JStr (cp_filePath cp))
                    /\ cp_filePath cp <> ""
                    /\ cp_commitHash cp <> ""
                    /\ cp_toolCall cp
                       = (tool_name (request toolCall), tool_args (request toolCall))
                    /\ cp_history cp = h
                    /\ cp_clientHistory cp = clientHistory st
                    /\ writeFileThrows env = false
                    /\ exists name, path = pathJoin dir name).
  { intros c Hc.
    destruct filePath as [| | |fp| |];
      try (eexists; split; [reflexivity|]; split; [reflexivity|]; discriminate).
    destruct (writeFileThrows env) eqn:Ew;
      [eexists; split; [reflexivity|]; split; [reflexivity|]; discriminate|].
    eexists. split; [reflexivity|]. split; [reflexivity|].
    intros path cp [= <- <-]. cbn [cp_filePath cp_commitHash cp_toolCall cp_history
                                    cp_clientHistory].
    repeat split; try assumption.
    - cbn [truthy] in Et. apply negb_true_iff in Et.
      intros ->. discriminate.
    - eexists. reflexivity. }
  destruct (match projectRoot config with
            | Some root => negb (root =? "")
            | None => false
            end); cbn [negb];
    [|eexists; split; [reflexivity|]; split; [reflexivity|]; discriminate].
  destruct (createFileSnapshot env) as [|h1];
    [eexists; split; [reflexivity|]; split; [reflexivity|]; discriminate|].
  destruct (truthyHash h1) as [c1|] eqn:E1; [exact (W c1 (T _ _ E1))|].
  destruct (getCurrentCommitHash env) as [|h2];
    [eexists; split; [reflexivity|]; split; [reflexivity|]; discriminate|].
  destruct (truthyHash h2) as [c2|] eqn:E2; [exact (W c2 (T _ _ E2))|].
  eexists; split; [reflexivity|]; split; [reflexivity|]; discriminate.
Qed.

Lemma saveRestorableLoop_only config dir env h calls path cp : forall position st,
  In (WriteFile path cp) (effects (saveLoop config dir env h position calls st)) ->
  In (WriteFile path cp) (effects st)
  \/ exists toolCall,
       In toolCall calls
       /\ tool_args (request toolCall) !! "file_path" = Some (JStr (cp_filePath cp))
       /\ cp_filePath cp <> ""
       /\ cp_commitHash cp <> ""
       /\ cp_toolCall cp = (tool_name (request toolCall), tool_args (request toolCall))
       /\ cp_history cp = h
       /\ cp_clientHistory cp = clientHistory st
       /\ exists name, path = pathJoin dir name.
Proof.
  induction calls as [|c r IH]; intros position st Hin; [left; exact Hin|].
  cbn [saveRestorableLoop] in Hin.
  destruct (saveRestorableToolCall_effect config dir (snapshotEnv env position) h c st)
    as [e [He [Hc Hw]]].
  apply IH in Hin as [Hin|[tc [Htc Hrest]]].
  - rewrite He in Hin. apply in_app_or in Hin as [Hin|[Heq|[]]]; [left; exact Hin|].
    right. exists c. split; [left; reflexivity|].
    destruct (Hw path cp Heq) as [H1 [H2 [H3 [H4 [H5 [H6 [_ H8]]]]]]]. auto 10.
  - right. exists tc. split; [right; exact Htc|]. rewrite Hc in Hrest. exact Hrest.
Qed.

(** X29: the checkpoint effect writes a file only with checkpointing
    enabled and a project temp directory set, only under
    [<projectTempDir>/checkpoints], and only for a tracked call named
    [replace] or [write_file] that awaits approval and has a [file_path]
    argument that is a string and not empty; the file then holds that
    path, a commit hash that is not empty, the call's name and arguments,
    and the history and client history as they were when the effect
    ran. *)
Theorem saveRestorableToolCalls_only (config : Config) (env : CheckpointEnv)
    (st : State) (path : string) (cp : Checkpoint) :
  In (path, cp) (filesWritten (saveAll config env st)) ->
  In (path, cp) (filesWritten st)
  \/ (checkpointingEnabled config = true
      /\ exists tempDir toolCall name,
           projectTempDir config = Some tempDir /\ tempDir <> ""
           /\ path = pathJoin (pathJoin tempDir "checkpoints") name
           /\ In toolCall (toolCalls st)
           /\ status toolCall = awaiting_approval
           /\ (tool_name (request toolCall) = "replace"
               \/ tool_name (request toolCall) = "write_file")
           /\ tool_args (request toolCall) !! "file_path" = Some (JStr (cp_filePath cp))
           /\ cp_filePath cp <> ""
           /\ cp_commitHash cp <> ""
           /\ cp_toolCall cp = (tool_name (request toolCall), tool_args (request toolCall))
           /\ cp_history cp = history st
           /\ cp_clientHistory cp = clientHistory st).
Proof.
  assert (FW : forall s, In (path, cp) (filesWritten s) <-> In (WriteFile path cp) (effects s)).
  { intros s. unfold filesWritten. rewrite in_flat_map. split.
    - intros [e [He Hin]]. destruct e; try destruct Hin as [[= <- <-]|[]]; try destruct Hin.
      exact He.
    - intros H. exists (WriteFile path cp). split; [exact H|left; reflexivity]. }
  rewrite !FW. unfold saveRestorableToolCalls.
  destruct (checkpointingEnabled config) eqn:Een; cbn [negb]; [|auto].
  destruct (restorableToolCalls st) as [|c r] eqn:Er; [auto|].
  destruct (projectTempDir config) as [tempDir|] eqn:Et; [|auto].
  destruct (String.eqb_spec tempDir "") as [|Hne]; [auto|].
  assert (L : In (WriteFile path cp)
                (effects (saveLoop config (pathJoin tempDir "checkpoints") env
                            (history (effect (Mkdir (pathJoin tempDir "checkpoints")) st))
                            0 (c :: r)
                            (effect (Mkdir (pathJoin tempDir "checkpoints")) st))) ->
              In (WriteFile path cp) (effects st)
              \/ (true = true
                  /\ exists tempDir0 toolCall name,
                       Some tempDir = Some tempDir0 /\ tempDir0 <> ""
                       /\ path = pathJoin (pathJoin tempDir0 "checkpoints") name
                       /\ In toolCall (toolCalls st)
                       /\ status toolCall = awaiting_approval
                       /\ (tool_name (request toolCall) = "replace"
                           \/ tool_name (request toolCall) = "write_file")
                       /\ tool_args (request toolCall) !! "file_path"
                          = Some (JStr (cp_filePath cp))
                       /\ cp_filePath cp <> ""
                       /\ cp_commitHash cp <> ""
                       /\ cp_toolCall cp
                          = (tool_name (request toolCall), tool_args (request toolCall))
                       /\ cp_history cp = history st
                       /\ cp_clientHistory cp = clientHistory st)).
  { intros Hin. apply saveRestorableLoop_only in Hin as [Hin|[tc [Htc H]]].
    - cbn [effect set_effects effects] in Hin.
      apply in_app_or in Hin as [Hin|[Hin|[]]]; [left; exact Hin|discriminate].
    - right. split; [reflexivity|].
      destruct H as [H1 [H2 [H3 [H4 [H5 [H6 [name H7]]]]]]].
      rewrite <- Er in Htc. apply restorableToolCalls_spec in Htc as [Hin [Hname Hst]].
      exists tempDir, tc, name. cbn [effect set_effects history clientHistory] in *.
      auto 15. }
  destruct (mkdirResult env); try exact L.
  intros Hin. cbn [effect set_effects effects] in Hin.
  left. apply in_app_or in Hin as [Hin|[Hin|[]]]; [|discriminate].
  apply in_app_or in Hin as [Hin|[Hin|[]]]; [exact Hin|discriminate].
Qed.

End ToolsProps.

(** A batch that holds a successful [save_memory] call of the client. *)
Definition exMemorySave : TrackedToolCall :=
  {| request := {| callId := "m1"; tool_name := "save_memory"; tool_args := ∅;
                   isClientInitiated := true; prompt_id := "session########0" |};
     status := success;
     response := Some {| response_callId := "m1";
                         responseParts := PLOne (PUString "saved") |};
     responseSubmittedTocasualresearch := false |}.

Lemma handleCompletedTools_client_only_witness :
  backendCalls (handleCompletedTools exSplitPoint [exMemorySave] (exEnv [])
                  (set_toolCalls [exMemorySave] initialState)) = []
  /\ map responseSubmittedTocasualresearch
       (toolCalls (handleCompletedTools exSplitPoint [exMemorySave] (exEnv [])
                     (set_toolCalls [exMemorySave] initialState))) = [true]
  /\ memoryRefreshes (handleCompletedTools exSplitPoint [exMemorySave] (exEnv [])
                        (set_toolCalls [exMemorySave] initialState)) = 1.
Proof.
  split; [|split; reflexivity].
  exact (proj1 (handleCompletedTools_client_only exSplitPoint [exMemorySave] (exEnv [])
                  (set_toolCalls [exMemorySave] initialState) eq_refl)).
Defined.

Lemma saveRestorableToolCalls_only_witness :
  In ("/tmp/p/checkpoints/2025-07-01T10-20-30_123Z-a.ts-write_file.json",
      {| cp_history := [];
         cp_clientHistory := [];
         cp_toolCall := ("write_file", {[ "file_path" := JStr "/work/src/a.ts" ]});
         cp_commitHash := "abc123";
         cp_filePath := "/work/src/a.ts" |})
    (filesWritten (saveRestorableToolCalls exBasename exPathJoin (exConfig (Some "/tmp/p"))
                     (exCheckpointEnv MkdirDone false) exAwaitingApproval))
  /\ checkpointingEnabled (exConfig (Some "/tmp/p")) = true.
Proof.
  assert (H : In ("/tmp/p/checkpoints/2025-07-01T10-20-30_123Z-a.ts-write_file.json",
                  {| cp_history := [];
                     cp_clientHistory := [];
                     cp_toolCall :=
                       ("write_file", {[ "file_path" := JStr "/work/src/a.ts" ]});
                     cp_commitHash := "abc123";
                     cp_filePath := "/work/src/a.ts" |})
                (filesWritten
                   (saveRestorableToolCalls exBasename exPathJoin (exConfig (Some "/tmp/p"))
                      (exCheckpointEnv MkdirDone false) exAwaitingApproval))).
  { vm_compute. left. reflexivity. }
  split; [exact H|].
  destruct (saveRestorableToolCalls_only exBasename exPathJoin (exConfig (Some "/tmp/p"))
              (exCheckpointEnv MkdirDone false) exAwaitingApproval _ _ H) as [[]|[E _]].
  exact E.
Defined.

End OrchestratorTools.
